(** * Plan Engine (DUNE, [Plan::Engine::Task]): a shallow embedding

    The engine is the single-threaded task of [Plan/Engine/Task.cpp].  Its
    handlers ([consume] for every bound message, the body of the [onMain]
    loop) are embedded as functions on a record [Task] that carries the
    fields of the C++ struct and the list of messages handed to [dispatch].

    Conventions of the embedding:
    - [double] and [float] values are exact rationals ([Q]); the two
      timeouts, the sentinel [-1] and the comparisons of the source are
      exact on them.  One clock reading [now] is taken per handler call.
    - [uint16_t] / [uint32_t] counters are [Z] with the wrap-around written
      out.
    - Log calls ([inf], [war], [err], [debug]) have no effect on the engine
      and are left out, and so are the time stamps and source addresses
      that [dispatch] writes into a message header.  The report timer of
      the main loop is read from outside ([report_due]).
    - [Plan], [DataBaseInteraction] and [MementoHandler] are declared in
      headers of the repository that are not part of the sources at hand;
      they enter as interfaces (type classes) whose operations are pure
      functions on their own state. *)

From Stdlib Require Import QArith Lqa.
From stdpp Require Import base tactics option list strings gmap.

Set Default Proof Using "Type".

Open Scope Z_scope.

(** ** IMC messages, reduced to the fields the engine reads or writes *)

Module IMC.

(** Message header fields used through [getSource], [getSourceEntity],
    [getDestination], [getDestinationEntity]. *)
Record Header := mkHeader {
  src : Z;
  src_ent : Z;
  dst : Z;
  dst_ent : Z
}.

Definition header0 : Header := mkHeader 0 0 0 0.

Record EstimatedState := mkEstimatedState {
  es_src : Z;
  es_lat : Q;
  es_lon : Q;
  es_height : Q;
  es_x : Q;
  es_y : Q;
  es_z : Q
}.

Inductive ManeuverFields :=
| FStationKeeping (lat lon z : Q) (z_units : Z) (radius : Q)
                  (speed : Q) (speed_units : Z)
| FIdleManeuver (duration : Z)
| FOther (payload : string).

(** [IMC::Maneuver]: the base class of every maneuver message, with the
    message id and name of its dynamic type. *)
Record Maneuver := mkManeuver {
  man_mid : Z;
  man_name : string;
  man_memento : string;
  man_plan_ref : Z;
  man_fields : ManeuverFields
}.

Record PlanManeuver := mkPlanManeuver {
  maneuver_id : string;
  data : option Maneuver
}.

Record PlanTransition := mkPlanTransition {
  source_man : string;
  dest_man : string;
  conditions : string
}.

Record PlanSpecification := mkPlanSpecification {
  spec_src_ent : Z;
  spec_plan_id : string;
  spec_description : string;
  start_man_id : string;
  maneuvers : list (option PlanManeuver);
  transitions : list PlanTransition
}.

Record PlanMemento := mkPlanMemento {
  pm_id : string;
  pm_plan_id : string;
  pm_maneuver_id : string;
  pm_memento : string
}.

Record Memento := mkMemento {
  mem_id : string;
  mem_plan_ref : Z;
  mem_memento : string
}.

Record PlanStatistics := mkPlanStatistics {
  ps_plan_id : string;
  ps_properties : Z;
  ps_durations : string;
  ps_distances : string;
  ps_fuel : string
}.

(** What an [IMC::Message*] of the engine can point to. *)
Inductive Message :=
| MsgPlanSpecification (s : PlanSpecification)
| MsgPlanMemento (m : PlanMemento)
| MsgManeuver (m : Maneuver)
| MsgPlanStatistics (ps : PlanStatistics)
| MsgMemento (m : Memento).

Inductive PCType := PC_REQUEST | PC_SUCCESS | PC_FAILURE | PC_IN_PROGRESS.
Inductive PCOp := PC_START | PC_STOP | PC_LOAD | PC_GET | PC_OP_OTHER (raw : Z).

Record PlanControl := mkPlanControl {
  pc_hdr : Header;
  pc_type : PCType;
  pc_op : PCOp;
  pc_request_id : Z;
  pc_plan_id : string;
  pc_flags : Z;
  pc_arg : option Message;
  pc_info : string
}.

Definition FLG_CALIBRATE : Z := 1.

Inductive PCSState := PCS_BLOCKED | PCS_READY | PCS_INITIALIZING | PCS_EXECUTING.
Inductive LastOutcome := LPO_NONE | LPO_SUCCESS | LPO_FAILURE.

Record PlanControlState := mkPlanControlState {
  state : PCSState;
  pcs_plan_id : string;
  plan_eta : Z;
  plan_progress : Q;
  man_id : string;
  man_type : Z;
  man_eta : Z;
  last_outcome : LastOutcome
}.

Inductive VCType := VC_REQUEST | VC_SUCCESS | VC_IN_PROGRESS | VC_FAILURE.
Inductive VCCommand :=
  VC_EXEC_MANEUVER | VC_STOP_MANEUVER | VC_START_CALIBRATION | VC_STOP_CALIBRATION.

Record VehicleCommand := mkVehicleCommand {
  vc_hdr : Header;
  vc_type : VCType;
  vc_request_id : Z;
  vc_command : VCCommand;
  vc_maneuver : option Maneuver;
  vc_calib_time : Z;
  vc_info : string
}.

Inductive OpMode :=
  VS_SERVICE | VS_CALIBRATION | VS_ERROR | VS_MANEUVER | VS_EXTERNAL | VS_BOOT.

Record VehicleState := mkVehicleState {
  op_mode : OpMode;
  error_ents : string;
  maneuver_eta : Z;
  vs_flags : Z;
  last_error : string;
  last_error_time : Q
}.

Definition VFLG_MANEUVER_DONE : Z := 1.

Inductive MCSState := MCS_EXECUTING | MCS_DONE | MCS_ERROR | MCS_STOPPED.

Record ManeuverControlState := mkManeuverControlState {
  mcs_state : MCSState;
  mcs_eta : Z;
  mcs_info : string
}.

Inductive POp := POP_PWR_DOWN_IP | POP_PWR_DOWN_ABORTED | POP_OTHER.

Record PowerOperation := mkPowerOperation {
  po_dst : Z;
  po_op : POp
}.

Record RegisterManeuver := mkRegisterManeuver { mid : Z }.

Record EntityInfo := mkEntityInfo {
  ei_id : Z;
  ei_label : string;
  ei_component : string
}.

Inductive EASState := EAS_INACTIVE | EAS_ACT_IP | EAS_ACTIVE | EAS_DEACT_IP
                    | EAS_ACT_FAIL.

Record EntityActivationState := mkEntityActivationState {
  eas_src_ent : Z;
  eas_state : EASState;
  eas_error : string
}.

Record FuelLevel := mkFuelLevel {
  fl_value : Q;
  fl_confidence : Q
}.

Inductive DBDataType := DBDT_PLAN | DBDT_MEMENTO.

Record PlanDB := mkPlanDB {
  pdb_type : Z;
  pdb_op : Z;
  pdb_request_id : Z;
  pdb_plan_id : string;
  pdb_arg : option Message
}.

Inductive LCOp := COP_REQUEST_START | COP_OTHER.

Record LoggingControl := mkLoggingControl {
  lc_op : LCOp;
  lc_name : string
}.

Inductive EntityStateEnum :=
  ESTA_BOOT | ESTA_NORMAL | ESTA_FAULT | ESTA_ERROR | ESTA_FAILURE.

Definition DUNE_IMC_IDLEMANEUVER : Z := 454.
Definition DUNE_IMC_STATIONKEEPING : Z := 461.
Definition Z_DEPTH : Z := 1.
Definition SUNITS_RPM : Z := 1.

End IMC.
Export IMC.

(** ** Field updates of the message records ([msg.field = v]) *)

Definition set_state (v : PCSState) (x : PlanControlState) : PlanControlState :=
  mkPlanControlState v (pcs_plan_id x) (plan_eta x) (plan_progress x)
  (man_id x) (man_type x) (man_eta x) (last_outcome x).
Definition set_pcs_plan_id (v : string) (x : PlanControlState) : PlanControlState :=
  mkPlanControlState (state x) v (plan_eta x) (plan_progress x) (man_id x)
  (man_type x) (man_eta x) (last_outcome x).
Definition set_plan_eta (v : Z) (x : PlanControlState) : PlanControlState :=
  mkPlanControlState (state x) (pcs_plan_id x) v (plan_progress x)
  (man_id x) (man_type x) (man_eta x) (last_outcome x).
Definition set_plan_progress (v : Q) (x : PlanControlState) : PlanControlState :=
  mkPlanControlState (state x) (pcs_plan_id x) (plan_eta x) v (man_id x)
  (man_type x) (man_eta x) (last_outcome x).
Definition set_man_id (v : string) (x : PlanControlState) : PlanControlState :=
  mkPlanControlState (state x) (pcs_plan_id x) (plan_eta x)
  (plan_progress x) v (man_type x) (man_eta x) (last_outcome x).
Definition set_man_type (v : Z) (x : PlanControlState) : PlanControlState :=
  mkPlanControlState (state x) (pcs_plan_id x) (plan_eta x)
  (plan_progress x) (man_id x) v (man_eta x) (last_outcome x).
Definition set_man_eta (v : Z) (x : PlanControlState) : PlanControlState :=
  mkPlanControlState (state x) (pcs_plan_id x) (plan_eta x)
  (plan_progress x) (man_id x) (man_type x) v (last_outcome x).
Definition set_last_outcome (v : LastOutcome) (x : PlanControlState) : PlanControlState :=
  mkPlanControlState (state x) (pcs_plan_id x) (plan_eta x)
  (plan_progress x) (man_id x) (man_type x) (man_eta x) v.

Definition set_pc_hdr (v : Header) (x : PlanControl) : PlanControl :=
  mkPlanControl v (pc_type x) (pc_op x) (pc_request_id x) (pc_plan_id x)
  (pc_flags x) (pc_arg x) (pc_info x).
Definition set_pc_type (v : PCType) (x : PlanControl) : PlanControl :=
  mkPlanControl (pc_hdr x) v (pc_op x) (pc_request_id x) (pc_plan_id x)
  (pc_flags x) (pc_arg x) (pc_info x).
Definition set_pc_op (v : PCOp) (x : PlanControl) : PlanControl :=
  mkPlanControl (pc_hdr x) (pc_type x) v (pc_request_id x) (pc_plan_id x)
  (pc_flags x) (pc_arg x) (pc_info x).
Definition set_pc_request_id (v : Z) (x : PlanControl) : PlanControl :=
  mkPlanControl (pc_hdr x) (pc_type x) (pc_op x) v (pc_plan_id x)
  (pc_flags x) (pc_arg x) (pc_info x).
Definition set_pc_plan_id (v : string) (x : PlanControl) : PlanControl :=
  mkPlanControl (pc_hdr x) (pc_type x) (pc_op x) (pc_request_id x) v
  (pc_flags x) (pc_arg x) (pc_info x).
Definition set_pc_arg (v : option Message) (x : PlanControl) : PlanControl :=
  mkPlanControl (pc_hdr x) (pc_type x) (pc_op x) (pc_request_id x)
  (pc_plan_id x) (pc_flags x) v (pc_info x).
Definition set_pc_info (v : string) (x : PlanControl) : PlanControl :=
  mkPlanControl (pc_hdr x) (pc_type x) (pc_op x) (pc_request_id x)
  (pc_plan_id x) (pc_flags x) (pc_arg x) v.

Definition set_vc_type (v : VCType) (x : VehicleCommand) : VehicleCommand :=
  mkVehicleCommand (vc_hdr x) v (vc_request_id x) (vc_command x)
  (vc_maneuver x) (vc_calib_time x) (vc_info x).
Definition set_vc_request_id (v : Z) (x : VehicleCommand) : VehicleCommand :=
  mkVehicleCommand (vc_hdr x) (vc_type x) v (vc_command x) (vc_maneuver x)
  (vc_calib_time x) (vc_info x).
Definition set_vc_command (v : VCCommand) (x : VehicleCommand) : VehicleCommand :=
  mkVehicleCommand (vc_hdr x) (vc_type x) (vc_request_id x) v
  (vc_maneuver x) (vc_calib_time x) (vc_info x).
Definition set_vc_maneuver (v : option Maneuver) (x : VehicleCommand) : VehicleCommand :=
  mkVehicleCommand (vc_hdr x) (vc_type x) (vc_request_id x) (vc_command x)
  v (vc_calib_time x) (vc_info x).
Definition set_vc_calib_time (v : Z) (x : VehicleCommand) : VehicleCommand :=
  mkVehicleCommand (vc_hdr x) (vc_type x) (vc_request_id x) (vc_command x)
  (vc_maneuver x) v (vc_info x).

Definition set_spec_src_ent (v : Z) (x : PlanSpecification) : PlanSpecification :=
  mkPlanSpecification v (spec_plan_id x) (spec_description x)
  (start_man_id x) (maneuvers x) (transitions x).
Definition set_start_man_id (v : string) (x : PlanSpecification) : PlanSpecification :=
  mkPlanSpecification (spec_src_ent x) (spec_plan_id x)
  (spec_description x) v (maneuvers x) (transitions x).
Definition set_maneuvers (v : list (option PlanManeuver)) (x : PlanSpecification) : PlanSpecification :=
  mkPlanSpecification (spec_src_ent x) (spec_plan_id x)
  (spec_description x) (start_man_id x) v (transitions x).

Definition set_dst (v : Z) (h : Header) : Header :=
  mkHeader (src h) (src_ent h) v (dst_ent h).
Definition set_dst_ent (v : Z) (h : Header) : Header :=
  mkHeader (src h) (src_ent h) (dst h) v.

(** [IMC::PlanSpecification::clear]: the fields go back to their defaults,
    the header stays. *)
Definition clear_spec (s : PlanSpecification) : PlanSpecification :=
  mkPlanSpecification (spec_src_ent s) "" "" "" [] [].

Global Instance PCSState_eq_dec : EqDecision PCSState.
Proof. solve_decision. Defined.
Global Instance VCType_eq_dec : EqDecision VCType.
Proof. solve_decision. Defined.
Global Instance PCType_eq_dec : EqDecision PCType.
Proof. solve_decision. Defined.
Global Instance VCCommand_eq_dec : EqDecision VCCommand.
Proof. solve_decision. Defined.
Global Instance EntityStateEnum_eq_dec : EqDecision EntityStateEnum.
Proof. solve_decision. Defined.
Global Instance OpMode_eq_dec : EqDecision OpMode.
Proof. solve_decision. Defined.

(** ** Engine-local types *)

Definition c_vc_reply_timeout : Q := 2.5.
Definition c_vs_timeout : Q := 2.5.

Inductive EngineState :=
  ST_BOOT | ST_READY | ST_STOPPING | ST_START_ACTIV | ST_ACTIVATING
| ST_START_EXEC | ST_EXECUTING | ST_BLOCKED.

Record Arguments := mkArguments {
  progress : bool;
  fpredict : bool;
  speriod : Q;
  calibration_time : Z;
  do_calib : bool;
  actfail_abort : bool;
  sk_calib : bool;
  sk_radius : Q;
  sk_rpm : Q;
  label_imu : string
}.

Inductive StatusCode := CODE_INIT | CODE_ACTIVE | CODE_DB_ERROR | CODE_POWER_DOWN.

(** A message handed to [dispatch]. *)
Inductive BusMsg :=
| OutPlanControlState (pcs : PlanControlState)
| OutPlanControl (pc : PlanControl)
| OutVehicleCommand (vc : VehicleCommand)
| OutLoggingControl (lc : LoggingControl)
| OutPlanSpecification (s : PlanSpecification).

(** ** Collaborators declared outside the sources at hand *)

(** What a [Plan] method can see besides its arguments: the specification
    it was constructed on ([&m_spec]) and the clock. *)
Record PlanEnv := mkPlanEnv {
  pe_spec : PlanSpecification;
  pe_now : Q
}.

(** The methods of [Plan] (Plan.hpp, Calibration.hpp) the engine calls.  A
    method that returns a pointer to a maneuver returns the maneuver; the
    write [man->plan_ref = m_plan_ref] of [startManeuver] reaches the copy
    sent to the vehicle only.  Messages a [Plan] object dispatches on its
    own are not part of the engine's trace. *)
Class PlanModel (P : Type) := {
  plan_parse : PlanEnv -> gset Z -> gmap string EntityInfo -> bool ->
               EstimatedState -> P -> (PlanStatistics + string) * P;
  plan_clear : PlanEnv -> P -> P;
  planStarted : PlanEnv -> P -> P;
  planStopped : PlanEnv -> P -> P;
  loadStartManeuver : PlanEnv -> P -> option PlanManeuver * P;
  loadNextManeuver : PlanEnv -> P -> option PlanManeuver * P;
  maneuverStarted : PlanEnv -> string -> P -> P;
  maneuverDone : PlanEnv -> P -> P;
  updateProgress : PlanEnv -> ManeuverControlState -> P -> Q * P;
  getETA : PlanEnv -> P -> Z;
  updateCalibration : PlanEnv -> VehicleState -> P -> P;
  isCalibrationDone : PlanEnv -> P -> bool;
  hasCalibrationFailed : PlanEnv -> P -> bool;
  getCalibrationInfo : PlanEnv -> P -> string;
  calibrationStarted : PlanEnv -> P -> P;
  getEstimatedCalibrationTime : PlanEnv -> P -> Z;
  onEntityActivationState : PlanEnv -> string -> EntityActivationState -> P -> bool * P;
  onFuelLevel : PlanEnv -> FuelLevel -> P -> P;
  isDone : PlanEnv -> P -> bool;
  getCurrentId : PlanEnv -> P -> string
}.

(** The methods of [DataBaseInteraction].  A search that fails yields its
    [info] text and leaves the out-parameter alone. *)
Class DataBase (D : Type) := {
  db_open : D -> bool * D;
  db_close : D -> D;
  onPlanDB : PlanDB -> D -> bool * D;
  sendToDB : DBDataType -> string -> Message -> D -> D;
  searchSpecInDB : string -> D -> PlanSpecification + string;
  searchMementoInDB : string -> D -> PlanMemento + string
}.

(** The methods of [MementoHandler]. *)
Class MementoOps (M : Type) := {
  mh_add : Z -> PlanSpecification -> M -> M;
  processMemento : Memento -> M -> option PlanMemento * M
}.

(** Functions of the DUNE runtime: [Task::resolveEntity] (which throws on
    an unknown id), [Coordinates::toWGS84], and what
    [static_cast<const IMC::Maneuver*>] makes of a message that is not a
    maneuver. *)
Class Runtime := {
  resolveEntity : Z -> option string;
  toWGS84 : EstimatedState -> Q * Q;
  castManeuver : Message -> Maneuver
}.

(** ** The engine *)

Section Engine.

Context {P D M : Type}.
Context `{PM : PlanModel P} `{DB : DataBase D} `{MH : MementoOps M}.
Context `{RT : Runtime}.

(** The fields of [struct Task], then what the engine uses of its base
    class ([getSystemId], [getEntityId], [getEntityState]), then the
    messages dispatched so far, oldest first.  [m_plan] and [m_db] are
    allocated by [onResourceAcquisition] before any handler runs, so the
    [m_plan != NULL] tests of the handlers are constant. *)
Record Task := mkTask {
  m_plan : P;
  m_pcs : PlanControlState;
  m_reply : PlanControl;
  m_last_event : string;
  m_vreq_ctr : Z;
  m_vc_reply_deadline : Q;
  m_last_vstate : Q;
  m_vc : VehicleCommand;
  m_spec : PlanSpecification;
  m_supported_maneuvers : gset Z;
  m_db : D;
  m_lc : LoggingControl;
  m_state : EstimatedState;
  m_mcs : ManeuverControlState;
  m_cinfo : gmap string EntityInfo;
  m_eid_imu : Z;
  m_imu_enabled : bool;
  m_requests : list PlanControl;
  m_plan_ref : Z;
  m_mh : M;
  m_sm : EngineState;
  m_next_sm : EngineState;
  m_args : Arguments;
  system_id : Z;
  entity_id : Z;
  m_entity : EntityStateEnum * StatusCode;
  bus : list BusMsg
}.

Definition set_m_plan (v : P) (x : Task) : Task :=
  mkTask v (m_pcs x) (m_reply x) (m_last_event x) (m_vreq_ctr x)
  (m_vc_reply_deadline x) (m_last_vstate x) (m_vc x) (m_spec x)
  (m_supported_maneuvers x) (m_db x) (m_lc x) (m_state x) (m_mcs x)
  (m_cinfo x) (m_eid_imu x) (m_imu_enabled x) (m_requests x)
  (m_plan_ref x) (m_mh x) (m_sm x) (m_next_sm x) (m_args x) (system_id x)
  (entity_id x) (m_entity x) (bus x).
Definition set_m_pcs (v : PlanControlState) (x : Task) : Task :=
  mkTask (m_plan x) v (m_reply x) (m_last_event x) (m_vreq_ctr x)
  (m_vc_reply_deadline x) (m_last_vstate x) (m_vc x) (m_spec x)
  (m_supported_maneuvers x) (m_db x) (m_lc x) (m_state x) (m_mcs x)
  (m_cinfo x) (m_eid_imu x) (m_imu_enabled x) (m_requests x)
  (m_plan_ref x) (m_mh x) (m_sm x) (m_next_sm x) (m_args x) (system_id x)
  (entity_id x) (m_entity x) (bus x).
Definition set_m_reply (v : PlanControl) (x : Task) : Task :=
  mkTask (m_plan x) (m_pcs x) v (m_last_event x) (m_vreq_ctr x)
  (m_vc_reply_deadline x) (m_last_vstate x) (m_vc x) (m_spec x)
  (m_supported_maneuvers x) (m_db x) (m_lc x) (m_state x) (m_mcs x)
  (m_cinfo x) (m_eid_imu x) (m_imu_enabled x) (m_requests x)
  (m_plan_ref x) (m_mh x) (m_sm x) (m_next_sm x) (m_args x) (system_id x)
  (entity_id x) (m_entity x) (bus x).
Definition set_m_last_event (v : string) (x : Task) : Task :=
  mkTask (m_plan x) (m_pcs x) (m_reply x) v (m_vreq_ctr x)
  (m_vc_reply_deadline x) (m_last_vstate x) (m_vc x) (m_spec x)
  (m_supported_maneuvers x) (m_db x) (m_lc x) (m_state x) (m_mcs x)
  (m_cinfo x) (m_eid_imu x) (m_imu_enabled x) (m_requests x)
  (m_plan_ref x) (m_mh x) (m_sm x) (m_next_sm x) (m_args x) (system_id x)
  (entity_id x) (m_entity x) (bus x).
Definition set_m_vreq_ctr (v : Z) (x : Task) : Task :=
  mkTask (m_plan x) (m_pcs x) (m_reply x) (m_last_event x) v
  (m_vc_reply_deadline x) (m_last_vstate x) (m_vc x) (m_spec x)
  (m_supported_maneuvers x) (m_db x) (m_lc x) (m_state x) (m_mcs x)
  (m_cinfo x) (m_eid_imu x) (m_imu_enabled x) (m_requests x)
  (m_plan_ref x) (m_mh x) (m_sm x) (m_next_sm x) (m_args x) (system_id x)
  (entity_id x) (m_entity x) (bus x).
Definition set_m_vc_reply_deadline (v : Q) (x : Task) : Task :=
  mkTask (m_plan x) (m_pcs x) (m_reply x) (m_last_event x) (m_vreq_ctr x)
  v (m_last_vstate x) (m_vc x) (m_spec x) (m_supported_maneuvers x)
  (m_db x) (m_lc x) (m_state x) (m_mcs x) (m_cinfo x) (m_eid_imu x)
  (m_imu_enabled x) (m_requests x) (m_plan_ref x) (m_mh x) (m_sm x)
  (m_next_sm x) (m_args x) (system_id x) (entity_id x) (m_entity x)
  (bus x).
Definition set_m_last_vstate (v : Q) (x : Task) : Task :=
  mkTask (m_plan x) (m_pcs x) (m_reply x) (m_last_event x) (m_vreq_ctr x)
  (m_vc_reply_deadline x) v (m_vc x) (m_spec x) (m_supported_maneuvers x)
  (m_db x) (m_lc x) (m_state x) (m_mcs x) (m_cinfo x) (m_eid_imu x)
  (m_imu_enabled x) (m_requests x) (m_plan_ref x) (m_mh x) (m_sm x)
  (m_next_sm x) (m_args x) (system_id x) (entity_id x) (m_entity x)
  (bus x).
Definition set_m_vc (v : VehicleCommand) (x : Task) : Task :=
  mkTask (m_plan x) (m_pcs x) (m_reply x) (m_last_event x) (m_vreq_ctr x)
  (m_vc_reply_deadline x) (m_last_vstate x) v (m_spec x)
  (m_supported_maneuvers x) (m_db x) (m_lc x) (m_state x) (m_mcs x)
  (m_cinfo x) (m_eid_imu x) (m_imu_enabled x) (m_requests x)
  (m_plan_ref x) (m_mh x) (m_sm x) (m_next_sm x) (m_args x) (system_id x)
  (entity_id x) (m_entity x) (bus x).
Definition set_m_spec (v : PlanSpecification) (x : Task) : Task :=
  mkTask (m_plan x) (m_pcs x) (m_reply x) (m_last_event x) (m_vreq_ctr x)
  (m_vc_reply_deadline x) (m_last_vstate x) (m_vc x) v
  (m_supported_maneuvers x) (m_db x) (m_lc x) (m_state x) (m_mcs x)
  (m_cinfo x) (m_eid_imu x) (m_imu_enabled x) (m_requests x)
  (m_plan_ref x) (m_mh x) (m_sm x) (m_next_sm x) (m_args x) (system_id x)
  (entity_id x) (m_entity x) (bus x).
Definition set_m_supported_maneuvers (v : gset Z) (x : Task) : Task :=
  mkTask (m_plan x) (m_pcs x) (m_reply x) (m_last_event x) (m_vreq_ctr x)
  (m_vc_reply_deadline x) (m_last_vstate x) (m_vc x) (m_spec x) v (m_db x)
  (m_lc x) (m_state x) (m_mcs x) (m_cinfo x) (m_eid_imu x)
  (m_imu_enabled x) (m_requests x) (m_plan_ref x) (m_mh x) (m_sm x)
  (m_next_sm x) (m_args x) (system_id x) (entity_id x) (m_entity x)
  (bus x).
Definition set_m_db (v : D) (x : Task) : Task :=
  mkTask (m_plan x) (m_pcs x) (m_reply x) (m_last_event x) (m_vreq_ctr x)
  (m_vc_reply_deadline x) (m_last_vstate x) (m_vc x) (m_spec x)
  (m_supported_maneuvers x) v (m_lc x) (m_state x) (m_mcs x) (m_cinfo x)
  (m_eid_imu x) (m_imu_enabled x) (m_requests x) (m_plan_ref x) (m_mh x)
  (m_sm x) (m_next_sm x) (m_args x) (system_id x) (entity_id x)
  (m_entity x) (bus x).
Definition set_m_lc (v : LoggingControl) (x : Task) : Task :=
  mkTask (m_plan x) (m_pcs x) (m_reply x) (m_last_event x) (m_vreq_ctr x)
  (m_vc_reply_deadline x) (m_last_vstate x) (m_vc x) (m_spec x)
  (m_supported_maneuvers x) (m_db x) v (m_state x) (m_mcs x) (m_cinfo x)
  (m_eid_imu x) (m_imu_enabled x) (m_requests x) (m_plan_ref x) (m_mh x)
  (m_sm x) (m_next_sm x) (m_args x) (system_id x) (entity_id x)
  (m_entity x) (bus x).
Definition set_m_state (v : EstimatedState) (x : Task) : Task :=
  mkTask (m_plan x) (m_pcs x) (m_reply x) (m_last_event x) (m_vreq_ctr x)
  (m_vc_reply_deadline x) (m_last_vstate x) (m_vc x) (m_spec x)
  (m_supported_maneuvers x) (m_db x) (m_lc x) v (m_mcs x) (m_cinfo x)
  (m_eid_imu x) (m_imu_enabled x) (m_requests x) (m_plan_ref x) (m_mh x)
  (m_sm x) (m_next_sm x) (m_args x) (system_id x) (entity_id x)
  (m_entity x) (bus x).
Definition set_m_mcs (v : ManeuverControlState) (x : Task) : Task :=
  mkTask (m_plan x) (m_pcs x) (m_reply x) (m_last_event x) (m_vreq_ctr x)
  (m_vc_reply_deadline x) (m_last_vstate x) (m_vc x) (m_spec x)
  (m_supported_maneuvers x) (m_db x) (m_lc x) (m_state x) v (m_cinfo x)
  (m_eid_imu x) (m_imu_enabled x) (m_requests x) (m_plan_ref x) (m_mh x)
  (m_sm x) (m_next_sm x) (m_args x) (system_id x) (entity_id x)
  (m_entity x) (bus x).
Definition set_m_cinfo (v : gmap string EntityInfo) (x : Task) : Task :=
  mkTask (m_plan x) (m_pcs x) (m_reply x) (m_last_event x) (m_vreq_ctr x)
  (m_vc_reply_deadline x) (m_last_vstate x) (m_vc x) (m_spec x)
  (m_supported_maneuvers x) (m_db x) (m_lc x) (m_state x) (m_mcs x) v
  (m_eid_imu x) (m_imu_enabled x) (m_requests x) (m_plan_ref x) (m_mh x)
  (m_sm x) (m_next_sm x) (m_args x) (system_id x) (entity_id x)
  (m_entity x) (bus x).
Definition set_m_imu_enabled (v : bool) (x : Task) : Task :=
  mkTask (m_plan x) (m_pcs x) (m_reply x) (m_last_event x) (m_vreq_ctr x)
  (m_vc_reply_deadline x) (m_last_vstate x) (m_vc x) (m_spec x)
  (m_supported_maneuvers x) (m_db x) (m_lc x) (m_state x) (m_mcs x)
  (m_cinfo x) (m_eid_imu x) v (m_requests x) (m_plan_ref x) (m_mh x)
  (m_sm x) (m_next_sm x) (m_args x) (system_id x) (entity_id x)
  (m_entity x) (bus x).
Definition set_m_requests (v : list PlanControl) (x : Task) : Task :=
  mkTask (m_plan x) (m_pcs x) (m_reply x) (m_last_event x) (m_vreq_ctr x)
  (m_vc_reply_deadline x) (m_last_vstate x) (m_vc x) (m_spec x)
  (m_supported_maneuvers x) (m_db x) (m_lc x) (m_state x) (m_mcs x)
  (m_cinfo x) (m_eid_imu x) (m_imu_enabled x) v (m_plan_ref x) (m_mh x)
  (m_sm x) (m_next_sm x) (m_args x) (system_id x) (entity_id x)
  (m_entity x) (bus x).
Definition set_m_plan_ref (v : Z) (x : Task) : Task :=
  mkTask (m_plan x) (m_pcs x) (m_reply x) (m_last_event x) (m_vreq_ctr x)
  (m_vc_reply_deadline x) (m_last_vstate x) (m_vc x) (m_spec x)
  (m_supported_maneuvers x) (m_db x) (m_lc x) (m_state x) (m_mcs x)
  (m_cinfo x) (m_eid_imu x) (m_imu_enabled x) (m_requests x) v (m_mh x)
  (m_sm x) (m_next_sm x) (m_args x) (system_id x) (entity_id x)
  (m_entity x) (bus x).
Definition set_m_mh (v : M) (x : Task) : Task :=
  mkTask (m_plan x) (m_pcs x) (m_reply x) (m_last_event x) (m_vreq_ctr x)
  (m_vc_reply_deadline x) (m_last_vstate x) (m_vc x) (m_spec x)
  (m_supported_maneuvers x) (m_db x) (m_lc x) (m_state x) (m_mcs x)
  (m_cinfo x) (m_eid_imu x) (m_imu_enabled x) (m_requests x)
  (m_plan_ref x) v (m_sm x) (m_next_sm x) (m_args x) (system_id x)
  (entity_id x) (m_entity x) (bus x).
Definition set_m_entity (v : EntityStateEnum * StatusCode) (x : Task) : Task :=
  mkTask (m_plan x) (m_pcs x) (m_reply x) (m_last_event x) (m_vreq_ctr x)
  (m_vc_reply_deadline x) (m_last_vstate x) (m_vc x) (m_spec x)
  (m_supported_maneuvers x) (m_db x) (m_lc x) (m_state x) (m_mcs x)
  (m_cinfo x) (m_eid_imu x) (m_imu_enabled x) (m_requests x)
  (m_plan_ref x) (m_mh x) (m_sm x) (m_next_sm x) (m_args x) (system_id x)
  (entity_id x) v (bus x).
Definition set_bus (v : list BusMsg) (x : Task) : Task :=
  mkTask (m_plan x) (m_pcs x) (m_reply x) (m_last_event x) (m_vreq_ctr x)
  (m_vc_reply_deadline x) (m_last_vstate x) (m_vc x) (m_spec x)
  (m_supported_maneuvers x) (m_db x) (m_lc x) (m_state x) (m_mcs x)
  (m_cinfo x) (m_eid_imu x) (m_imu_enabled x) (m_requests x)
  (m_plan_ref x) (m_mh x) (m_sm x) (m_next_sm x) (m_args x) (system_id x)
  (entity_id x) (m_entity x) v.


(** *** Small inline predicates *)

Definition getEntityState (t : Task) : EntityStateEnum := fst (m_entity t).

Definition setEntityState (s : EntityStateEnum) (c : StatusCode) (t : Task) : Task :=
  set_m_entity (s, c) t.

Definition Qlt_bool (x y : Q) : bool := negb (Qle_bool y x).

Definition pendingReply (t : Task) : bool :=
  Qle_bool 0 (m_vc_reply_deadline t).

Definition blockedMode (t : Task) : bool :=
  bool_decide (state (m_pcs t) = PCS_BLOCKED).

Definition readyMode (t : Task) : bool :=
  bool_decide (state (m_pcs t) = PCS_READY).

Definition initMode (t : Task) : bool :=
  bool_decide (state (m_pcs t) = PCS_INITIALIZING).

Definition execMode (t : Task) : bool :=
  bool_decide (state (m_pcs t) = PCS_EXECUTING).

Definition penv (now : Q) (t : Task) : PlanEnv := mkPlanEnv (m_spec t) now.

Definition dispatch (m : BusMsg) (t : Task) : Task :=
  set_bus (bus t ++ [m]) t.

Definition changeLog (name : string) (t : Task) : Task :=
  let t := set_m_lc (mkLoggingControl COP_REQUEST_START name) t in
  dispatch (OutLoggingControl (m_lc t)) t.

(** *** Replies to the operator *)

Definition answer (type : PCType) (desc : string) (t : Task) : Task :=
  let t := set_m_reply (set_pc_type type (m_reply t)) t in
  let t := set_m_reply (set_pc_info desc (m_reply t)) t in
  dispatch (OutPlanControl (m_reply t)) t.

Definition onFailure (errmsg : string) (t : Task) : Task :=
  let t := set_m_pcs (set_last_outcome LPO_FAILURE (m_pcs t)) t in
  let t := set_m_pcs (set_plan_progress (-1)%Q (m_pcs t)) t in
  let t := set_m_pcs (set_plan_eta 0 (m_pcs t)) t in
  answer PC_FAILURE errmsg t.

Definition onSuccess (msg : string) (t : Task) : Task :=
  let t := set_m_pcs (set_plan_progress (-1)%Q (m_pcs t)) t in
  let t := set_m_pcs (set_plan_eta 0 (m_pcs t)) t in
  answer PC_SUCCESS msg t.

(** *** Mode changes *)

Definition changeMode (s : PCSState) (event_desc : string) (nid : string)
    (maneuver : option Maneuver) (now : Q) (t : Task) : Task :=
  let t := set_m_last_event event_desc t in
  let t :=
    if bool_decide (s <> state (m_pcs t)) then
      let was_in_plan := initMode t || execMode t in
      let t := set_m_pcs (set_state s (m_pcs t)) t in
      let is_in_plan := initMode t || execMode t in
      if was_in_plan && negb is_in_plan then
        let t := set_m_plan (planStopped (penv now t) (m_plan t)) t in
        changeLog "" t
      else t
    else t in
  let t :=
    match maneuver with
    | Some m =>
        let t := set_m_pcs (set_man_id nid (m_pcs t)) t in
        set_m_pcs (set_man_type (man_mid m) (m_pcs t)) t
    | None =>
        let t := set_m_pcs (set_man_id "" (m_pcs t)) t in
        set_m_pcs (set_man_type 65535 (m_pcs t)) t
    end in
  dispatch (OutPlanControlState (m_pcs t)) t.

(** The three-argument overload. *)
Definition changeMode3 (s : PCSState) (event_desc : string) (now : Q) (t : Task)
    : Task :=
  changeMode s event_desc "" None now t.

(** *** Vehicle interface *)

Definition vehicleRequest (command : VCCommand) (arg : option Maneuver)
    (now : Q) (t : Task) : Task :=
  let t := set_m_vc (set_vc_type VC_REQUEST (m_vc t)) t in
  let t := set_m_vreq_ctr ((m_vreq_ctr t + 1) mod 65536) t in
  let t := set_m_vc (set_vc_request_id (m_vreq_ctr t) (m_vc t)) t in
  let t := set_m_vc (set_vc_command command (m_vc t)) t in
  let t :=
    match arg with
    | Some m => set_m_vc (set_vc_maneuver (Some m) (m_vc t)) t
    | None => t
    end in
  let t :=
    if bool_decide (command = VC_START_CALIBRATION) then
      let t := set_m_plan (calibrationStarted (penv now t) (m_plan t)) t in
      set_m_vc (set_vc_calib_time
        (getEstimatedCalibrationTime (penv now t) (m_plan t) mod 65536) (m_vc t)) t
    else set_m_vc (set_vc_calib_time 0 (m_vc t)) t in
  let t := dispatch (OutVehicleCommand (m_vc t)) t in
  let t :=
    match arg with
    | Some _ => set_m_vc (set_vc_maneuver None (m_vc t)) t
    | None => t
    end in
  set_m_vc_reply_deadline (now + c_vc_reply_timeout)%Q t.

Definition set_man_plan_ref (r : Z) (m : Maneuver) : Maneuver :=
  mkManeuver (man_mid m) (man_name m) (man_memento m) r (man_fields m).

Definition set_man_memento (v : string) (m : Maneuver) : Maneuver :=
  mkManeuver (man_mid m) (man_name m) v (man_plan_ref m) (man_fields m).

Definition startManeuver (pman : option PlanManeuver) (now : Q) (t : Task) : Task :=
  match pman with
  | None =>
      changeMode3 PCS_READY
        (getCurrentId (penv now t) (m_plan t) +:+ ": invalid maneuver ID") now t
  | Some pm =>
      let man := set_man_plan_ref (m_plan_ref t) <$> data pm in
      let t := vehicleRequest VC_EXEC_MANEUVER man now t in
      let t := changeMode PCS_EXECUTING
                 (maneuver_id pm +:+ ": executing maneuver")
                 (maneuver_id pm) man now t in
      set_m_plan (maneuverStarted (penv now t) (maneuver_id pm) (m_plan t)) t
  end.

Definition startCalibration (now : Q) (t : Task) : bool * Task :=
  if blockedMode t then
    (false, onFailure "cannot initialize plan in BLOCKED state" t)
  else
    let m :=
      if sk_calib (m_args t) then
        let '(lat, lon) := toWGS84 (m_state t) in
        mkManeuver DUNE_IMC_STATIONKEEPING "StationKeeping" "" 0
          (FStationKeeping lat lon 0%Q Z_DEPTH (sk_radius (m_args t))
             (sk_rpm (m_args t)) SUNITS_RPM)
      else
        mkManeuver DUNE_IMC_IDLEMANEUVER "IdleManeuver" "" 0 (FIdleManeuver 0) in
    (true, vehicleRequest VC_EXEC_MANEUVER (Some m) now t).


(** *** Resolving the argument of a load or start request *)

Definition handleArgSpecification (given_plan : PlanSpecification) (info : string)
    (t : Task) : bool * string * Task :=
  let t := set_m_spec given_plan t in
  let t := set_m_spec (set_spec_src_ent (entity_id t) (m_spec t)) t in
  let t := set_m_db (sendToDB DBDT_PLAN (spec_plan_id (m_spec t))
                       (MsgPlanSpecification (m_spec t)) (m_db t)) t in
  (true, info, t).

(** Outcome of the loop of [handleArgMemento] over [m_spec.maneuvers]. *)
Inductive Resume :=
| Resumed (l : list (option PlanManeuver))
| NoData (id : string)
| NoManeuver.

Fixpoint insertMemento (pmem : PlanMemento) (l : list (option PlanManeuver))
    : Resume :=
  match l with
  | [] => NoManeuver
  | None :: r =>
      match insertMemento pmem r with
      | Resumed r' => Resumed (None :: r')
      | other => other
      end
  | Some pm :: r =>
      if String.eqb (maneuver_id pm) (pm_maneuver_id pmem) then
        match data pm with
        | None => NoData (maneuver_id pm)
        | Some m =>
            Resumed (Some (mkPlanManeuver (maneuver_id pm)
                             (Some (set_man_memento (pm_memento pmem) m))) :: r)
        end
      else
        match insertMemento pmem r with
        | Resumed r' => Resumed (Some pm :: r')
        | other => other
        end
  end.

Definition handleArgMemento (pmem : PlanMemento) (info : string) (t : Task)
    : bool * string * Task :=
  let t := set_m_spec (clear_spec (m_spec t)) t in
  match searchSpecInDB (pm_plan_id pmem) (m_db t) with
  | inr info =>
      (false, info, onFailure info t)
  | inl found =>
      let t := set_m_spec found t in
      let t := set_m_spec (set_spec_src_ent (entity_id t) (m_spec t)) t in
      let t := set_m_spec (set_start_man_id (pm_maneuver_id pmem) (m_spec t)) t in
      match insertMemento pmem (maneuvers (m_spec t)) with
      | NoData id =>
          (false, id +:+ "actual maneuver not specified", t)
      | Resumed l =>
          let t := set_m_spec (set_maneuvers l (m_spec t)) t in
          let t := set_m_db (sendToDB DBDT_MEMENTO (pm_id pmem)
                               (MsgPlanMemento pmem) (m_db t)) t in
          (true, info, t)
      | NoManeuver =>
          (false, "could not find resume maneuver: " +:+ pm_maneuver_id pmem, t)
      end
  end.

Definition handleQuickPlan (id : string) (man : Maneuver) (info : string)
    (t : Task) : bool * string * Task :=
  let spec_man := mkPlanManeuver (man_name man) (Some man) in
  let t := set_m_spec (clear_spec (m_spec t)) t in
  let t := set_m_spec
             (mkPlanSpecification (spec_src_ent (m_spec t)) id
                (spec_description (m_spec t)) (man_name man)
                (maneuvers (m_spec t) ++ [Some spec_man])
                (transitions (m_spec t))) t in
  let t := set_m_db (sendToDB DBDT_PLAN (spec_plan_id (m_spec t))
                       (MsgPlanSpecification (m_spec t)) (m_db t)) t in
  (true, info, t).

(** [parseArg].  Its one recursive call, on the memento found in the
    database, lands in [handleArgMemento] and is written as that call. *)
Definition parseArg (id : string) (arg : option Message) (info : string)
    (t : Task) : bool * string * Task :=
  match arg with
  | Some (MsgPlanSpecification s) => handleArgSpecification s info t
  | Some (MsgPlanMemento pmem) => handleArgMemento pmem info t
  | Some (MsgManeuver m) => handleQuickPlan id m info t
  | Some other => handleQuickPlan id (castManeuver other) info t
  | None =>
      let t := set_m_spec (clear_spec (m_spec t)) t in
      match searchSpecInDB id (m_db t) with
      | inl found => (true, info, set_m_spec found t)
      | inr info =>
          match searchMementoInDB id (m_db t) with
          | inl pmem => handleArgMemento pmem info t
          | inr info => (false, info, onFailure info t)
          end
      end
  end.

Definition parsePlan (plan_startup : bool) (now : Q) (t : Task)
    : option PlanStatistics * Task :=
  match plan_parse (penv now t) (m_supported_maneuvers t) (m_cinfo t)
          (m_imu_enabled t) (m_state t) (m_plan t) with
  | (inr what, p) =>
      let t := set_m_plan p t in
      let t := onFailure what t in
      (None, set_m_plan (plan_clear (penv now t) (m_plan t)) t)
  | (inl ps, p) =>
      let t := set_m_plan p t in
      let t := if negb plan_startup
               then set_m_plan (plan_clear (penv now t) (m_plan t)) t
               else t in
      (Some ps, t)
  end.

(** *** Plan control operations *)

Definition loadPlan (plan_id : string) (arg : option Message)
    (plan_startup : bool) (now : Q) (t : Task) : bool * Task :=
  if (initMode t && negb plan_startup) || execMode t then
    (false, onFailure "cannot load plan now" t)
  else
    match parseArg plan_id arg "" t with
    | (false, info, t) =>
        (false, changeMode3 PCS_READY ("plan load failed: " +:+ info) now t)
    | (true, _, t) =>
        match parsePlan plan_startup now t with
        | (None, t) =>
            (false, changeMode3 PCS_READY
                      ("plan parse failed: " +:+ pc_info (m_reply t)) now t)
        | (Some ps, t) =>
            let t := set_m_reply (set_pc_arg (Some (MsgPlanStatistics ps))
                                    (m_reply t)) t in
            let t := set_m_reply (set_pc_plan_id (spec_plan_id (m_spec t))
                                    (m_reply t)) t in
            let t := set_m_pcs (set_pcs_plan_id (spec_plan_id (m_spec t))
                                  (m_pcs t)) t in
            (true, onSuccess "plan loaded" t)
        end
    end.

Definition getPlan (t : Task) : Task :=
  if negb (initMode t) && negb (execMode t) then
    onFailure "no plan is running" t
  else
    let t := set_m_reply (set_pc_arg (Some (MsgPlanSpecification (m_spec t)))
                            (m_reply t)) t in
    let t := set_m_reply (set_pc_plan_id (spec_plan_id (m_spec t))
                            (m_reply t)) t in
    onSuccess "OK" t.

Definition stopPlan (plan_startup : bool) (now : Q) (t : Task) : bool * Task :=
  if initMode t || execMode t then
    if negb plan_startup then
      let t := vehicleRequest VC_STOP_MANEUVER None now t in
      let t := set_m_reply (set_pc_plan_id (spec_plan_id (m_spec t))
                              (m_reply t)) t in
      let t := set_m_pcs (set_last_outcome LPO_FAILURE (m_pcs t)) t in
      (true, changeMode3 PCS_READY "plan stopped" now t)
    else
      (false, set_m_pcs (set_last_outcome LPO_FAILURE (m_pcs t)) t)
  else
    if negb plan_startup then
      let t := onFailure "no plan is running, request ignored" t in
      (true, set_m_reply (set_pc_plan_id "" (m_reply t)) t)
    else (true, t).

Definition startPlan (plan_id : string) (spec : option Message) (flags : Z)
    (now : Q) (t : Task) : bool * Task :=
  let '(stopped, t) := stopPlan true now t in
  let t := changeMode3 PCS_INITIALIZING ("plan initializing: " +:+ plan_id) now t in
  match loadPlan plan_id spec true now t with
  | (false, t) => (stopped, t)
  | (true, t) =>
      let t := changeLog plan_id t in
      let t :=
        if initMode t || execMode t then
          let t := if negb stopped
                   then set_m_plan (planStopped (penv now t) (m_plan t)) t
                   else t in
          set_m_plan (planStarted (penv now t) (m_plan t)) t
        else t in
      let t := dispatch (OutPlanSpecification (m_spec t)) t in
      let t := set_m_plan_ref ((m_plan_ref t + 1) mod 4294967296) t in
      let t := set_m_mh (mh_add (m_plan_ref t) (m_spec t) (m_mh t)) t in
      if negb (Z.land flags FLG_CALIBRATE =? 0) && do_calib (m_args t) then
        match startCalibration now t with
        | (false, t) => (stopped, t)
        | (true, t) => (true, t)
        end
      else
        let '(pman, p) := loadStartManeuver (penv now t) (m_plan t) in
        let t := set_m_plan p t in
        let t := startManeuver pman now t in
        if execMode t then (true, onSuccess (m_last_event t) t)
        else (stopped, onFailure (m_last_event t) t)
  end.

Definition processRequest (pc : PlanControl) (now : Q) (t : Task) : Task :=
  let t := set_m_reply (set_pc_hdr (set_dst (src (pc_hdr pc))
                          (pc_hdr (m_reply t))) (m_reply t)) t in
  let t := set_m_reply (set_pc_hdr (set_dst_ent (src_ent (pc_hdr pc))
                          (pc_hdr (m_reply t))) (m_reply t)) t in
  let t := set_m_reply (set_pc_request_id (pc_request_id pc) (m_reply t)) t in
  let t := set_m_reply (set_pc_op (pc_op pc) (m_reply t)) t in
  let t := set_m_reply (set_pc_plan_id (pc_plan_id pc) (m_reply t)) t in
  if bool_decide (getEntityState t <> ESTA_NORMAL) then
    onFailure "engine not ready: entity state not normal" t
  else
    match pc_op pc with
    | PC_START =>
        match startPlan (pc_plan_id pc) (pc_arg pc) (pc_flags pc) now t with
        | (false, t) => vehicleRequest VC_STOP_MANEUVER None now t
        | (true, t) => t
        end
    | PC_STOP => snd (stopPlan false now t)
    | PC_LOAD => snd (loadPlan (pc_plan_id pc) (pc_arg pc) false now t)
    | PC_GET => getPlan t
    | PC_OP_OTHER _ => onFailure "plan control operation not supported" t
    end.


(** The reply [stopPlan] sends when no plan is running, as [processRequest]
    has prepared it for request [pc]. *)
Definition no_plan_reply (pc : PlanControl) (t : Task) : PlanControl :=
  mkPlanControl
    (mkHeader (src (pc_hdr (m_reply t))) (src_ent (pc_hdr (m_reply t)))
       (src (pc_hdr pc)) (src_ent (pc_hdr pc)))
    PC_FAILURE (pc_op pc) (pc_request_id pc) (pc_plan_id pc)
    (pc_flags (m_reply t)) (pc_arg (m_reply t))
    "no plan is running, request ignored".

(** *** Message handlers *)

Definition consume_EstimatedState (msg : EstimatedState) (t : Task) : Task :=
  if bool_decide (es_src msg <> system_id t) then t
  else set_m_state msg t.

Definition consume_ManeuverControlState (msg : ManeuverControlState) (now : Q)
    (t : Task) : Task :=
  let t := set_m_mcs msg t in
  match mcs_state msg with
  | MCS_DONE => set_m_plan (maneuverDone (penv now t) (m_plan t)) t
  | _ => t
  end.

Definition consume_PowerOperation (po : PowerOperation) (t : Task) : Task :=
  if bool_decide (po_dst po <> system_id t) then t
  else
    match po_op po with
    | POP_PWR_DOWN_IP =>
        let t := set_m_db (db_close (m_db t)) t in
        setEntityState ESTA_ERROR CODE_POWER_DOWN t
    | POP_PWR_DOWN_ABORTED =>
        let '(ok, d) := db_open (m_db t) in
        let t := set_m_db d t in
        if ok then setEntityState ESTA_NORMAL CODE_ACTIVE t
        else setEntityState ESTA_ERROR CODE_DB_ERROR t
    | POP_OTHER => t
    end.

Definition consume_RegisterManeuver (msg : RegisterManeuver) (t : Task) : Task :=
  set_m_supported_maneuvers ({[ mid msg ]} ∪ m_supported_maneuvers t) t.

(** [std::map::insert] keeps the entry that is already there. *)
Definition consume_EntityInfo (msg : EntityInfo) (t : Task) : Task :=
  match m_cinfo t !! ei_label msg with
  | Some _ => t
  | None => set_m_cinfo (<[ ei_label msg := msg ]> (m_cinfo t)) t
  end.

Definition consume_PlanDB (pdb : PlanDB) (t : Task) : Task :=
  let '(ok, d) := onPlanDB pdb (m_db t) in
  let t := set_m_db d t in
  if negb ok then setEntityState ESTA_ERROR CODE_DB_ERROR t
  else setEntityState ESTA_NORMAL CODE_ACTIVE t.

Definition consume_EntityActivationState (msg : EntityActivationState) (now : Q)
    (t : Task) : Task :=
  let t :=
    if bool_decide (eas_src_ent msg = m_eid_imu t) then
      match eas_state msg with
      | EAS_ACTIVE => set_m_imu_enabled true t
      | _ => set_m_imu_enabled false t
      end
    else t in
  match resolveEntity (eas_src_ent msg) with
  | None => t
  | Some id =>
      let '(ok, p) := onEntityActivationState (penv now t) id msg (m_plan t) in
      let t := set_m_plan p t in
      if negb ok then
        let error := "failed to activate " +:+ id +:+ ": " +:+ eas_error msg in
        if actfail_abort (m_args t) then
          let t := onFailure error t in
          let t :=
            if initMode t && negb (pendingReply t) then
              let t := vehicleRequest VC_STOP_CALIBRATION None now t in
              set_m_reply (set_pc_plan_id (spec_plan_id (m_spec t)) (m_reply t)) t
            else t in
          changeMode3 PCS_READY error now t
        else t
      else t
  end.

Definition consume_FuelLevel (msg : FuelLevel) (now : Q) (t : Task) : Task :=
  set_m_plan (onFuelLevel (penv now t) msg (m_plan t)) t.

Definition consume_Memento (msg : Memento) (t : Task) : Task :=
  let '(pmem, mh) := processMemento msg (m_mh t) in
  let t := set_m_mh mh t in
  match pmem with
  | None => t
  | Some _ =>
      set_m_db (sendToDB DBDT_MEMENTO (mem_id msg) (MsgMemento msg) (m_db t)) t
  end.

Definition consume_VehicleCommand (vc : VehicleCommand) (now : Q) (t : Task)
    : Task :=
  if bool_decide (vc_type vc = VC_REQUEST) then t
  else if negb (pendingReply t) then t
  else if bool_decide (dst (vc_hdr vc) <> system_id t)
          || bool_decide (dst_ent (vc_hdr vc) <> entity_id t)
          || bool_decide (m_vreq_ctr t <> vc_request_id vc) then t
  else
    let t := set_m_vc_reply_deadline (-1)%Q t in
    let error := bool_decide (vc_type vc = VC_FAILURE) in
    let error :=
      if error && bool_decide (vc_command vc = VC_STOP_CALIBRATION)
      then false else error in
    if initMode t || execMode t then
      if error then changeMode3 PCS_READY (vc_info vc) now t else t
    else t.

Definition onVehicleService (vs : VehicleState) (now : Q) (t : Task) : Task :=
  match state (m_pcs t) with
  | PCS_BLOCKED => changeMode3 PCS_READY "vehicle ready" now t
  | PCS_INITIALIZING =>
      if negb (pendingReply t) then
        let '(pman, p) := loadStartManeuver (penv now t) (m_plan t) in
        startManeuver pman now (set_m_plan p t)
      else t
  | PCS_EXECUTING =>
      if negb (pendingReply t) then
        let t := onFailure (last_error vs) t in
        let t := set_m_reply (set_pc_plan_id (spec_plan_id (m_spec t))
                                (m_reply t)) t in
        changeMode3 PCS_READY (last_error vs) now t
      else t
  | PCS_READY => t
  end.

Definition onVehicleManeuver (vs : VehicleState) (now : Q) (t : Task) : Task :=
  if negb (execMode t) || pendingReply t then t
  else if negb (Z.land (vs_flags vs) VFLG_MANEUVER_DONE =? 0) then
    if isDone (penv now t) (m_plan t) then
      let t := vehicleRequest VC_STOP_MANEUVER None now t in
      let comp := "plan completed" in
      let t := onSuccess comp t in
      let t := set_m_pcs (set_last_outcome LPO_SUCCESS (m_pcs t)) t in
      let t := set_m_reply (set_pc_plan_id (spec_plan_id (m_spec t))
                              (m_reply t)) t in
      changeMode3 PCS_READY comp now t
    else
      let '(pman, p) := loadNextManeuver (penv now t) (m_plan t) in
      startManeuver pman now (set_m_plan p t)
  else
    set_m_pcs (set_man_eta (maneuver_eta vs) (m_pcs t)) t.

Definition onVehicleError (vs : VehicleState) (now : Q) (t : Task) : Task :=
  let err_ents := "vehicle errors: " +:+ error_ents vs in
  let edesc := if Qlt_bool (last_error_time vs) 0 then err_ents
               else last_error vs in
  let t :=
    if execMode t then
      let t := onFailure edesc t in
      set_m_reply (set_pc_plan_id (spec_plan_id (m_spec t)) (m_reply t)) t
    else t in
  if negb (String.eqb edesc (m_last_event t)) && negb (pendingReply t) then
    let t :=
      if initMode t then
        let t := onFailure edesc t in
        let t := vehicleRequest VC_STOP_CALIBRATION None now t in
        set_m_reply (set_pc_plan_id (spec_plan_id (m_spec t)) (m_reply t)) t
      else t in
    changeMode3 PCS_BLOCKED edesc now t
  else t.

Definition consume_VehicleState (vs : VehicleState) (now : Q) (t : Task) : Task :=
  if bool_decide (getEntityState t = ESTA_BOOT) then t
  else
    let t := set_m_last_vstate now t in
    let t :=
      match op_mode vs with
      | VS_SERVICE => onVehicleService vs now t
      | VS_ERROR | VS_BOOT => onVehicleError vs now t
      | VS_MANEUVER => onVehicleManeuver vs now t
      | _ => t
      end in
    if initMode t then
      let t := set_m_plan (updateCalibration (penv now t) vs (m_plan t)) t in
      if isCalibrationDone (penv now t) (m_plan t) then
        if bool_decide (op_mode vs = VS_CALIBRATION) && negb (pendingReply t) then
          let '(pman, p) := loadStartManeuver (penv now t) (m_plan t) in
          startManeuver pman now (set_m_plan p t)
        else t
      else if hasCalibrationFailed (penv now t) (m_plan t) then
        let t := onFailure (getCalibrationInfo (penv now t) (m_plan t)) t in
        let t := set_m_reply (set_pc_plan_id (spec_plan_id (m_spec t))
                                (m_reply t)) t in
        changeMode3 PCS_READY (getCalibrationInfo (penv now t) (m_plan t)) now t
      else t
    else t.

Definition consume_PlanControl (pc : PlanControl) (now : Q) (t : Task) : Task :=
  if bool_decide (pc_type pc <> PC_REQUEST) then t
  else if pendingReply t then
    set_m_requests (m_requests t ++ [pc]) t
  else
    match m_requests t with
    | front :: _ =>
        let t := set_m_requests (m_requests t ++ [pc]) t in
        let t := processRequest front now t in
        set_m_requests (tail (m_requests t)) t
    | [] => processRequest pc now t
    end.

(** *** The main loop *)

Definition setInitialState (now : Q) (t : Task) : Task :=
  let t := set_m_pcs (mkPlanControlState PCS_READY "" (plan_eta (m_pcs t))
                        (-1)%Q "" 65535 (man_eta (m_pcs t)) LPO_NONE) t in
  let t := set_m_last_event "initializing" t in
  let t := dispatch (OutPlanControlState (m_pcs t)) t in
  let t := set_m_vreq_ctr 0 t in
  let t := set_m_vc_reply_deadline (-1)%Q t in
  set_m_last_vstate now t.

Definition reportProgress (now : Q) (t : Task) : Task :=
  if negb (execMode t) && negb (initMode t) then t
  else
    let '(pr, p) := updateProgress (penv now t) (m_mcs t) (m_plan t) in
    let t := set_m_plan p t in
    let t := set_m_pcs (set_plan_progress pr (m_pcs t)) t in
    set_m_pcs (set_plan_eta (getETA (penv now t) (m_plan t)) (m_pcs t)) t.

(** The body of the [while] loop of [onMain], block by block.
    [report_due] is the reading of [m_report_timer.overflow()]. *)

Definition onMain_report (report_due : bool) (now : Q) (t : Task) : Task :=
  if report_due then
    let t := if progress (m_args t) then reportProgress now t else t in
    dispatch (OutPlanControlState (m_pcs t)) t
  else t.

Definition onMain_vstate (now : Q) (t : Task) : Task :=
  if bool_decide (getEntityState t = ESTA_NORMAL)
     && Qle_bool c_vs_timeout (now - m_last_vstate t) then
    let t := changeMode3 PCS_BLOCKED "vehicle state timeout" now t in
    set_m_last_vstate now t
  else t.

Definition onMain_requests (now : Q) (t : Task) : Task :=
  if negb (pendingReply t) then
    match m_requests t with
    | front :: _ =>
        let t := processRequest front now t in
        set_m_requests (tail (m_requests t)) t
    | [] => t
    end
  else t.

Definition onMain_reply_timeout (now : Q) (t : Task) : Task :=
  let delta := if Qlt_bool (m_vc_reply_deadline t) 0 then 1%Q
               else (m_vc_reply_deadline t - now)%Q in
  if Qlt_bool 0 delta then t
  else
    let t := set_m_vc_reply_deadline (-1)%Q t in
    let t := changeMode3 PCS_READY "vehicle reply timeout" now t in
    let t := set_m_requests [] t in
    set_m_vreq_ctr ((m_vreq_ctr t + 1) mod 65536) t.

Definition onMain_pass (report_due : bool) (now : Q) (t : Task) : Task :=
  let t := onMain_report report_due now t in
  let t := onMain_vstate now t in
  let t := onMain_requests now t in
  onMain_reply_timeout now t.

(** *** The engine as a transition system *)

Inductive Event :=
| EvPlanControl (pc : PlanControl)
| EvPlanDB (pdb : PlanDB)
| EvEstimatedState (msg : EstimatedState)
| EvManeuverControlState (msg : ManeuverControlState)
| EvPowerOperation (po : PowerOperation)
| EvRegisterManeuver (msg : RegisterManeuver)
| EvVehicleCommand (vc : VehicleCommand)
| EvVehicleState (vs : VehicleState)
| EvEntityInfo (msg : EntityInfo)
| EvEntityActivationState (msg : EntityActivationState)
| EvFuelLevel (msg : FuelLevel)
| EvMemento (msg : Memento)
| EvMainLoop (report_due : bool).

Definition handle (now : Q) (e : Event) (t : Task) : Task :=
  match e with
  | EvPlanControl pc => consume_PlanControl pc now t
  | EvPlanDB pdb => consume_PlanDB pdb t
  | EvEstimatedState msg => consume_EstimatedState msg t
  | EvManeuverControlState msg => consume_ManeuverControlState msg now t
  | EvPowerOperation po => consume_PowerOperation po t
  | EvRegisterManeuver msg => consume_RegisterManeuver msg t
  | EvVehicleCommand vc => consume_VehicleCommand vc now t
  | EvVehicleState vs => consume_VehicleState vs now t
  | EvEntityInfo msg => consume_EntityInfo msg t
  | EvEntityActivationState msg => consume_EntityActivationState msg now t
  | EvFuelLevel msg => consume_FuelLevel msg now t
  | EvMemento msg => consume_Memento msg t
  | EvMainLoop report_due => onMain_pass report_due now t
  end.

(** Number of [VehicleCommand] requests among dispatched messages. *)
Definition is_vreq (m : BusMsg) : bool :=
  match m with
  | OutVehicleCommand vc => bool_decide (vc_type vc = VC_REQUEST)
  | _ => false
  end.

Definition nreq (t : Task) : nat := length (List.filter is_vreq (bus t)).

(** The [PlanControl] replies among the dispatched messages, in order. *)
Definition as_reply (m : BusMsg) : option PlanControl :=
  match m with
  | OutPlanControl pc => Some pc
  | _ => None
  end.

Definition replies (t : Task) : list PlanControl := omap as_reply (bus t).

(** *** Relations between a state and a later one *)

(** [grown t t']: [t'] has all of [t]'s request queue and navigation
    state, and its bus is the bus of [t] followed by what was dispatched
    since. *)
Definition grown (t t' : Task) : Prop :=
  m_state t' = m_state t /\
  m_requests t' = m_requests t /\
  exists out, bus t' = bus t ++ out.

(** [quiet t t']: going from [t] to [t'] dispatched no vehicle request and
    left the reply deadline alone. *)
Definition quiet (t t' : Task) : Prop :=
  nreq t' = nreq t /\
  m_vc_reply_deadline t' = m_vc_reply_deadline t /\
  grown t t'.

(** [fired now t t']: exactly one vehicle request went out, and the reply
    deadline is the one that request set. *)
Definition fired (now : Q) (t t' : Task) : Prop :=
  nreq t' = S (nreq t) /\
  m_vc_reply_deadline t' = (now + c_vc_reply_timeout)%Q /\
  grown t t'.

(** [calm t t']: no vehicle request and the navigation state alone; the
    reply deadline may have been cleared. *)
Definition calm (t t' : Task) : Prop :=
  nreq t' = nreq t /\ m_state t' = m_state t.

(** A step that sends at most one vehicle request. *)
Definition one_request (now : Q) (t t' : Task) : Prop :=
  quiet t t' \/ fired now t t'.

(** What one handler call may do to the vehicle dialog: either no
    request goes out, or no reply was pending and exactly one goes out. *)
Definition served (now : Q) (t t' : Task) : Prop :=
  calm t t'
  \/ (pendingReply t = false
      /\ nreq t' = S (nreq t)
      /\ m_vc_reply_deadline t' = (now + c_vc_reply_timeout)%Q
      /\ m_state t' = m_state t).

(** The branches of the [switch] of [consume(VehicleState)]: a branch that
    sends a request leaves the engine out of INITIALIZING. *)
Definition switched (now : Q) (t t' : Task) : Prop :=
  quiet t t' \/ (pendingReply t = false /\ fired now t t' /\ initMode t' = false).

(** [kept t t']: the stored specification, the published state and the
    entity state of [t] are those of [t']. *)
Definition kept (t t' : Task) : Prop :=
  m_spec t' = m_spec t /\
  state (m_pcs t') = state (m_pcs t) /\
  m_entity t' = m_entity t /\
  entity_id t' = entity_id t.

(** *** What a failure reply leaves behind *)

(** The reply record after [processRequest] has filled it in for request
    [pc] and [onFailure] has answered with [info]. *)
Definition failure_reply (pc : PlanControl) (info : string) (t : Task)
    : PlanControl :=
  mkPlanControl
    (mkHeader (src (pc_hdr (m_reply t))) (src_ent (pc_hdr (m_reply t)))
       (src (pc_hdr pc)) (src_ent (pc_hdr pc)))
    PC_FAILURE (pc_op pc) (pc_request_id pc) (pc_plan_id pc)
    (pc_flags (m_reply t)) (pc_arg (m_reply t)) info.

(** The published state after a failure reply. *)
Definition failed_pcs (p : PlanControlState) : PlanControlState :=
  set_plan_eta 0 (set_plan_progress (-1)%Q (set_last_outcome LPO_FAILURE p)).

(** The engine after a request that was only answered with a failure. *)
Definition refused (pc : PlanControl) (info : string) (t : Task) : Task :=
  set_m_reply (failure_reply pc info t)
    (set_bus (bus t ++ [OutPlanControl (failure_reply pc info t)])
       (set_m_pcs (failed_pcs (m_pcs t)) t)).

(** INITIALIZING and EXECUTING are the two modes in which a plan is on. *)
Definition in_plan (s : PCSState) : bool :=
  match s with
  | PCS_INITIALIZING | PCS_EXECUTING => true
  | _ => false
  end.

(** The vehicle command that [vehicleRequest] dispatches for [command]
    without a maneuver. *)
Definition bare_request (command : VCCommand) (t : Task) : VehicleCommand :=
  set_vc_calib_time 0
    (set_vc_command command
       (set_vc_request_id ((m_vreq_ctr t + 1) mod 65536)
          (set_vc_type VC_REQUEST (m_vc t)))).

(** *** What plan control leaves alone *)

(** [steady t t']: the fields that no processing of a request, of a vehicle
    reply or of a vehicle state writes: the entity state, the addresses and
    the configuration of the task, the two registries, the time of the last
    vehicle state, the IMU flag and the maneuver control state. *)
Definition steady (t t' : Task) : Prop :=
  m_entity t' = m_entity t /\
  system_id t' = system_id t /\
  entity_id t' = entity_id t /\
  m_args t' = m_args t /\
  m_eid_imu t' = m_eid_imu t /\
  m_supported_maneuvers t' = m_supported_maneuvers t /\
  m_cinfo t' = m_cinfo t /\
  m_last_vstate t' = m_last_vstate t /\
  m_imu_enabled t' = m_imu_enabled t /\
  m_mcs t' = m_mcs t.

(** The IMU flag after the [EntityActivationState] message [msg]: set by
    ACTIVE and cleared by every other state when the message comes from the
    IMU entity, and as before otherwise. *)
Definition imu_flag (msg : EntityActivationState) (t : Task) : bool :=
  if bool_decide (eas_src_ent msg = m_eid_imu t)
  then match eas_state msg with EAS_ACTIVE => true | _ => false end
  else m_imu_enabled t.

(** The text by which [onVehicleError] describes the error state of the
    vehicle: the entities in error while the vehicle gives no time for its
    last error, the last error otherwise. *)
Definition error_text (vs : VehicleState) : string :=
  if Qlt_bool (last_error_time vs) 0 then "vehicle errors: " +:+ error_ents vs
  else last_error vs.

(** *** What goes on the bus *)

(** [wire_ok m]: [m] is a message of the kinds the engine sends. *)
Definition wire_ok (m : BusMsg) : Prop :=
  match m with
  | OutVehicleCommand vc =>
      vc_type vc = VC_REQUEST
      /\ vc_command vc <> VC_START_CALIBRATION
      /\ vc_calib_time vc = 0
  | OutPlanControl pc => pc_type pc = PC_SUCCESS \/ pc_type pc = PC_FAILURE
  | OutLoggingControl lc => lc_op lc = COP_REQUEST_START
  | OutPlanControlState _ | OutPlanSpecification _ => True
  end.

(** [emits t t']: the bus of [t'] is the bus of [t] followed by messages
    that are all [wire_ok]. *)
Definition emits (t t' : Task) : Prop :=
  exists out, bus t' = bus t ++ out /\ Forall wire_ok out.

End Engine.

Arguments Task : clear implicits.

(** ** Reference collaborators

    Small executable instances of the four interfaces, on which the engine
    is run at concrete inputs. *)

Module Ref.

(** Modelled from the spec: the Plan Model of section 4.3 ([Plan.hpp] and
    [Calibration.hpp] are not among the sources).  [parse] fails when the
    start maneuver is missing or a maneuver type is not supported; the
    successor of a maneuver is the destination of the first transition
    that leaves it; calibration is done once the minimum time has elapsed
    and the vehicle reports CALIBRATION; progress is not computed. *)
Record Plan := mkPlan {
  pl_current : string;
  pl_calib_start : option Q;
  pl_calibrating : bool;
  pl_calib_error : option string;
  pl_min_calib : Q
}.

Fixpoint find_maneuver (id : string) (l : list (option PlanManeuver))
    : option PlanManeuver :=
  match l with
  | [] => None
  | None :: r => find_maneuver id r
  | Some pm :: r =>
      if String.eqb (maneuver_id pm) id then Some pm else find_maneuver id r
  end.

Definition supported (ids : gset Z) (pm : option PlanManeuver) : bool :=
  match pm with
  | Some (mkPlanManeuver _ (Some m)) => bool_decide (man_mid m ∈ ids)
  | _ => true
  end.

Definition next_id (s : PlanSpecification) (cur : string) : option string :=
  dest_man <$> List.find (fun tr => String.eqb (source_man tr) cur) (transitions s).

Definition set_current (id : string) (p : Plan) : Plan :=
  mkPlan id (pl_calib_start p) (pl_calibrating p) (pl_calib_error p)
    (pl_min_calib p).

#[global] Instance plan_model : PlanModel Plan := {|
  plan_parse e ids _ _ _ p :=
    match find_maneuver (start_man_id (pe_spec e)) (maneuvers (pe_spec e)) with
    | None => (inr "invalid start maneuver", p)
    | Some _ =>
        if forallb (supported ids) (maneuvers (pe_spec e)) then
          (inl (mkPlanStatistics (spec_plan_id (pe_spec e))
                  (Z.of_nat (length (maneuvers (pe_spec e)))) "" "" ""),
           set_current "" p)
        else (inr "unsupported maneuver", p)
    end;
  plan_clear _ p := mkPlan "" None false None (pl_min_calib p);
  planStarted _ p := p;
  planStopped _ p := mkPlan (pl_current p) None false None (pl_min_calib p);
  loadStartManeuver e p :=
    (find_maneuver (start_man_id (pe_spec e)) (maneuvers (pe_spec e)), p);
  loadNextManeuver e p :=
    (next_id (pe_spec e) (pl_current p) ≫=
       (fun id => find_maneuver id (maneuvers (pe_spec e))), p);
  maneuverStarted _ id p := set_current id p;
  maneuverDone _ p := p;
  updateProgress _ _ p := ((-1)%Q, p);
  getETA _ _ := 0;
  updateCalibration e vs p :=
    mkPlan (pl_current p) (pl_calib_start p)
      (bool_decide (op_mode vs = VS_CALIBRATION))
      (if bool_decide (op_mode vs = VS_ERROR) then Some (last_error vs)
       else pl_calib_error p)
      (pl_min_calib p);
  isCalibrationDone e p :=
    match pl_calib_start p with
    | Some t0 => Qle_bool (t0 + pl_min_calib p) (pe_now e) && pl_calibrating p
    | None => false
    end;
  hasCalibrationFailed _ p := bool_decide (is_Some (pl_calib_error p));
  getCalibrationInfo _ p := default "" (pl_calib_error p);
  calibrationStarted e p :=
    mkPlan (pl_current p) (Some (pe_now e)) false None (pl_min_calib p);
  getEstimatedCalibrationTime _ p := 0;
  onEntityActivationState _ _ _ p := (true, p);
  onFuelLevel _ _ p := p;
  isDone e p := bool_decide (next_id (pe_spec e) (pl_current p) = None);
  getCurrentId _ p := pl_current p
|}.

(** Modelled from the spec: the Plan Database Gateway of section 4.1
    ([DataBaseInteraction.hpp] is not among the sources), as the list of
    stored records, newest first. *)
Definition Db : Type := list (DBDataType * string * Message).

Fixpoint lookup_spec (id : string) (d : Db) : PlanSpecification + string :=
  match d with
  | [] => inr "undefined plan"
  | (DBDT_PLAN, k, MsgPlanSpecification s) :: r =>
      if String.eqb k id then inl s else lookup_spec id r
  | _ :: r => lookup_spec id r
  end.

Fixpoint lookup_memento (id : string) (d : Db) : PlanMemento + string :=
  match d with
  | [] => inr "undefined memento"
  | (DBDT_MEMENTO, k, MsgPlanMemento m) :: r =>
      if String.eqb k id then inl m else lookup_memento id r
  | _ :: r => lookup_memento id r
  end.

#[global] Instance data_base : DataBase Db := {|
  db_open d := (true, d);
  db_close d := d;
  onPlanDB _ d := (true, d);
  sendToDB kind id msg d := (kind, id, msg) :: d;
  searchSpecInDB := lookup_spec;
  searchMementoInDB := lookup_memento
|}.

(** Modelled from the spec: the Memento Handler of section 4.2
    ([MementoHandler.hpp] is not among the sources): a map from [plan_ref]
    to the specification under execution; a memento whose [plan_ref] is
    not in the map is discarded, any other yields a [PlanMemento] naming
    the plan, the maneuver (here the start maneuver of the snapshot) and
    the payload.  The bound on the size of the map is left out. *)
Definition Mh : Type := gmap Z PlanSpecification.

#[global] Instance memento_ops : MementoOps Mh := {|
  mh_add ref s h := <[ ref := s ]> h;
  processMemento msg h :=
    match h !! mem_plan_ref msg with
    | None => (None, h)
    | Some s =>
        (Some (mkPlanMemento (mem_id msg) (spec_plan_id s) (start_man_id s)
                 (mem_memento msg)), h)
    end
|}.

(** A runtime that resolves no entity; [toWGS84] without the displacement
    by the local offsets. *)
#[global] Instance runtime : Runtime := {|
  resolveEntity _ := None;
  toWGS84 es := (es_lat es, es_lon es);
  castManeuver _ := mkManeuver 0 "" "" 0 (FOther "")
|}.

Definition T : Type := Task Plan Db Mh.

(** The task as constructed, system 30, entity 44, with the database open
    (entity state NORMAL). *)
Definition fresh : T :=
  mkTask (mkPlan "" None false None 10%Q)
    (mkPlanControlState PCS_BLOCKED "" 0 0%Q "" 0 0 LPO_NONE)
    (mkPlanControl header0 PC_REQUEST PC_START 0 "" 0 None "")
    "" 0 0%Q 0%Q
    (mkVehicleCommand header0 VC_REQUEST 0 VC_EXEC_MANEUVER None 0 "")
    (mkPlanSpecification 0 "" "" "" [] [])
    {[ 450 ]} [] (mkLoggingControl COP_OTHER "")
    (mkEstimatedState 30 0 0 0 0 0 0)
    (mkManeuverControlState MCS_STOPPED 0 "")
    ∅ 0 false [] 0 ∅ ST_BOOT ST_BOOT
    (mkArguments false true (1 # 3)%Q 10 true false false 20%Q 1600%Q "IMU")
    30 44 (ESTA_NORMAL, CODE_ACTIVE) [].

(** The engine when [onMain] enters its loop at time 0. *)
Definition ready : T := setInitialState 0%Q fresh.

Definition goto_A : Maneuver := mkManeuver 450 "Goto" "" 0 (FOther "A").

(** A one-maneuver plan. *)
Definition plan_p1 : PlanSpecification :=
  mkPlanSpecification 7 "p1" "" "A" [Some (mkPlanManeuver "A" (Some goto_A))] [].

Definition request (op : PCOp) (id : Z) (plan : string) (arg : option Message)
    : PlanControl :=
  mkPlanControl (mkHeader 5 9 30 44) PC_REQUEST op id plan 0 arg "".

Definition reply (ty : VCType) (id : Z) : VehicleCommand :=
  mkVehicleCommand (mkHeader 30 2 30 44) ty id VC_EXEC_MANEUVER None 0 "".

(** The engine while the vehicle executes [plan_p1]: PC_START was processed
    at time 1 and the reply to EXEC_MANEUVER is pending. *)
Definition started : T :=
  handle 1%Q (EvPlanControl (request PC_START 1 "p1"
                               (Some (MsgPlanSpecification plan_p1)))) ready.

(** Requests and messages of the scenarios. *)
Definition load_p1 : PlanControl :=
  request PC_LOAD 2 "p1" (Some (MsgPlanSpecification plan_p1)).
Definition get_plan : PlanControl := request PC_GET 3 "" None.
Definition stop_plan : PlanControl := request PC_STOP 4 "" None.
Definition memento_m1 : Memento := mkMemento "m1" 1 "xyz".


(** The engine of [started] once the vehicle has accepted the maneuver:
    EXECUTING, no reply pending. *)
Definition executing : T :=
  handle 2%Q (EvVehicleCommand (reply VC_SUCCESS 1)) started.

(** [ready] after 2.5 s without a vehicle state: BLOCKED. *)
Definition blocked : T := handle 2.5%Q (EvMainLoop false) ready.

(** [ready] with [plan_p1] loaded: the database holds the plan. *)
Definition loaded : T := processRequest load_p1 1%Q ready.

Definition power_down : PowerOperation := mkPowerOperation 30 POP_PWR_DOWN_IP.

(** [ready] after the power-down has been announced. *)
Definition powered_down : T := handle 1%Q (EvPowerOperation power_down) ready.

(** Vehicle states of the scenarios. *)
Definition in_service : VehicleState := mkVehicleState VS_SERVICE "" 0 0 "" 0.
Definition in_error : VehicleState :=
  mkVehicleState VS_ERROR "IMU" 0 0 "" (-1).
Definition maneuver_done : VehicleState :=
  mkVehicleState VS_MANEUVER "" 0 1 "" 0.
Definition calibrating : VehicleState :=
  mkVehicleState VS_CALIBRATION "" 0 0 "" 0.

(** Further requests of the scenarios. *)
Definition start_unknown : PlanControl := request PC_START 5 "nope" None.
Definition start_calibrated : PlanControl :=
  mkPlanControl (mkHeader 5 9 30 44) PC_REQUEST PC_START 6 "p1" 1
    (Some (MsgPlanSpecification plan_p1)) "".
Definition odd_request : PlanControl := request (PC_OP_OTHER 9) 8 "" None.

(** A memento for a maneuver that [plan_p1] does not have. *)
Definition memento_B : PlanMemento := mkPlanMemento "m2" "p1" "B" "xyz".

(** What the reference plan returns for [plan_p1]. *)
Definition stats_p1 : PlanStatistics := mkPlanStatistics "p1" 1 "" "" "".
Definition parsed_p1 : Plan := mkPlan "" None false None 10%Q.
Definition maneuver_A : PlanManeuver := mkPlanManeuver "A" (Some goto_A).

(** The engine INITIALIZING after [start_calibrated], the vehicle having
    accepted the calibration maneuver, with the plan as it is 12 s into a
    calibration that began at time 0. *)
Definition calibrated : T :=
  set_m_plan (mkPlan "" (Some 0%Q) false None 10%Q)
    (handle 2%Q (EvVehicleCommand (reply VC_SUCCESS 1))
       (handle 1%Q (EvPlanControl start_calibrated) ready)).

Definition imu_info : EntityInfo := mkEntityInfo 3 "IMU" "Sensors.IMU".
Definition imu_info' : EntityInfo := mkEntityInfo 4 "IMU" "Sensors.Other".


End Ref.

(** * Properties *)

Section EngineProperties.

Context {P D M : Type}.
Context `{PM : PlanModel P} `{DB : DataBase D} `{MH : MementoOps M}.
Context `{RT : Runtime}.

Local Abbreviation Task := (Task P D M).

Implicit Types (t : Task) (now : Q).

Arguments changeLog : simpl never.
Arguments answer : simpl never.
Arguments onFailure : simpl never.
Arguments onSuccess : simpl never.
Arguments changeMode : simpl never.
Arguments changeMode3 : simpl never.
Arguments vehicleRequest : simpl never.
Arguments startManeuver : simpl never.
Arguments startCalibration : simpl never.
Arguments handleArgSpecification : simpl never.
Arguments handleArgMemento : simpl never.
Arguments handleQuickPlan : simpl never.
Arguments parseArg : simpl never.
Arguments parsePlan : simpl never.
Arguments loadPlan : simpl never.
Arguments getPlan : simpl never.
Arguments stopPlan : simpl never.
Arguments startPlan : simpl never.
Arguments processRequest : simpl never.

(** ** Vehicle requests and the reply deadline *)

Lemma grown_refl t : grown t t.
Proof. repeat split. exists []. by rewrite app_nil_r. Qed.

Lemma grown_trans t1 t2 t3 : grown t1 t2 -> grown t2 t3 -> grown t1 t3.
Proof.
  intros (? & ? & o1 & H1) (? & ? & o2 & H2).
  repeat split; try congruence.
  exists (o1 ++ o2). by rewrite H2, H1, app_assoc.
Qed.

Lemma quiet_refl t : quiet t t.
Proof. repeat split. apply grown_refl. Qed.

Lemma quiet_trans t1 t2 t3 : quiet t1 t2 -> quiet t2 t3 -> quiet t1 t3.
Proof.
  intros (? & ? & ?) (? & ? & ?).
  split; [congruence | split; [congruence | by eapply grown_trans]].
Qed.

Lemma quiet_fired now t1 t2 t3 : quiet t1 t2 -> fired now t2 t3 -> fired now t1 t3.
Proof.
  intros (? & ? & ?) (? & ? & ?).
  split; [congruence | split; [congruence | by eapply grown_trans]].
Qed.

Lemma fired_quiet now t1 t2 t3 : fired now t1 t2 -> quiet t2 t3 -> fired now t1 t3.
Proof.
  intros (? & ? & ?) (? & ? & ?).
  split; [congruence | split; [congruence | by eapply grown_trans]].
Qed.

Lemma quiet_calm t t' : quiet t t' -> calm t t'.
Proof. by intros (? & _ & ? & _). Qed.

Lemma calm_trans t1 t2 t3 : calm t1 t2 -> calm t2 t3 -> calm t1 t3.
Proof. intros [? ?] [? ?]; split; congruence. Qed.

Lemma quiet_pending t t' : quiet t t' -> pendingReply t' = pendingReply t.
Proof. intros (_ & Hd & _). unfold pendingReply. by rewrite Hd. Qed.

Lemma nreq_dispatch m t :
  nreq (dispatch m t) = if is_vreq m then S (nreq t) else nreq t.
Proof.
  unfold nreq, dispatch; cbn.
  rewrite List.filter_app, length_app; cbn.
  destruct (is_vreq m); cbn; lia.
Qed.

Lemma quiet_dispatch m t : is_vreq m = false -> quiet t (dispatch m t).
Proof.
  intros E. split; [by rewrite nreq_dispatch, E |].
  repeat split. by eexists.
Qed.

Ltac count_requests :=
  unfold nreq, dispatch; cbn;
  rewrite ?List.filter_app, ?length_app; cbn;
  rewrite ?bool_decide_eq_true_2 by reflexivity; cbn; lia.

Ltac grown_fields :=
  split; [cbn; reflexivity |];
  split; [cbn; reflexivity |];
  unfold dispatch; cbn; rewrite <- ?app_assoc;
  first [by eexists | by (exists []; rewrite app_nil_r)].

Ltac quiet_fields :=
  split; [count_requests | split; [cbn; reflexivity | grown_fields]].

Lemma quiet_changeLog name t : quiet t (changeLog name t).
Proof. unfold changeLog. quiet_fields. Qed.

Lemma quiet_answer ty desc t : quiet t (answer ty desc t).
Proof. unfold answer. quiet_fields. Qed.

Lemma quiet_onFailure msg t : quiet t (onFailure msg t).
Proof. unfold onFailure, answer. quiet_fields. Qed.

Lemma quiet_onSuccess msg t : quiet t (onSuccess msg t).
Proof. unfold onSuccess, answer. quiet_fields. Qed.

Lemma quiet_changeMode s desc nid man now t :
  quiet t (changeMode s desc nid man now t).
Proof.
  unfold changeMode, changeLog.
  repeat case_match; quiet_fields.
Qed.

Lemma state_changeMode s desc nid man now t :
  state (m_pcs (changeMode s desc nid man now t)) = s.
Proof.
  unfold changeMode, changeLog.
  repeat case_match; cbn; try done.
  all: by match goal with H : bool_decide _ = false |- _ =>
              apply bool_decide_eq_false in H; apply dec_stable in H end.
Qed.

Lemma fired_vehicleRequest cmd arg now t :
  fired now t (vehicleRequest cmd arg now t).
Proof.
  unfold vehicleRequest.
  repeat case_match;
    (split; [count_requests | split; [done | grown_fields]]).
Qed.

(** Peel the outermost call off the target state of a [quiet] goal: a
    field update, a reply, a mode change.  Field updates are checked on a
    generalised state, which keeps the terms small. *)
Ltac quiet_peel :=
  lazymatch goal with
  | |- quiet ?t ?t => apply quiet_refl
  | |- quiet ?t (changeMode _ _ _ _ _ ?x) =>
      apply (quiet_trans t x); [| apply quiet_changeMode]
  | |- quiet ?t (changeMode3 _ _ _ ?x) =>
      apply (quiet_trans t x); [| apply quiet_changeMode]
  | |- quiet ?t (onFailure _ ?x) =>
      apply (quiet_trans t x); [| apply quiet_onFailure]
  | |- quiet ?t (onSuccess _ ?x) =>
      apply (quiet_trans t x); [| apply quiet_onSuccess]
  | |- quiet ?t (changeLog _ ?x) =>
      apply (quiet_trans t x); [| apply quiet_changeLog]
  | |- quiet ?t (dispatch ?m ?x) =>
      apply (quiet_trans t x);
      [| apply quiet_dispatch; generalize x; intros; reflexivity]
  | |- quiet ?t (?f ?v ?x) =>
      apply (quiet_trans t x);
      [| generalize x; intros; quiet_fields]
  end.

Ltac quiet_auto :=
  repeat quiet_peel;
  try match goal with H : quiet ?a ?b |- quiet ?a ?b => exact H end.
Ltac quiet_solve := solve [quiet_auto].

(** A goal [fired now t X] where [X] is built on top of a vehicle request
    sent from [t]. *)
Ltac fire :=
  lazymatch goal with
  | |- fired ?now ?t ?X =>
      lazymatch X with
      | context [vehicleRequest ?c ?a now t] =>
          apply (fired_quiet now t (vehicleRequest c a now t));
          [apply fired_vehicleRequest | quiet_solve]
      end
  end.

(** Unfold a definition and reduce its [let]s and decided matches, leaving
    every other call as written. *)
Ltac expose_in H := cbv beta iota zeta delta [fst snd negb] in H.
Ltac expose_bool := cbv beta iota zeta delta [fst snd negb orb andb].
Ltac expose := cbv beta iota zeta delta [fst snd negb].

Lemma startManeuver_spec pman now t :
  initMode (startManeuver pman now t) = false /\
  ((quiet t (startManeuver pman now t)
    /\ execMode (startManeuver pman now t) = false)
   \/ (fired now t (startManeuver pman now t)
       /\ execMode (startManeuver pman now t) = true)).
Proof.
  assert (Hst : state (m_pcs (startManeuver pman now t)) =
                match pman with Some _ => PCS_EXECUTING | None => PCS_READY end).
  { destruct pman; apply state_changeMode. }
  unfold initMode, execMode. rewrite Hst.
  unfold startManeuver. destruct pman as [pm|]; expose.
  - split; [done | right; split; [| done]].
    fire.
  - split; [done | left; split; [| done]].
    quiet_auto.
Qed.

Lemma startCalibration_spec now t :
  (fst (startCalibration now t) = false /\ quiet t (snd (startCalibration now t)))
  \/ (fst (startCalibration now t) = true
      /\ fired now t (snd (startCalibration now t))).
Proof.
  unfold startCalibration. destruct (blockedMode t); expose.
  - left. split; [done | quiet_auto].
  - right. split; [done | apply fired_vehicleRequest].
Qed.

Lemma quiet_handleArgSpecification s info t :
  quiet t (snd (handleArgSpecification s info t)).
Proof. unfold handleArgSpecification; expose. quiet_auto. Qed.

Lemma quiet_handleArgMemento pmem info t :
  quiet t (snd (handleArgMemento pmem info t)).
Proof.
  unfold handleArgMemento; expose.
  destruct (searchSpecInDB _ _) as [found|info']; expose; [| quiet_auto].
  destruct (insertMemento _ _); expose; quiet_auto.
Qed.

Lemma quiet_handleQuickPlan id man info t :
  quiet t (snd (handleQuickPlan id man info t)).
Proof. unfold handleQuickPlan; expose. quiet_auto. Qed.

Lemma quiet_parseArg id arg info t :
  quiet t (snd (parseArg id arg info t)).
Proof.
  unfold parseArg.
  destruct arg as [[s|pmem|m|ps|m]|];
    try apply quiet_handleArgSpecification;
    try apply quiet_handleArgMemento;
    try apply quiet_handleQuickPlan.
  expose.
  destruct (searchSpecInDB _ _) as [found|info1]; expose; [quiet_auto |].
  destruct (searchMementoInDB _ _) as [pmem|info2]; expose; [| quiet_auto].
  eapply quiet_trans; [| apply quiet_handleArgMemento]. quiet_auto.
Qed.

Lemma quiet_parsePlan startup now t :
  quiet t (snd (parsePlan startup now t)).
Proof.
  unfold parsePlan.
  destruct (plan_parse _ _ _ _ _ _) as [[ps|what] p]; expose.
  - destruct startup; expose; quiet_auto.
  - quiet_auto.
Qed.

Lemma quiet_loadPlan id arg startup now t :
  quiet t (snd (loadPlan id arg startup now t)).
Proof.
  unfold loadPlan.
  destruct (_ || _); expose; [quiet_auto |].
  pose proof (quiet_parseArg id arg "" t) as Ha.
  destruct (parseArg id arg "" t) as [[[] info] t1]; expose; expose_in Ha.
  - pose proof (quiet_parsePlan startup now t1) as Hp.
    destruct (parsePlan startup now t1) as [[ps|] t2]; expose; expose_in Hp.
    + quiet_auto. by eapply quiet_trans.
    + quiet_auto. by eapply quiet_trans.
  - quiet_auto.
Qed.

Lemma quiet_getPlan t : quiet t (getPlan t).
Proof. unfold getPlan. destruct (_ && _); quiet_auto. Qed.

Lemma stopPlan_startup_quiet now t : quiet t (snd (stopPlan true now t)).
Proof.
  unfold stopPlan; expose.
  destruct (initMode t || execMode t); quiet_auto.
Qed.

Lemma stopPlan_spec now t :
  quiet t (snd (stopPlan false now t)) \/ fired now t (snd (stopPlan false now t)).
Proof.
  unfold stopPlan; expose. destruct (initMode t || execMode t).
  - right. fire.
  - left. quiet_auto.
Qed.

Lemma quiet_changeMode3 s desc now t : quiet t (changeMode3 s desc now t).
Proof. apply quiet_changeMode. Qed.

Lemma state_changeMode3 s desc now t :
  state (m_pcs (changeMode3 s desc now t)) = s.
Proof. apply state_changeMode. Qed.

Lemma startPlan_spec id arg flags now t :
  quiet t (snd (startPlan id arg flags now t))
  \/ (fired now t (snd (startPlan id arg flags now t))
      /\ fst (startPlan id arg flags now t) = true).
Proof.
  unfold startPlan.
  pose proof (stopPlan_startup_quiet now t) as Hq.
  destruct (stopPlan true now t) as [stopped t1]; expose_in Hq; expose.
  assert (Hq2 : quiet t (changeMode3 PCS_INITIALIZING
                           ("plan initializing: " +:+ id) now t1))
    by quiet_auto.
  revert Hq2. generalize (changeMode3 PCS_INITIALIZING
                            ("plan initializing: " +:+ id) now t1).
  clear t1 Hq. intros t2 Hq.
  pose proof (quiet_loadPlan id arg true now t2) as Hl.
  destruct (loadPlan id arg true now t2) as [[] t3]; expose_in Hl; expose;
    [| left; by eapply quiet_trans].
  assert (Hq3 : quiet t t3) by (by eapply quiet_trans).
  clear t2 Hq Hl.
  set (t4 := changeLog id t3).
  assert (Hq4 : quiet t t4) by (subst t4; quiet_auto).
  clearbody t4. clear t3 Hq3.
  match goal with |- context [set_m_plan_ref _ ?x] => set (t5 := x) end.
  assert (Hq5 : quiet t t5).
  { subst t5. destruct (initMode t4 || execMode t4); [| quiet_auto].
    destruct stopped; expose; quiet_auto. }
  clearbody t5. clear t4 Hq4.
  match goal with |- context [do_calib (m_args ?x)] => set (t6 := x) end.
  assert (Hq6 : quiet t t6) by (subst t6; quiet_auto).
  clearbody t6. clear t5 Hq5.
  destruct (_ && do_calib _).
  - pose proof (startCalibration_spec now t6) as Hc.
    destruct (startCalibration now t6) as [[] t7]; expose_in Hc; expose.
    + destruct Hc as [[? _]|[_ Hf]]; [done |].
      right. split; [by eapply quiet_fired | done].
    + destruct Hc as [[_ Hc]|[? _]]; [| done].
      left. by eapply quiet_trans.
  - destruct (loadStartManeuver _ _) as [pman p].
    assert (Hq7 : quiet t (set_m_plan p t6)) by quiet_auto.
    revert Hq7. generalize (set_m_plan p t6). clear t6 Hq6. intros t7 Hq.
    pose proof (startManeuver_spec pman now t7) as [_ Hs].
    revert Hs. generalize (startManeuver pman now t7). intros t8 Hs.
    destruct Hs as [[Hs He]|[Hs He]]; rewrite He; expose.
    + left. quiet_auto. by eapply quiet_trans.
    + right. split; [| done].
      eapply fired_quiet; [by eapply quiet_fired |]. quiet_auto.
Qed.

Lemma processRequest_spec pc now t : one_request now t (processRequest pc now t).
Proof.
  unfold processRequest, one_request.
  match goal with |- context [getEntityState ?x] => set (t1 := x) end.
  assert (Hq : quiet t t1) by (subst t1; quiet_auto).
  clearbody t1.
  destruct (bool_decide _); [left; quiet_auto |].
  destruct (pc_op pc).
  - pose proof (startPlan_spec (pc_plan_id pc) (pc_arg pc) (pc_flags pc) now t1)
      as Hs.
    destruct (startPlan _ _ _ _ _) as [[] t2]; expose_in Hs.
    + destruct Hs as [Hs|[Hs _]];
        [left; by eapply quiet_trans | right; by eapply quiet_fired].
    + destruct Hs as [Hs|[_ ?]]; [| done].
      right. eapply quiet_fired; [| apply fired_vehicleRequest].
      by eapply quiet_trans.
  - destruct (stopPlan_spec now t1) as [Hs|Hs];
      [left; by eapply quiet_trans | right; by eapply quiet_fired].
  - left. eapply quiet_trans; [done | apply quiet_loadPlan].
  - left. eapply quiet_trans; [done | apply quiet_getPlan].
  - left. quiet_auto.
Qed.

Lemma served_quiet now t t' : quiet t t' -> served now t t'.
Proof. intros Hq. left. by apply quiet_calm. Qed.

Lemma served_fired now t t' :
  pendingReply t = false -> fired now t t' -> served now t t'.
Proof. intros Hp (? & ? & ? & _). by right. Qed.

Lemma onVehicleService_spec vs now t : switched now t (onVehicleService vs now t).
Proof.
  unfold onVehicleService, switched.
  destruct (state (m_pcs t)); try (left; quiet_solve).
  destruct (pendingReply t) eqn:Hp; expose; [left; quiet_auto |].
  destruct (loadStartManeuver _ _) as [pman p].
  assert (Hq : quiet t (set_m_plan p t)) by quiet_auto.
  assert (Hp' : pendingReply (set_m_plan p t) = false) by done.
  revert Hq Hp'. generalize (set_m_plan p t). intros t1 Hq Hp'.
  destruct (startManeuver_spec pman now t1) as [Hi [[Hs _]|[Hs _]]].
  - left. by eapply quiet_trans.
  - right. repeat split; try done; by eapply quiet_fired.
  - destruct (pendingReply t); expose; left; quiet_auto.
Qed.

Lemma onVehicleManeuver_spec vs now t : switched now t (onVehicleManeuver vs now t).
Proof.
  unfold onVehicleManeuver, switched.
  destruct (execMode t); [| left; expose_bool; quiet_solve].
  destruct (pendingReply t) eqn:Hp; expose_bool; [left; quiet_solve |].
  destruct (_ =? _); [left; quiet_solve |].
  destruct (isDone _ _).
  - right. split; [done |]. split.
    + fire.
    + unfold initMode. by rewrite state_changeMode3.
  - destruct (loadNextManeuver _ _) as [pman p].
    assert (Hq : quiet t (set_m_plan p t)) by quiet_auto.
    revert Hq. generalize (set_m_plan p t). intros t1 Hq.
    destruct (startManeuver_spec pman now t1) as [Hi [[Hs _]|[Hs _]]].
    + left. by eapply quiet_trans.
    + right. repeat split; try done; by eapply quiet_fired.
Qed.

Lemma onVehicleError_spec vs now t : switched now t (onVehicleError vs now t).
Proof.
  unfold onVehicleError, switched; expose.
  match goal with |- context [String.eqb ?d _] => set (edesc := d) end.
  match goal with |- context [m_last_event ?x] => set (t1 := x) end.
  assert (Hq : quiet t t1).
  { subst t1. destruct (execMode t); quiet_auto. }
  pose proof (quiet_pending _ _ Hq) as Hp.
  clearbody t1 edesc.
  destruct (String.eqb _ _); expose_bool; [left; done |].
  destruct (pendingReply t1) eqn:Hp1; expose_bool; [left; done |].
  destruct (initMode t1).
  - right. split; [done |]. split.
    + apply (quiet_fired now t t1); [done |].
      apply (fired_quiet now t1 (vehicleRequest VC_STOP_CALIBRATION None now
                                   (onFailure edesc t1))); [| quiet_solve].
      apply (quiet_fired now t1 (onFailure edesc t1)); [quiet_solve |].
      apply fired_vehicleRequest.
    + unfold initMode. by rewrite state_changeMode3.
  - left. quiet_auto.
Qed.

Lemma consume_VehicleState_spec vs now t :
  served now t (consume_VehicleState vs now t).
Proof.
  unfold consume_VehicleState.
  destruct (bool_decide _); [by left |]. expose.
  assert (Hq0 : quiet t (set_m_last_vstate now t)) by quiet_auto.
  pose proof (quiet_pending _ _ Hq0) as Hp0.
  revert Hq0 Hp0. generalize (set_m_last_vstate now t). intros t0 Hq0 Hp0.
  match goal with |- context [initMode ?x] => set (t1 := x) end.
  assert (Hsw : switched now t0 t1).
  { subst t1. destruct (op_mode vs);
      auto using onVehicleService_spec, onVehicleError_spec,
                 onVehicleManeuver_spec; left; apply quiet_refl. }
  clearbody t1.
  destruct Hsw as [Hq1|(Hp & Hf & Hi)].
  - assert (Hq : quiet t t1) by (by eapply quiet_trans).
    pose proof (quiet_pending _ _ Hq) as Hp. clear t0 Hq0 Hp0 Hq1.
    destruct (initMode t1); [| by apply served_quiet].
    match goal with |- context [isCalibrationDone _ (m_plan ?x)] =>
      set (t2 := x) end.
    assert (Hq2 : quiet t t2) by (subst t2; quiet_auto).
    pose proof (quiet_pending _ _ Hq2) as Hp2.
    clearbody t2. clear t1 Hq Hp.
    destruct (isCalibrationDone _ _).
    + destruct (bool_decide _); expose; [| by apply served_quiet].
      destruct (pendingReply t2) eqn:Hp; [by apply served_quiet |].
      destruct (loadStartManeuver _ _) as [pman p].
      assert (Hq : quiet t (set_m_plan p t2)) by quiet_auto.
      revert Hq. generalize (set_m_plan p t2). intros t3 Hq.
      destruct (startManeuver_spec pman now t3) as [_ [[Hs _]|[Hs _]]].
      * apply served_quiet. by eapply quiet_trans.
      * apply served_fired; [done | by eapply quiet_fired].
    + destruct (hasCalibrationFailed _ _); apply served_quiet; quiet_auto.
  - rewrite Hi. apply served_fired; [by rewrite <- Hp0 | by eapply quiet_fired].
Qed.

(** Pushing onto and popping off the request queue does not show in
    [served]. *)
Lemma served_queue now t q1 q2 (f : Task -> Task) :
  (forall t0, one_request now t0 (f t0)) ->
  pendingReply t = false ->
  served now t (set_m_requests q2 (f (set_m_requests q1 t))).
Proof.
  intros Hf Hp.
  assert (H1 : nreq (set_m_requests q1 t) = nreq t
               /\ m_state (set_m_requests q1 t) = m_state t) by done.
  revert H1. pose proof (Hf (set_m_requests q1 t)) as Ho. revert Ho.
  generalize (set_m_requests q1 t). intros t1 Ho [Hn Hs].
  assert (H2 : forall t2, nreq (set_m_requests q2 t2) = nreq t2
               /\ m_state (set_m_requests q2 t2) = m_state t2
               /\ m_vc_reply_deadline (set_m_requests q2 t2)
                  = m_vc_reply_deadline t2) by done.
  specialize (H2 (f t1)). revert H2 Ho.
  generalize (set_m_requests q2 (f t1)). generalize (f t1).
  intros t2 t3 (Hn3 & Hs3 & Hd3) [(? & ? & ? & _)|(? & ? & ? & _)].
  - left. split; congruence.
  - right. repeat split; congruence.
Qed.

Lemma consume_PlanControl_spec pc now t :
  served now t (consume_PlanControl pc now t).
Proof.
  unfold consume_PlanControl.
  destruct (bool_decide _); [by left |].
  destruct (pendingReply t) eqn:Hp; [by left |].
  destruct (m_requests t) as [|front rest] eqn:Hm; expose.
  - destruct (processRequest_spec pc now t) as [Hs|Hs];
      [by apply served_quiet | by apply served_fired].
  - match goal with |- context [tail (m_requests ?x)] =>
      generalize (tail (m_requests x)) end.
    intros q2.
    apply (served_queue now t _ q2 (processRequest front now));
      [apply processRequest_spec | done].
Qed.

Lemma consume_EntityActivationState_spec msg now t :
  served now t (consume_EntityActivationState msg now t).
Proof.
  unfold consume_EntityActivationState; expose.
  match goal with |- context [m_plan ?x] => set (t1 := x) end.
  assert (Hq : quiet t t1).
  { subst t1. destruct (bool_decide _); [destruct (eas_state msg) |]; quiet_auto. }
  pose proof (quiet_pending _ _ Hq) as Hp. clearbody t1.
  destruct (resolveEntity _); [| by apply served_quiet].
  destruct (onEntityActivationState _ _ _ _) as [[] p]; expose;
    [apply served_quiet; quiet_auto |].
  destruct (actfail_abort _); [| apply served_quiet; quiet_auto].
  match goal with |- context [initMode ?x] => set (t2 := x) end.
  assert (Hq2 : quiet t t2) by (subst t2; quiet_auto).
  pose proof (quiet_pending _ _ Hq2) as Hp2. clearbody t2.
  destruct (initMode t2); expose_bool; [| apply served_quiet; quiet_solve].
  destruct (pendingReply t2) eqn:Hp3; expose_bool;
    [apply served_quiet; quiet_solve |].
  apply served_fired; [by rewrite <- Hp2 |].
  apply (quiet_fired now t t2); [done |]. fire.
Qed.

Lemma consume_VehicleCommand_calm vc now t :
  calm t (consume_VehicleCommand vc now t).
Proof.
  unfold consume_VehicleCommand; expose.
  destruct (bool_decide _); [done |].
  destruct (pendingReply t); [| done].
  destruct (_ || _); [done |].
  match goal with |- context [initMode ?x] => set (t1 := x) end.
  assert (Hn : calm t t1) by done. clearbody t1.
  destruct (_ || _); [| done].
  match goal with |- context [if ?c then changeMode3 _ _ _ _ else _] =>
    destruct c end; [| done].
  eapply calm_trans; [exact Hn |]. apply quiet_calm, quiet_changeMode3.
Qed.

Lemma quiet_reportProgress now t : quiet t (reportProgress now t).
Proof.
  unfold reportProgress.
  destruct (_ && _); [apply quiet_refl |].
  destruct (updateProgress _ _ _) as [pr p]. quiet_auto.
Qed.

Lemma quiet_onMain_report due now t : quiet t (onMain_report due now t).
Proof.
  unfold onMain_report. destruct due; [| apply quiet_refl]. expose.
  destruct (progress _); [| quiet_auto].
  apply (quiet_trans t (reportProgress now t)); [apply quiet_reportProgress |].
  generalize (reportProgress now t). intros t1. quiet_auto.
Qed.

Lemma quiet_onMain_vstate now t : quiet t (onMain_vstate now t).
Proof. unfold onMain_vstate; expose. destruct (_ && _); quiet_solve. Qed.

Lemma onMain_requests_spec now t :
  served now t (onMain_requests now t)
  /\ (pendingReply t = true -> onMain_requests now t = t).
Proof.
  unfold onMain_requests.
  destruct (pendingReply t) eqn:Hp; expose; [by split; [left |] |].
  split; [| done].
  destruct (m_requests t) as [|front rest]; [by left |]. expose.
  generalize (tail (m_requests (processRequest front now t))). intros q2.
  destruct (processRequest_spec front now t) as [Hs|Hs]; revert Hs;
    generalize (processRequest front now t); intros t1 (? & ? & ? & _).
  - by left.
  - by right.
Qed.

Lemma onMain_reply_timeout_calm now t :
  calm t (onMain_reply_timeout now t).
Proof.
  unfold onMain_reply_timeout; expose.
  destruct (Qlt_bool 0 _); [done |].
  apply (calm_trans t (set_m_vc_reply_deadline (-1)%Q t)); [done |].
  generalize (set_m_vc_reply_deadline (-1)%Q t). intros t1.
  pose proof (quiet_calm _ _
    (quiet_changeMode3 PCS_READY "vehicle reply timeout" now t1)) as Hc.
  revert Hc. generalize (changeMode3 PCS_READY "vehicle reply timeout" now t1).
  by intros t2 [? ?].
Qed.

(** A deadline that was set at [now] has not expired at [now]. *)
Lemma onMain_reply_timeout_fresh now t :
  m_vc_reply_deadline t = (now + c_vc_reply_timeout)%Q ->
  onMain_reply_timeout now t = t.
Proof.
  intros Hd. unfold onMain_reply_timeout, Qlt_bool. rewrite Hd.
  destruct (negb (Qle_bool 0 (now + c_vc_reply_timeout))); [done |].
  destruct (Qle_bool (now + c_vc_reply_timeout - now) 0) eqn:E; [| done].
  apply Qle_bool_iff in E. unfold c_vc_reply_timeout in E. lra.
Qed.

Lemma onMain_pass_spec due now t : served now t (onMain_pass due now t).
Proof.
  unfold onMain_pass; expose.
  assert (Hq : quiet t (onMain_vstate now (onMain_report due now t))).
  { eapply quiet_trans; [apply quiet_onMain_report | apply quiet_onMain_vstate]. }
  pose proof (quiet_pending _ _ Hq) as Hp. apply quiet_calm in Hq.
  revert Hq Hp. generalize (onMain_vstate now (onMain_report due now t)).
  intros t2 [Hn2 Hs2] Hp.
  destruct (onMain_requests_spec now t2) as [[[Hn3 Hs3]|Hr] _].
  - left. eapply calm_trans; [| apply onMain_reply_timeout_calm].
    split; congruence.
  - destruct Hr as (Hp3 & Hn3 & Hd3 & Hs3).
    rewrite onMain_reply_timeout_fresh by done.
    right. repeat split; congruence.
Qed.

(** Every handler but the one for [EstimatedState] is [served]. *)
Lemma handle_served now e t :
  (forall msg, e <> EvEstimatedState msg) -> served now t (handle now e t).
Proof.
  intros He. destruct e; unfold handle.
  - apply consume_PlanControl_spec.
  - apply served_quiet. unfold consume_PlanDB.
    destruct (onPlanDB _ _) as [[] d]; expose; quiet_auto.
  - by destruct (He msg).
  - apply served_quiet. unfold consume_ManeuverControlState; expose.
    destruct (mcs_state _); quiet_auto.
  - apply served_quiet. unfold consume_PowerOperation.
    destruct (bool_decide _); [apply quiet_refl |].
    destruct (po_op _); [quiet_auto | | apply quiet_refl].
    destruct (db_open _) as [[] d]; quiet_auto.
  - apply served_quiet. unfold consume_RegisterManeuver. quiet_auto.
  - left. apply consume_VehicleCommand_calm.
  - apply consume_VehicleState_spec.
  - apply served_quiet. unfold consume_EntityInfo.
    destruct (_ !! _); quiet_auto.
  - apply consume_EntityActivationState_spec.
  - apply served_quiet. unfold consume_FuelLevel. quiet_auto.
  - apply served_quiet. unfold consume_Memento.
    destruct (processMemento _ _) as [[pmem|] mh]; expose; quiet_auto.
  - apply onMain_pass_spec.
Qed.

(** C1.  Whatever the state of the engine and whatever the bus delivers
    (or the main loop does), a handler call either dispatches no vehicle
    request at all, or no reply was pending when it started and it
    dispatches exactly one request, whose reply deadline is then the one in
    force.  While a reply is pending no vehicle request goes out. *)
Theorem one_vehicle_request_in_flight now e t :
  nreq (handle now e t) = nreq t
  \/ (pendingReply t = false
      /\ nreq (handle now e t) = S (nreq t)
      /\ m_vc_reply_deadline (handle now e t) = (now + c_vc_reply_timeout)%Q).
Proof.
  assert (Hs : (forall msg, e <> EvEstimatedState msg) ->
               nreq (handle now e t) = nreq t
               \/ (pendingReply t = false
                   /\ nreq (handle now e t) = S (nreq t)
                   /\ m_vc_reply_deadline (handle now e t)
                      = (now + c_vc_reply_timeout)%Q)).
  { intros He.
    destruct (handle_served now e t He) as [[? _]|(? & ? & ? & _)];
      [by left | by right]. }
  destruct e; try (by apply Hs).
  left. unfold handle, consume_EstimatedState. by destruct (bool_decide _).
Qed.

(** ** Replies from the vehicle *)

Lemma unmatched_ignored vc now t :
  vc_request_id vc <> m_vreq_ctr t
  \/ dst (vc_hdr vc) <> system_id t
  \/ dst_ent (vc_hdr vc) <> entity_id t ->
  consume_VehicleCommand vc now t = t.
Proof.
  intros Hm. unfold consume_VehicleCommand.
  destruct (bool_decide _); [done |].
  destruct (negb _); [done |].
  rewrite (proj2 (orb_true_iff _ _)); [done |].
  rewrite orb_true_iff, !bool_decide_eq_true.
  destruct Hm as [?|[?|?]]; auto.
Qed.

(** C4.  A [VehicleCommand] whose request id is not the current counter,
    or that is addressed to another system or entity, leaves the whole
    engine state as it was (published state, deadline, queue, plan, and
    the bus: nothing is dispatched). *)
Theorem unmatched_reply_ignored vc now t :
  vc_request_id vc <> m_vreq_ctr t
  \/ dst (vc_hdr vc) <> system_id t
  \/ dst_ent (vc_hdr vc) <> entity_id t ->
  consume_VehicleCommand vc now t = t.
Proof. apply unmatched_ignored. Qed.

(** C7 (as the code has it).  A matched reply to the pending request, of
    whatever kind other than a request -- SUCCESS, FAILURE or IN_PROGRESS
    alike -- clears the reply deadline: the request is settled. *)
Theorem matched_reply_settles vc now t :
  vc_type vc <> VC_REQUEST ->
  pendingReply t = true ->
  dst (vc_hdr vc) = system_id t ->
  dst_ent (vc_hdr vc) = entity_id t ->
  vc_request_id vc = m_vreq_ctr t ->
  m_vc_reply_deadline (consume_VehicleCommand vc now t) = (-1)%Q
  /\ pendingReply (consume_VehicleCommand vc now t) = false.
Proof.
  intros Hty Hp Hd He Hid. unfold consume_VehicleCommand.
  rewrite bool_decide_eq_false_2 by done. rewrite Hp. expose.
  rewrite !bool_decide_eq_false_2 by (intros Hn; by apply Hn).
  expose_bool.
  assert (Hq : forall t1, m_vc_reply_deadline t1 = (-1)%Q ->
                 pendingReply t1 = false).
  { intros t1 H1. unfold pendingReply. by rewrite H1. }
  match goal with |- context [if ?c then _ else set_m_vc_reply_deadline _ _] =>
    destruct c end; [| by split].
  match goal with |- context [if ?c then changeMode3 _ _ _ _ else _] =>
    destruct c end; [| by split].
  assert (Hc : m_vc_reply_deadline
                 (changeMode3 PCS_READY (vc_info vc) now
                    (set_m_vc_reply_deadline (-1)%Q t)) = (-1)%Q).
  { generalize (quiet_changeMode3 PCS_READY (vc_info vc) now
                  (set_m_vc_reply_deadline (-1)%Q t)).
    by intros (_ & -> & _). }
  split; [done | by apply Hq].
Qed.

(** ** The main loop *)


(** ** Navigation state *)

(** The calibration filler of [startCalibration], when station keeping is
    configured, is a StationKeeping maneuver at the position of [m_state]. *)
Lemma calibration_filler_position now t :
  blockedMode t = false ->
  sk_calib (m_args t) = true ->
  exists vc,
    bus (snd (startCalibration now t)) = bus t ++ [OutVehicleCommand vc]
    /\ vc_maneuver vc =
       Some (mkManeuver DUNE_IMC_STATIONKEEPING "StationKeeping" "" 0
               (FStationKeeping (fst (toWGS84 (m_state t)))
                  (snd (toWGS84 (m_state t))) 0%Q Z_DEPTH
                  (sk_radius (m_args t)) (sk_rpm (m_args t)) SUNITS_RPM)).
Proof.
  intros Hb Hsk. unfold startCalibration. rewrite Hb, Hsk.
  destruct (toWGS84 (m_state t)) as [lat lon].
  unfold vehicleRequest, dispatch. cbn. eexists. split; reflexivity.
Qed.

(** C10.  An [EstimatedState] from another system leaves the engine as it
    was; one from the engine's own system becomes the stored navigation
    state; and no other message, nor the main loop, touches the stored
    navigation state (the position [startCalibration] reads for the
    station-keeping filler). *)
Theorem navigation_state_own_system_only now e t :
  match e with
  | EvEstimatedState msg =>
      if bool_decide (es_src msg = system_id t)
      then m_state (handle now e t) = msg
      else handle now e t = t
  | _ => m_state (handle now e t) = m_state t
  end.
Proof.
  assert (Hs : (forall msg, e <> EvEstimatedState msg) ->
               m_state (handle now e t) = m_state t).
  { intros He.
    by destruct (handle_served now e t He) as [[_ ?]|(_ & _ & _ & ?)]. }
  destruct e; try (by apply Hs).
  unfold handle, consume_EstimatedState.
  destruct (decide (es_src msg = system_id t)) as [Heq|Hne].
  - rewrite bool_decide_eq_true_2 by done.
    by rewrite bool_decide_eq_false_2 by (intros Hn; by apply Hn).
  - rewrite bool_decide_eq_false_2 by done.
    by rewrite bool_decide_eq_true_2 by done.
Qed.

(** ** Reply timeout *)

(** What a mode change leaves alone. *)
Lemma changeMode_frame s desc nid man now t :
  m_vreq_ctr (changeMode s desc nid man now t) = m_vreq_ctr t
  /\ m_requests (changeMode s desc nid man now t) = m_requests t
  /\ m_spec (changeMode s desc nid man now t) = m_spec t
  /\ m_reply (changeMode s desc nid man now t) = m_reply t
  /\ replies (changeMode s desc nid man now t) = replies t.
Proof.
  unfold changeMode, changeLog, replies, dispatch.
  repeat case_match; cbn; rewrite ?omap_app; cbn; rewrite ?app_nil_r; done.
Qed.

Lemma vehicleRequest_ctr cmd arg now t :
  m_vreq_ctr (vehicleRequest cmd arg now t) = (m_vreq_ctr t + 1) mod 65536.
Proof. unfold vehicleRequest. by repeat case_match. Qed.

Lemma not_pending_reply_ignored vc now t :
  pendingReply t = false -> consume_VehicleCommand vc now t = t.
Proof.
  intros Hp. unfold consume_VehicleCommand. rewrite Hp.
  by destruct (bool_decide _).
Qed.

(** What the timeout block of the main loop does once the deadline of a
    pending request has passed. *)
Lemma reply_timeout_effect now t :
  pendingReply t = true ->
  (m_vc_reply_deadline t <= now)%Q ->
  state (m_pcs (onMain_reply_timeout now t)) = PCS_READY
  /\ m_requests (onMain_reply_timeout now t) = []
  /\ m_vreq_ctr (onMain_reply_timeout now t) = (m_vreq_ctr t + 1) mod 65536
  /\ m_vreq_ctr (onMain_reply_timeout now t) <> m_vreq_ctr t
  /\ m_vc_reply_deadline (onMain_reply_timeout now t) = (-1)%Q
  /\ (forall vc now',
        consume_VehicleCommand vc now' (onMain_reply_timeout now t)
        = onMain_reply_timeout now t)
  /\ (forall cmd arg now1 vc now2,
        vc_request_id vc = m_vreq_ctr t ->
        consume_VehicleCommand vc now2
          (vehicleRequest cmd arg now1 (onMain_reply_timeout now t))
        = vehicleRequest cmd arg now1 (onMain_reply_timeout now t))
  /\ replies (onMain_reply_timeout now t) = replies t.
Proof.
  intros Hp Hd.
  assert (Hne2 : ((m_vreq_ctr t + 1) mod 65536 + 1) mod 65536 <> m_vreq_ctr t).
  { pose proof (Z.mod_pos_bound (m_vreq_ctr t + 1) 65536 eq_refl) as Hb1.
    pose proof (Z.mod_pos_bound ((m_vreq_ctr t + 1) mod 65536 + 1) 65536 eq_refl)
      as Hb2.
    intros Heq. rewrite Heq in Hb2.
    destruct (decide (m_vreq_ctr t + 1 < 65536)) as [Hlt|Hge].
    - rewrite (Z.mod_small (m_vreq_ctr t + 1)) in Heq by lia.
      destruct (decide (m_vreq_ctr t + 2 < 65536)) as [Hlt2|Hge2].
      + rewrite Z.mod_small in Heq by lia. lia.
      + assert (m_vreq_ctr t = 65534) as E by lia.
        rewrite E in Heq. by vm_compute in Heq.
    - assert (m_vreq_ctr t = 65535) as E by lia.
      rewrite E in Heq. by vm_compute in Heq. }
  assert (Hne : (m_vreq_ctr t + 1) mod 65536 <> m_vreq_ctr t).
  { intros Heq.
    pose proof (Z.mod_pos_bound (m_vreq_ctr t + 1) 65536 eq_refl) as Hb.
    rewrite Heq in Hb.
    rewrite Z.mod_small in Heq; [lia |].
    destruct (decide (m_vreq_ctr t = 65535)) as [E|E]; [| lia].
    rewrite E in Heq. by vm_compute in Heq. }
  unfold onMain_reply_timeout, Qlt_bool.
  unfold pendingReply in Hp. rewrite Hp. expose.
  rewrite (proj2 (Qle_bool_iff (m_vc_reply_deadline t - now) 0)) by lra.
  assert (H0 : m_vreq_ctr (set_m_vc_reply_deadline (-1)%Q t) = m_vreq_ctr t
               /\ replies (set_m_vc_reply_deadline (-1)%Q t) = replies t
               /\ m_vc_reply_deadline (set_m_vc_reply_deadline (-1)%Q t)
                  = (-1)%Q)
    by done.
  revert H0. generalize (set_m_vc_reply_deadline (-1)%Q t).
  intros t0 (Hc & Hr & Hd0).
  pose proof (state_changeMode3 PCS_READY "vehicle reply timeout" now t0) as Hst.
  pose proof (changeMode_frame PCS_READY "vehicle reply timeout" "" None now t0)
    as (Hc1 & _ & _ & _ & Hr1).
  pose proof (quiet_changeMode3 PCS_READY "vehicle reply timeout" now t0)
    as (_ & Hd1 & _).
  fold (changeMode3 PCS_READY "vehicle reply timeout" now t0) in Hc1, Hr1.
  revert Hst Hc1 Hr1 Hd1.
  generalize (changeMode3 PCS_READY "vehicle reply timeout" now t0).
  intros t1 Hst Hc1 Hr1 Hd1. cbn.
  rewrite Hc1, Hc.
  assert (Hd2 : m_vc_reply_deadline t1 = (-1)%Q) by congruence.
  repeat split; try done.
  - intros vc now'. apply not_pending_reply_ignored.
    unfold pendingReply. cbn. by rewrite Hd2.
  - intros cmd arg now1 vc now2 Hid.
    apply unmatched_ignored. left. rewrite Hid.
    rewrite vehicleRequest_ctr. cbn. congruence.
  - unfold replies in *. cbn. congruence.
Qed.

(** C3 (as the code has it).  When the main loop finds the reply deadline
    expired with a request pending, it publishes READY, empties the request
    queue, moves the 16-bit request counter on by one (so it differs from
    the id of the request that timed out) and clears the deadline.  From
    then on every vehicle reply is ignored until a new request is sent, and
    a late reply that carries the old request id is ignored after that as
    well.  No [PlanControl] reply goes to the operator. *)
Theorem reply_timeout_recovery now t :
  pendingReply t = true ->
  (m_vc_reply_deadline t <= now)%Q ->
  state (m_pcs (onMain_reply_timeout now t)) = PCS_READY
  /\ m_requests (onMain_reply_timeout now t) = []
  /\ m_vreq_ctr (onMain_reply_timeout now t) = (m_vreq_ctr t + 1) mod 65536
  /\ m_vreq_ctr (onMain_reply_timeout now t) <> m_vreq_ctr t
  /\ m_vc_reply_deadline (onMain_reply_timeout now t) = (-1)%Q
  /\ (forall vc now',
        consume_VehicleCommand vc now' (onMain_reply_timeout now t)
        = onMain_reply_timeout now t)
  /\ (forall cmd arg now1 vc now2,
        vc_request_id vc = m_vreq_ctr t ->
        consume_VehicleCommand vc now2
          (vehicleRequest cmd arg now1 (onMain_reply_timeout now t))
        = vehicleRequest cmd arg now1 (onMain_reply_timeout now t))
  /\ replies (onMain_reply_timeout now t) = replies t.
Proof. apply reply_timeout_effect. Qed.

(** ** Plan control operations *)

(** C8 (as the code has it).  A PC_STOP processed while the published
    state is READY (entity state NORMAL) dispatches one message, the
    FAILURE reply "no plan is running, request ignored", and changes the
    engine in three places: the reply record, the bus, and the published
    [PlanControlState], whose [last_outcome] becomes FAILURE, whose
    [plan_progress] becomes -1 and whose [plan_eta] becomes 0.  The
    published state stays READY; deadline, queue, counter, plan and
    specification are as before. *)
Theorem stop_while_ready pc now t :
  pc_op pc = PC_STOP ->
  getEntityState t = ESTA_NORMAL ->
  state (m_pcs t) = PCS_READY ->
  processRequest pc now t =
    set_m_reply (set_pc_plan_id "" (no_plan_reply pc t))
      (set_bus (bus t ++ [OutPlanControl (no_plan_reply pc t)])
         (set_m_pcs
            (set_plan_eta 0
               (set_plan_progress (-1)%Q
                  (set_last_outcome LPO_FAILURE (m_pcs t)))) t)).
Proof.
  intros Hop He Hst.
  destruct t as [? pcs rep ? ? ? ? ? ? ? ? ? ? ? ? ? ? ? ? ? ? ? ? ? ? [es code] ?].
  destruct pcs as [st ? ? ? ? ? ? ?]. destruct pc as [? ? op ? ? ? ? ?].
  cbn in Hop, He, Hst. subst op es st.
  vm_compute. reflexivity.
Qed.

(** What PC_GET does while a plan is running: a SUCCESS reply that
    carries the stored specification. *)
Lemma get_while_running pc now t :
  pc_op pc = PC_GET ->
  getEntityState t = ESTA_NORMAL ->
  state (m_pcs t) = PCS_INITIALIZING \/ state (m_pcs t) = PCS_EXECUTING ->
  pc_type (m_reply (processRequest pc now t)) = PC_SUCCESS
  /\ pc_arg (m_reply (processRequest pc now t))
     = Some (MsgPlanSpecification (m_spec t))
  /\ bus (processRequest pc now t)
     = bus t ++ [OutPlanControl (m_reply (processRequest pc now t))].
Proof.
  intros Hop He Hst.
  destruct t as [? pcs rep ? ? ? ? ? ? ? ? ? ? ? ? ? ? ? ? ? ? ? ? ? ? [es code] ?].
  destruct pcs as [st ? ? ? ? ? ? ?]. destruct pc as [? ? op ? ? ? ? ?].
  cbn in Hop, He, Hst. subst op es.
  destruct Hst; subst st; vm_compute; done.
Qed.

(** And while none is: the failure "no plan is running". *)
Lemma get_while_idle pc now t :
  pc_op pc = PC_GET ->
  getEntityState t = ESTA_NORMAL ->
  state (m_pcs t) = PCS_READY \/ state (m_pcs t) = PCS_BLOCKED ->
  pc_type (m_reply (processRequest pc now t)) = PC_FAILURE
  /\ pc_info (m_reply (processRequest pc now t)) = "no plan is running"
  /\ bus (processRequest pc now t)
     = bus t ++ [OutPlanControl (m_reply (processRequest pc now t))].
Proof.
  intros Hop He Hst.
  destruct t as [? pcs rep ? ? ? ? ? ? ? ? ? ? ? ? ? ? ? ? ? ? ? ? ? ? [es code] ?].
  destruct pcs as [st ? ? ? ? ? ? ?]. destruct pc as [? ? op ? ? ? ? ?].
  cbn in Hop, He, Hst. subst op es.
  destruct Hst; subst st; vm_compute; done.
Qed.

Lemma kept_refl t : kept t t.
Proof. by repeat split. Qed.

Lemma kept_trans t1 t2 t3 : kept t1 t2 -> kept t2 t3 -> kept t1 t3.
Proof. intros (? & ? & ? & ?) (? & ? & ? & ?); repeat split; congruence. Qed.

Lemma kept_onFailure msg t : kept t (onFailure msg t).
Proof. by repeat split. Qed.

Lemma kept_onSuccess msg t : kept t (onSuccess msg t).
Proof. by repeat split. Qed.

Ltac kept_peel :=
  lazymatch goal with
  | |- kept ?t ?t => apply kept_refl
  | |- kept ?t (onFailure _ ?x) =>
      apply (kept_trans t x); [| apply kept_onFailure]
  | |- kept ?t (onSuccess _ ?x) =>
      apply (kept_trans t x); [| apply kept_onSuccess]
  | |- kept ?t (?f ?v ?x) =>
      apply (kept_trans t x); [| generalize x; intros; by repeat split]
  end.

Ltac kept_auto :=
  repeat kept_peel;
  try match goal with H : kept ?a ?b |- kept ?a ?b => exact H end.

Lemma reply_onFailure msg t :
  pc_type (m_reply (onFailure msg t)) = PC_FAILURE.
Proof. done. Qed.

Lemma parsePlan_spec startup now t :
  kept t (snd (parsePlan startup now t))
  /\ (fst (parsePlan startup now t) = None ->
      pc_type (m_reply (snd (parsePlan startup now t))) = PC_FAILURE).
Proof.
  unfold parsePlan.
  destruct (plan_parse _ _ _ _ _ _) as [[ps|what] p]; expose.
  - split; [| intros Hn; discriminate Hn].
    destruct startup; expose; kept_auto.
  - split; [kept_auto | intros _].
    generalize (onFailure what (set_m_plan p t))
               (reply_onFailure what (set_m_plan p t)).
    intros t1 H1. rewrite <- H1. reflexivity.
Qed.

(** An accepted PC_LOAD of a PlanSpecification. *)
Lemma load_accepted P0 pc now t :
  pc_op pc = PC_LOAD ->
  pc_arg pc = Some (MsgPlanSpecification P0) ->
  pc_type (m_reply (processRequest pc now t)) = PC_SUCCESS ->
  m_spec (processRequest pc now t) = set_spec_src_ent (entity_id t) P0
  /\ state (m_pcs (processRequest pc now t)) = state (m_pcs t)
  /\ (state (m_pcs t) = PCS_READY \/ state (m_pcs t) = PCS_BLOCKED)
  /\ getEntityState (processRequest pc now t) = ESTA_NORMAL.
Proof.
  intros Hop Harg.
  unfold processRequest.
  match goal with |- context [getEntityState ?x] => set (T0 := x) end.
  assert (K0 : kept t T0) by (subst T0; kept_auto). clearbody T0.
  destruct (bool_decide (getEntityState T0 <> ESTA_NORMAL)) eqn:E.
  { by rewrite reply_onFailure. }
  apply bool_decide_eq_false in E. apply dec_stable in E.
  rewrite Hop, Harg. unfold loadPlan. expose.
  destruct (initMode T0 && true || execMode T0) eqn:Ec.
  { by rewrite reply_onFailure. }
  assert (Hst : state (m_pcs t) = PCS_READY \/ state (m_pcs t) = PCS_BLOCKED).
  { destruct K0 as (_ & <- & _). unfold initMode, execMode in Ec.
    destruct (state (m_pcs T0)); auto; by vm_compute in Ec. }
  unfold parseArg, handleArgSpecification. expose.
  match goal with |- context [parsePlan false now ?x] => set (T1 := x) end.
  assert (K1 : m_spec T1 = set_spec_src_ent (entity_id T0) P0
               /\ state (m_pcs T1) = state (m_pcs T0)
               /\ m_entity T1 = m_entity T0) by done.
  clearbody T1.
  pose proof (parsePlan_spec false now T1) as [K2 Hf].
  destruct (parsePlan false now T1) as [[ps|] T2]; expose_in K2; expose_in Hf;
    expose.
  - intros _.
    match goal with |- context [m_spec ?x] =>
      assert (K3 : kept T2 x) by kept_auto; revert K3; generalize x end.
    intros T3 K3.
    destruct K0 as (_ & S0 & E0 & I0), K1 as (P1 & S1 & E1),
             K2 as (P2 & S2 & E2 & _), K3 as (P3 & S3 & E3 & _).
    unfold getEntityState in *.
    repeat split; try congruence.
  - specialize (Hf eq_refl).
    pose proof (changeMode_frame PCS_READY
                  ("plan parse failed: " +:+ pc_info (m_reply T2)) "" None now T2)
      as (_ & _ & _ & Hr & _).
    unfold changeMode3. rewrite Hr, Hf. discriminate.
Qed.

(** C2 (as the code has it).  A PC_LOAD that carries a PlanSpecification
    [P0] and is accepted stores [P0] with [source_entity] set to the
    engine's entity id, all other fields as given; it is accepted only in
    READY or BLOCKED and leaves the published state there, so the PC_GET
    that follows is answered with the failure "no plan is running".
    PC_GET answers with success and the stored specification only while
    the published state is INITIALIZING or EXECUTING. *)
Theorem load_then_get P0 pc now t :
  pc_op pc = PC_LOAD ->
  pc_arg pc = Some (MsgPlanSpecification P0) ->
  pc_type (m_reply (processRequest pc now t)) = PC_SUCCESS ->
  m_spec (processRequest pc now t) = set_spec_src_ent (entity_id t) P0
  /\ state (m_pcs (processRequest pc now t)) = state (m_pcs t)
  /\ (state (m_pcs t) = PCS_READY \/ state (m_pcs t) = PCS_BLOCKED)
  /\ (forall pc' now', pc_op pc' = PC_GET ->
        pc_type (m_reply (processRequest pc' now' (processRequest pc now t)))
        = PC_FAILURE
        /\ pc_info (m_reply (processRequest pc' now' (processRequest pc now t)))
           = "no plan is running"
        /\ bus (processRequest pc' now' (processRequest pc now t))
           = bus (processRequest pc now t)
             ++ [OutPlanControl
                   (m_reply (processRequest pc' now' (processRequest pc now t)))])
  /\ (forall pc' now' t', pc_op pc' = PC_GET ->
        getEntityState t' = ESTA_NORMAL ->
        state (m_pcs t') = PCS_INITIALIZING \/ state (m_pcs t') = PCS_EXECUTING ->
        pc_type (m_reply (processRequest pc' now' t')) = PC_SUCCESS
        /\ pc_arg (m_reply (processRequest pc' now' t'))
           = Some (MsgPlanSpecification (m_spec t'))).
Proof.
  intros Hop Harg Hacc.
  destruct (load_accepted P0 pc now t Hop Harg Hacc) as (Hs & Hst & Hrb & He).
  split; [done |]. split; [done |]. split; [done |]. split.
  - intros pc' now' Hget. apply get_while_idle; [done | done |].
    by rewrite Hst.
  - intros pc' now' t' Hget He' Hst'.
    by destruct (get_while_running pc' now' t' Hget He' Hst') as (? & ? & _).
Qed.

(** ** The request queue *)



(** ** Mementos *)

(** A memento the handler does not know is dropped: nothing reaches the
    database or the bus. *)
Lemma memento_unknown_discarded msg t :
  fst (processMemento msg (m_mh t)) = None ->
  m_db (consume_Memento msg t) = m_db t
  /\ bus (consume_Memento msg t) = bus t.
Proof.
  unfold consume_Memento.
  destruct (processMemento msg (m_mh t)) as [[pmem|] mh]; [discriminate |].
  by intros _.
Qed.

(** For a memento the handler knows, the database receives the incoming
    [Memento] under the memento kind, not the [PlanMemento] the handler
    produced. *)
Lemma memento_known_stored msg pmem t :
  fst (processMemento msg (m_mh t)) = Some pmem ->
  m_db (consume_Memento msg t)
  = sendToDB DBDT_MEMENTO (mem_id msg) (MsgMemento msg) (m_db t).
Proof.
  unfold consume_Memento.
  destruct (processMemento msg (m_mh t)) as [[pmem'|] mh]; [| discriminate].
  by intros _.
Qed.

(** ** Requests that are refused *)

Lemma not_normal_refused pc now t :
  getEntityState t <> ESTA_NORMAL ->
  processRequest pc now t
  = refused pc "engine not ready: entity state not normal" t.
Proof.
  intros He.
  destruct t as [? pcs rep ? ? ? ? ? ? ? ? ? ? ? ? ? ? ? ? ? ? ? ? ? ? [es code] ?].
  destruct pcs as [st ? ? ? ? ? ? ?]. destruct pc as [? ? op ? ? ? ? ?].
  cbn in He.
  destruct es; try (by destruct He); vm_compute; reflexivity.
Qed.

(** X1.  While the entity state is not NORMAL (boot, database error,
    power-down), every PlanControl request, whatever its operation, is
    answered with the failure "engine not ready: entity state not normal";
    apart from that reply and the failure marks in the published state
    nothing changes, and no vehicle command is sent. *)
Theorem refused_while_entity_not_normal pc now t :
  getEntityState t <> ESTA_NORMAL ->
  processRequest pc now t
  = refused pc "engine not ready: entity state not normal" t.
Proof. apply not_normal_refused. Qed.

(** X2.  A PC_LOAD that arrives while a plan is initializing or executing
    is answered with the failure "cannot load plan now", whatever its
    argument; the stored specification, the plan, the database and the
    published mode are not touched. *)
Theorem load_refused_while_running pc now t :
  pc_op pc = PC_LOAD ->
  getEntityState t = ESTA_NORMAL ->
  state (m_pcs t) = PCS_INITIALIZING \/ state (m_pcs t) = PCS_EXECUTING ->
  processRequest pc now t = refused pc "cannot load plan now" t.
Proof.
  intros Hop He Hst.
  destruct t as [? pcs rep ? ? ? ? ? ? ? ? ? ? ? ? ? ? ? ? ? ? ? ? ? ? [es code] ?].
  destruct pcs as [st ? ? ? ? ? ? ?]. destruct pc as [? ? op ? ? ? ? ?].
  cbn in Hop, He, Hst. subst op es.
  destruct Hst; subst st; vm_compute; reflexivity.
Qed.

(** X3.  A request whose operation is none of START, STOP, LOAD and GET
    is answered with the failure "plan control operation not supported"
    and changes nothing else. *)
Theorem unknown_operation_refused pc raw now t :
  pc_op pc = PC_OP_OTHER raw ->
  getEntityState t = ESTA_NORMAL ->
  processRequest pc now t = refused pc "plan control operation not supported" t.
Proof.
  intros Hop He.
  destruct t as [? pcs rep ? ? ? ? ? ? ? ? ? ? ? ? ? ? ? ? ? ? ? ? ? ? [es code] ?].
  destruct pcs as [st ? ? ? ? ? ? ?]. destruct pc as [? ? op ? ? ? ? ?].
  cbn in Hop, He. subst op es.
  vm_compute; reflexivity.
Qed.

(** ** Mode changes *)

(** X4.  Every mode change publishes the new mode: it ends with the
    dispatch of the [PlanControlState], now in mode [s], and records the
    event text, also when the mode was [s] already.  Logging is stopped (a
    [LoggingControl] with an empty name) and the plan is told it stopped
    exactly when the engine leaves INITIALIZING or EXECUTING for READY or
    BLOCKED.  No reply to the operator and no vehicle command goes out. *)
Theorem changeMode_publishes s desc nid man now t :
  state (m_pcs (changeMode s desc nid man now t)) = s
  /\ m_last_event (changeMode s desc nid man now t) = desc
  /\ bus (changeMode s desc nid man now t)
     = bus t
       ++ (if in_plan (state (m_pcs t)) && negb (in_plan s)
           then [OutLoggingControl (mkLoggingControl COP_REQUEST_START "")]
           else [])
       ++ [OutPlanControlState (m_pcs (changeMode s desc nid man now t))]
  /\ m_plan (changeMode s desc nid man now t)
     = (if in_plan (state (m_pcs t)) && negb (in_plan s)
        then planStopped (penv now t) (m_plan t)
        else m_plan t).
Proof.
  destruct t as [? pcs ? ? ? ? ? ? ? ? ? ? ? ? ? ? ? ? ? ? ? ? ? ? ? ? ?].
  destruct pcs as [st ? ? ? ? ? ? ?].
  destruct st, s, man; cbv -[app]; by rewrite <- ?app_assoc.
Qed.

(** ** Stopping a plan *)

(** X5.  A PC_STOP processed while a plan is initializing or executing
    sends STOP_MANEUVER to the vehicle, stops logging and publishes READY
    with [last_outcome] FAILURE; the stored specification stays.  The
    operator gets no [PlanControl] reply to this request: the stop shows
    only in the published state. *)
Theorem stop_while_running pc now t :
  pc_op pc = PC_STOP ->
  getEntityState t = ESTA_NORMAL ->
  state (m_pcs t) = PCS_INITIALIZING \/ state (m_pcs t) = PCS_EXECUTING ->
  state (m_pcs (processRequest pc now t)) = PCS_READY
  /\ last_outcome (m_pcs (processRequest pc now t)) = LPO_FAILURE
  /\ bus (processRequest pc now t)
     = bus t ++ [OutVehicleCommand (bare_request VC_STOP_MANEUVER t);
                 OutLoggingControl (mkLoggingControl COP_REQUEST_START "");
                 OutPlanControlState (m_pcs (processRequest pc now t))]
  /\ replies (processRequest pc now t) = replies t
  /\ m_vc_reply_deadline (processRequest pc now t)
     = (now + c_vc_reply_timeout)%Q
  /\ m_spec (processRequest pc now t) = m_spec t.
Proof.
  intros Hop He Hst.
  assert (Hbus : bus (processRequest pc now t)
     = bus t ++ [OutVehicleCommand (bare_request VC_STOP_MANEUVER t);
                 OutLoggingControl (mkLoggingControl COP_REQUEST_START "");
                 OutPlanControlState (m_pcs (processRequest pc now t))]).
  { destruct t as [? pcs rep ? ? ? ? ? ? ? ? ? ? ? ? ? ? ? ? ? ? ? ? ? ? [es code] ?].
    destruct pcs as [st ? ? ? ? ? ? ?]. destruct pc as [? ? op ? ? ? ? ?].
    cbn in Hop, He, Hst. subst op es.
    destruct Hst; subst st; cbv -[app Z.modulo Z.add]; by rewrite <- ?app_assoc. }
  split; [| split; [| split; [exact Hbus | split; [| split]]]].
  3: { unfold replies. rewrite Hbus, omap_app. cbn. by rewrite app_nil_r. }
  all: clear Hbus.
  all: destruct t as [? pcs rep ? ? ? ? ? ? ? ? ? ? ? ? ? ? ? ? ? ? ? ? ? ? [es code] ?];
    destruct pcs as [st ? ? ? ? ? ? ?]; destruct pc as [? ? op ? ? ? ? ?];
    cbn in Hop, He, Hst; subst op es;
    destruct Hst; subst st; vm_compute; reflexivity.
Qed.

(** ** Replies from the vehicle, continued *)

(** What [consume(VehicleCommand)] comes to for a reply that matches the
    pending request. *)
Lemma matched_reply_effect vc now t :
  vc_type vc <> VC_REQUEST ->
  pendingReply t = true ->
  dst (vc_hdr vc) = system_id t ->
  dst_ent (vc_hdr vc) = entity_id t ->
  vc_request_id vc = m_vreq_ctr t ->
  consume_VehicleCommand vc now t
  = if in_plan (state (m_pcs t))
       && bool_decide (vc_type vc = VC_FAILURE)
       && negb (bool_decide (vc_command vc = VC_STOP_CALIBRATION))
    then changeMode3 PCS_READY (vc_info vc) now
           (set_m_vc_reply_deadline (-1)%Q t)
    else set_m_vc_reply_deadline (-1)%Q t.
Proof.
  intros Hty Hp Hd He Hid. unfold consume_VehicleCommand.
  rewrite bool_decide_eq_false_2 by done. rewrite Hp. expose.
  rewrite !bool_decide_eq_false_2 by (intros Hn; by apply Hn).
  expose_bool.
  unfold initMode, execMode.
  change (m_pcs (set_m_vc_reply_deadline (-1)%Q t)) with (m_pcs t).
  generalize (changeMode3 PCS_READY (vc_info vc) now
                (set_m_vc_reply_deadline (-1)%Q t)).
  generalize (set_m_vc_reply_deadline (-1)%Q t). intros t1 t2.
  destruct (state (m_pcs t)), (bool_decide (vc_type vc = VC_FAILURE)),
    (bool_decide (vc_command vc = VC_STOP_CALIBRATION)); reflexivity.
Qed.

(** X6.  A FAILURE reply to the pending request (other than to a
    STOP_CALIBRATION) that arrives while a plan is initializing or
    executing ends the plan: the engine publishes READY with the vehicle's
    text as last event and stops logging.  The operator gets no
    [PlanControl] reply, and [last_outcome] is left as it was. *)
Theorem vehicle_failure_ends_plan vc now t :
  vc_type vc = VC_FAILURE ->
  vc_command vc <> VC_STOP_CALIBRATION ->
  pendingReply t = true ->
  dst (vc_hdr vc) = system_id t ->
  dst_ent (vc_hdr vc) = entity_id t ->
  vc_request_id vc = m_vreq_ctr t ->
  state (m_pcs t) = PCS_INITIALIZING \/ state (m_pcs t) = PCS_EXECUTING ->
  state (m_pcs (consume_VehicleCommand vc now t)) = PCS_READY
  /\ m_last_event (consume_VehicleCommand vc now t) = vc_info vc
  /\ last_outcome (m_pcs (consume_VehicleCommand vc now t))
     = last_outcome (m_pcs t)
  /\ pendingReply (consume_VehicleCommand vc now t) = false
  /\ bus (consume_VehicleCommand vc now t)
     = bus t ++ [OutLoggingControl (mkLoggingControl COP_REQUEST_START "");
                 OutPlanControlState (m_pcs (consume_VehicleCommand vc now t))]
  /\ replies (consume_VehicleCommand vc now t) = replies t.
Proof.
  intros Hty Hcmd Hp Hd He Hid Hst.
  rewrite (matched_reply_effect vc now t) by (done || by rewrite Hty).
  rewrite (bool_decide_eq_true_2 _ Hty), (bool_decide_eq_false_2 _ Hcmd).
  assert (Hin : in_plan (state (m_pcs t)) = true) by (by destruct Hst as [-> | ->]).
  rewrite Hin. expose_bool.
  generalize (vc_info vc). intros info. clear Hty Hcmd Hp Hd He Hid Hin vc.
  assert (Hbus : bus (changeMode3 PCS_READY info now
                        (set_m_vc_reply_deadline (-1)%Q t))
     = bus t ++ [OutLoggingControl (mkLoggingControl COP_REQUEST_START "");
                 OutPlanControlState
                   (m_pcs (changeMode3 PCS_READY info now
                             (set_m_vc_reply_deadline (-1)%Q t)))]).
  { destruct t as [? pcs ? ? ? ? ? ? ? ? ? ? ? ? ? ? ? ? ? ? ? ? ? ? ? ? ?].
    destruct pcs as [st ? ? ? ? ? ? ?]. cbn in Hst.
    destruct Hst; subst st; cbv -[app]; by rewrite <- ?app_assoc. }
  split; [| split; [| split; [| split; [| split; [exact Hbus |]]]]].
  5: { unfold replies. rewrite Hbus, omap_app. cbn. by rewrite app_nil_r. }
  all: clear Hbus.
  all: destruct t as [? pcs ? ? ? ? ? ? ? ? ? ? ? ? ? ? ? ? ? ? ? ? ? ? ? ? ?];
    destruct pcs as [st ? ? ? ? ? ? ?]; cbn in Hst;
    destruct Hst; subst st; vm_compute; reflexivity.
Qed.

(** X7.  Any other reply that matches the pending request -- a SUCCESS or
    IN_PROGRESS, a FAILURE to stop the calibration, or a FAILURE that finds
    the engine READY or BLOCKED -- only settles the request: the deadline
    is cleared, and mode, plan and bus are as before. *)
Theorem matched_reply_only_settles vc now t :
  vc_type vc <> VC_REQUEST ->
  pendingReply t = true ->
  dst (vc_hdr vc) = system_id t ->
  dst_ent (vc_hdr vc) = entity_id t ->
  vc_request_id vc = m_vreq_ctr t ->
  vc_type vc <> VC_FAILURE
  \/ vc_command vc = VC_STOP_CALIBRATION
  \/ state (m_pcs t) = PCS_READY
  \/ state (m_pcs t) = PCS_BLOCKED ->
  consume_VehicleCommand vc now t = set_m_vc_reply_deadline (-1)%Q t.
Proof.
  intros Hty Hp Hd He Hid Hc.
  rewrite (matched_reply_effect vc now t) by done.
  destruct Hc as [Hc|[Hc|[Hc|Hc]]].
  - rewrite (bool_decide_eq_false_2 _ Hc). by rewrite andb_false_r.
  - rewrite (bool_decide_eq_true_2 _ Hc). by rewrite andb_false_r.
  - by rewrite Hc.
  - by rewrite Hc.
Qed.

(** ** The reply deadline *)

(** X8.  The timeout block of the main loop leaves the engine as it is
    exactly when no reply is pending or the deadline lies ahead; with a
    reply pending it acts as soon as the clock has reached the deadline,
    the deadline itself included. *)
Theorem reply_timeout_fires_iff now t :
  onMain_reply_timeout now t = t
  <-> (pendingReply t = false \/ (now < m_vc_reply_deadline t)%Q).
Proof.
  split.
  - intros Heq.
    destruct (pendingReply t) eqn:Hp; [right | by left].
    destruct (Qlt_le_dec now (m_vc_reply_deadline t)) as [Hlt|Hle]; [done |].
    destruct (reply_timeout_effect now t Hp Hle) as (_ & _ & _ & _ & Hd & _).
    rewrite Heq in Hd. unfold pendingReply in Hp. rewrite Hd in Hp.
    discriminate Hp.
  - unfold onMain_reply_timeout, Qlt_bool, pendingReply.
    intros [Hp|Hlt].
    + by rewrite Hp.
    + destruct (Qle_bool 0 (m_vc_reply_deadline t)); expose; [| done].
      destruct (Qle_bool (m_vc_reply_deadline t - now) 0) eqn:E; [| done].
      apply Qle_bool_iff in E. lra.
Qed.

(** ** Registrations *)

(** X9.  The first [EntityInfo] received for a label is the one the engine
    keeps: a later one with the same label changes nothing, whatever it
    says, and entries under other labels are never affected. *)
Theorem entity_info_first_registration_wins msg msg' t :
  ei_label msg' = ei_label msg ->
  consume_EntityInfo msg' (consume_EntityInfo msg t) = consume_EntityInfo msg t
  /\ m_cinfo (consume_EntityInfo msg t) !! ei_label msg
     = Some (default msg (m_cinfo t !! ei_label msg))
  /\ (forall l, l <> ei_label msg ->
        m_cinfo (consume_EntityInfo msg t) !! l = m_cinfo t !! l).
Proof.
  intros Hl.
  assert (H1 : m_cinfo (consume_EntityInfo msg t) !! ei_label msg
               = Some (default msg (m_cinfo t !! ei_label msg))).
  { unfold consume_EntityInfo.
    destruct (m_cinfo t !! ei_label msg) eqn:E; cbn; [done |].
    by rewrite lookup_insert_eq. }
  split; [| split; [exact H1 |]].
  - unfold consume_EntityInfo at 1. by rewrite Hl, H1.
  - intros l Hne. unfold consume_EntityInfo.
    destruct (m_cinfo t !! ei_label msg); cbn; [done |].
    by rewrite lookup_insert_ne.
Qed.

(** ** What plan control leaves alone *)

Lemma steady_refl t : steady t t.
Proof. by repeat split. Qed.

Lemma steady_trans t1 t2 t3 : steady t1 t2 -> steady t2 t3 -> steady t1 t3.
Proof.
  unfold steady. intros H1 H2. destruct_and!. repeat split; congruence.
Qed.

Lemma steady_onFailure msg t : steady t (onFailure msg t).
Proof. by repeat split. Qed.

Lemma steady_onSuccess msg t : steady t (onSuccess msg t).
Proof. by repeat split. Qed.

Lemma steady_changeMode s desc nid man now t :
  steady t (changeMode s desc nid man now t).
Proof. unfold changeMode, changeLog. repeat case_match; by repeat split. Qed.

Lemma steady_vehicleRequest cmd arg now t :
  steady t (vehicleRequest cmd arg now t).
Proof. unfold vehicleRequest. repeat case_match; by repeat split. Qed.

Ltac steady_peel :=
  lazymatch goal with
  | |- steady ?t ?t => apply steady_refl
  | |- steady ?t (changeMode _ _ _ _ _ ?x) =>
      apply (steady_trans t x); [| apply steady_changeMode]
  | |- steady ?t (changeMode3 _ _ _ ?x) =>
      apply (steady_trans t x); [| apply steady_changeMode]
  | |- steady ?t (vehicleRequest _ _ _ ?x) =>
      apply (steady_trans t x); [| apply steady_vehicleRequest]
  | |- steady ?t (onFailure _ ?x) =>
      apply (steady_trans t x); [| apply steady_onFailure]
  | |- steady ?t (onSuccess _ ?x) =>
      apply (steady_trans t x); [| apply steady_onSuccess]
  | |- steady ?t (?f ?v ?x) =>
      apply (steady_trans t x); [| generalize x; intros; by repeat split]
  end.

Ltac steady_auto :=
  repeat steady_peel;
  try match goal with H : steady ?a ?b |- steady ?a ?b => exact H end.
Ltac steady_solve := solve [steady_auto].

Lemma steady_startManeuver pman now t : steady t (startManeuver pman now t).
Proof. unfold startManeuver. destruct pman as [pm|]; expose; steady_auto. Qed.

Lemma steady_startCalibration now t : steady t (snd (startCalibration now t)).
Proof.
  unfold startCalibration. destruct (blockedMode t); expose; steady_auto.
Qed.

Lemma steady_handleArgMemento pmem info t :
  steady t (snd (handleArgMemento pmem info t)).
Proof.
  unfold handleArgMemento; expose.
  destruct (searchSpecInDB _ _) as [found|info']; expose; [| steady_auto].
  destruct (insertMemento _ _); expose; steady_auto.
Qed.

Lemma steady_parseArg id arg info t : steady t (snd (parseArg id arg info t)).
Proof.
  unfold parseArg.
  destruct arg as [[s|pmem|m|ps|m]|];
    try apply steady_handleArgMemento;
    try (unfold handleArgSpecification; expose; steady_solve);
    try (unfold handleQuickPlan; expose; steady_solve).
  expose.
  destruct (searchSpecInDB _ _) as [found|info1]; expose; [steady_auto |].
  destruct (searchMementoInDB _ _) as [pmem|info2]; expose; [| steady_auto].
  eapply steady_trans; [| apply steady_handleArgMemento]. steady_auto.
Qed.

Lemma steady_parsePlan startup now t : steady t (snd (parsePlan startup now t)).
Proof.
  unfold parsePlan.
  destruct (plan_parse _ _ _ _ _ _) as [[ps|what] p]; expose.
  - destruct startup; expose; steady_auto.
  - steady_auto.
Qed.

Lemma steady_loadPlan id arg startup now t :
  steady t (snd (loadPlan id arg startup now t)).
Proof.
  unfold loadPlan.
  destruct (_ || _); expose; [steady_auto |].
  pose proof (steady_parseArg id arg "" t) as Ha.
  destruct (parseArg id arg "" t) as [[[] info] t1]; expose; expose_in Ha.
  - pose proof (steady_parsePlan startup now t1) as Hp.
    destruct (parsePlan startup now t1) as [[ps|] t2]; expose; expose_in Hp.
    + steady_auto. by eapply steady_trans.
    + steady_auto. by eapply steady_trans.
  - steady_auto.
Qed.

Lemma steady_getPlan t : steady t (getPlan t).
Proof. unfold getPlan. destruct (_ && _); steady_auto. Qed.

Lemma steady_stopPlan startup now t : steady t (snd (stopPlan startup now t)).
Proof.
  unfold stopPlan; expose.
  destruct (initMode t || execMode t), startup; expose; steady_auto.
Qed.

Lemma steady_startPlan id arg flags now t :
  steady t (snd (startPlan id arg flags now t)).
Proof.
  unfold startPlan.
  pose proof (steady_stopPlan true now t) as Hq.
  destruct (stopPlan true now t) as [stopped t1]; expose_in Hq; expose.
  assert (Hq2 : steady t (changeMode3 PCS_INITIALIZING
                            ("plan initializing: " +:+ id) now t1))
    by steady_auto.
  revert Hq2. generalize (changeMode3 PCS_INITIALIZING
                            ("plan initializing: " +:+ id) now t1).
  clear t1 Hq. intros t2 Hq.
  pose proof (steady_loadPlan id arg true now t2) as Hl.
  destruct (loadPlan id arg true now t2) as [[] t3]; expose_in Hl; expose;
    [| by eapply steady_trans].
  assert (Hq3 : steady t t3) by (by eapply steady_trans).
  clear t2 Hq Hl.
  set (t4 := changeLog id t3).
  assert (Hq4 : steady t t4) by (subst t4; steady_auto).
  clearbody t4. clear t3 Hq3.
  match goal with |- context [set_m_plan_ref _ ?x] => set (t5 := x) end.
  assert (Hq5 : steady t t5).
  { subst t5. destruct (initMode t4 || execMode t4); [| steady_auto].
    destruct stopped; expose; steady_auto. }
  clearbody t5. clear t4 Hq4.
  match goal with |- context [do_calib (m_args ?x)] => set (t6 := x) end.
  assert (Hq6 : steady t t6) by (subst t6; steady_auto).
  clearbody t6. clear t5 Hq5.
  destruct (_ && do_calib _).
  - pose proof (steady_startCalibration now t6) as Hc.
    destruct (startCalibration now t6) as [[] t7]; expose_in Hc; expose;
      by eapply steady_trans.
  - destruct (loadStartManeuver _ _) as [pman p].
    assert (Hq7 : steady t (set_m_plan p t6)) by steady_auto.
    revert Hq7. generalize (set_m_plan p t6). clear t6 Hq6. intros t7 Hq.
    pose proof (steady_startManeuver pman now t7) as Hs.
    revert Hs. generalize (startManeuver pman now t7). intros t8 Hs.
    assert (Hq8 : steady t t8) by (by eapply steady_trans).
    destruct (execMode t8); expose; steady_auto.
Qed.

Lemma steady_processRequest pc now t : steady t (processRequest pc now t).
Proof.
  unfold processRequest.
  match goal with |- context [getEntityState ?x] => set (t1 := x) end.
  assert (Hq : steady t t1) by (subst t1; steady_auto).
  clearbody t1.
  destruct (bool_decide _); [steady_auto |].
  destruct (pc_op pc).
  - pose proof (steady_startPlan (pc_plan_id pc) (pc_arg pc) (pc_flags pc) now t1)
      as Hs.
    destruct (startPlan _ _ _ _ _) as [[] t2]; expose_in Hs.
    + by eapply steady_trans.
    + steady_auto. by eapply steady_trans.
  - eapply steady_trans; [done | apply steady_stopPlan].
  - eapply steady_trans; [done | apply steady_loadPlan].
  - eapply steady_trans; [done | apply steady_getPlan].
  - steady_auto.
Qed.

Lemma steady_onVehicleService vs now t : steady t (onVehicleService vs now t).
Proof.
  unfold onVehicleService.
  destruct (state (m_pcs t)); try steady_solve.
  - destruct (pendingReply t); expose; [steady_auto |].
    destruct (loadStartManeuver _ _) as [pman p].
    eapply steady_trans; [| apply steady_startManeuver]. steady_auto.
  - destruct (pendingReply t); expose; steady_auto.
Qed.

Lemma steady_onVehicleManeuver vs now t : steady t (onVehicleManeuver vs now t).
Proof.
  unfold onVehicleManeuver.
  destruct (_ || _); [steady_solve |].
  destruct (negb _); [| steady_solve].
  destruct (isDone _ _); [steady_solve |].
  destruct (loadNextManeuver _ _) as [pman p].
  eapply steady_trans; [| apply steady_startManeuver]. steady_auto.
Qed.

Lemma steady_onVehicleError vs now t : steady t (onVehicleError vs now t).
Proof.
  unfold onVehicleError; expose.
  match goal with |- context [String.eqb ?d _] => set (edesc := d) end.
  match goal with |- context [m_last_event ?x] => set (t1 := x) end.
  assert (Hq : steady t t1).
  { subst t1. destruct (execMode t); steady_auto. }
  clearbody t1 edesc.
  destruct (_ && _); [| done].
  destruct (initMode t1); steady_auto.
Qed.

Lemma steady_consume_VehicleState vs now t :
  steady (if bool_decide (getEntityState t = ESTA_BOOT) then t
          else set_m_last_vstate now t)
         (consume_VehicleState vs now t).
Proof.
  unfold consume_VehicleState.
  destruct (bool_decide _); [apply steady_refl |]. expose.
  generalize (set_m_last_vstate now t). intros t0.
  match goal with |- context [initMode ?x] => set (t1 := x) end.
  assert (Hq : steady t0 t1).
  { subst t1. destruct (op_mode vs);
      auto using steady_onVehicleService, steady_onVehicleError,
                 steady_onVehicleManeuver, steady_refl. }
  clearbody t1.
  destruct (initMode t1); [| done].
  match goal with |- context [isCalibrationDone _ (m_plan ?x)] =>
    set (t2 := x) end.
  assert (Hq2 : steady t0 t2) by (subst t2; steady_auto).
  clearbody t2. clear t1 Hq.
  destruct (isCalibrationDone _ _).
  - destruct (_ && _); [| done].
    destruct (loadStartManeuver _ _) as [pman p].
    eapply steady_trans; [| apply steady_startManeuver]. steady_auto.
  - destruct (hasCalibrationFailed _ _); steady_auto.
Qed.

Lemma steady_consume_PlanControl pc now t :
  steady t (consume_PlanControl pc now t).
Proof.
  unfold consume_PlanControl.
  destruct (bool_decide _); [apply steady_refl |].
  destruct (pendingReply t); [steady_auto |].
  destruct (m_requests t) as [|front rest]; expose;
    [apply steady_processRequest |].
  match goal with |- context [tail (m_requests ?x)] =>
    generalize (tail (m_requests x)) end.
  intros q2.
  match goal with |- context [processRequest front now ?x] =>
    assert (Hq : steady t x) by steady_auto;
    pose proof (steady_processRequest front now x) as Hp;
    revert Hp; generalize (processRequest front now x); revert Hq; generalize x
  end.
  intros t1 Hq t2 Hp.
  assert (Hq2 : steady t t2) by (by eapply steady_trans).
  steady_auto.
Qed.

Lemma steady_consume_VehicleCommand vc now t :
  steady t (consume_VehicleCommand vc now t).
Proof.
  unfold consume_VehicleCommand; expose.
  destruct (bool_decide _); [apply steady_refl |].
  destruct (pendingReply t); [| apply steady_refl].
  destruct (_ || _); [apply steady_refl |].
  match goal with |- context [initMode ?x] => set (t1 := x) end.
  assert (Hn : steady t t1) by (subst t1; steady_auto). clearbody t1.
  destruct (_ || _); [| done].
  match goal with |- context [if ?c then changeMode3 _ _ _ _ else _] =>
    destruct c end; steady_auto.
Qed.

Lemma steady_consume_EntityActivationState msg now t :
  steady (set_m_imu_enabled (imu_flag msg t) t)
         (consume_EntityActivationState msg now t).
Proof.
  unfold consume_EntityActivationState; expose.
  match goal with |- context [m_plan ?x] => set (t1 := x) end.
  assert (Hq : steady (set_m_imu_enabled (imu_flag msg t) t) t1).
  { subst t1. unfold imu_flag.
    destruct (bool_decide _); [destruct (eas_state msg) |];
      generalize t; intros; by repeat split. }
  revert Hq. generalize (set_m_imu_enabled (imu_flag msg t) t). intros t0 Hq.
  clearbody t1.
  destruct (resolveEntity _); [| done].
  destruct (onEntityActivationState _ _ _ _) as [[] p]; expose;
    [steady_auto |].
  destruct (actfail_abort _); [| steady_auto].
  match goal with |- context [initMode ?x] => set (t2 := x) end.
  assert (Hq2 : steady t0 t2) by (subst t2; steady_auto).
  clearbody t2.
  destruct (_ && _); steady_auto.
Qed.

Lemma steady_reportProgress now t : steady t (reportProgress now t).
Proof.
  unfold reportProgress.
  destruct (_ && _); [apply steady_refl |].
  destruct (updateProgress _ _ _) as [pr p]. steady_auto.
Qed.

Lemma steady_onMain_report due now t : steady t (onMain_report due now t).
Proof.
  unfold onMain_report. destruct due; [| apply steady_refl]. expose.
  destruct (progress _); [| steady_auto].
  apply (steady_trans t (reportProgress now t)); [apply steady_reportProgress |].
  generalize (reportProgress now t). intros t1. steady_auto.
Qed.

Lemma steady_onMain_requests now t : steady t (onMain_requests now t).
Proof.
  unfold onMain_requests.
  destruct (negb _); [| apply steady_refl].
  destruct (m_requests t) as [|front rest]; [apply steady_refl |]. expose.
  generalize (tail (m_requests (processRequest front now t))). intros q2.
  pose proof (steady_processRequest front now t) as Hp. revert Hp.
  generalize (processRequest front now t). intros t1 Hp. steady_auto.
Qed.

Lemma steady_onMain_reply_timeout now t :
  steady t (onMain_reply_timeout now t).
Proof.
  unfold onMain_reply_timeout; expose.
  destruct (Qlt_bool 0 _); [apply steady_refl |]. steady_auto.
Qed.

Lemma steady_set_m_last_vstate v t t' :
  steady t t' -> steady (set_m_last_vstate v t) (set_m_last_vstate v t').
Proof. unfold steady. intros H. destruct_and!. by repeat split. Qed.

Lemma onMain_vstate_cases now t :
  onMain_vstate now t
  = if bool_decide (getEntityState t = ESTA_NORMAL)
       && Qle_bool c_vs_timeout (now - m_last_vstate t)
    then set_m_last_vstate now
           (changeMode3 PCS_BLOCKED "vehicle state timeout" now t)
    else t.
Proof. reflexivity. Qed.

(** One pass of the main loop writes, of the [steady] fields, the time of
    the last vehicle state only, and only when it reports the timeout. *)
Lemma steady_onMain_pass due now t :
  steady (set_m_last_vstate
            (if bool_decide (getEntityState t = ESTA_NORMAL)
                && Qle_bool c_vs_timeout (now - m_last_vstate t)
             then now else m_last_vstate t) t)
         (onMain_pass due now t).
Proof.
  unfold onMain_pass; expose.
  pose proof (steady_onMain_report due now t) as H1. revert H1.
  generalize (onMain_report due now t). intros t1 H1.
  eapply steady_trans; [| apply steady_onMain_reply_timeout].
  eapply steady_trans; [| apply steady_onMain_requests].
  rewrite onMain_vstate_cases.
  assert (Hc : bool_decide (getEntityState t1 = ESTA_NORMAL)
                 && Qle_bool c_vs_timeout (now - m_last_vstate t1)
               = bool_decide (getEntityState t = ESTA_NORMAL)
                 && Qle_bool c_vs_timeout (now - m_last_vstate t)).
  { unfold getEntityState. destruct H1 as (-> & _ & _ & _ & _ & _ & _ & -> & _).
    reflexivity. }
  rewrite Hc. clear Hc. destruct (_ && _).
  - apply steady_set_m_last_vstate.
    eapply steady_trans; [exact H1 | apply steady_changeMode].
  - eapply steady_trans; [| exact H1]. by repeat split.
Qed.

(** What each handler does to the [steady] fields.  The four handlers that
    administer the entity state and the registries are left out. *)
Lemma handle_steady now e t :
  match e with
  | EvPlanDB _ | EvPowerOperation _ | EvRegisterManeuver _ | EvEntityInfo _ =>
      True
  | EvVehicleState _ =>
      steady (if bool_decide (getEntityState t = ESTA_BOOT) then t
              else set_m_last_vstate now t) (handle now e t)
  | EvEntityActivationState msg =>
      steady (set_m_imu_enabled (imu_flag msg t) t) (handle now e t)
  | EvManeuverControlState msg =>
      steady (set_m_mcs msg t) (handle now e t)
  | EvMainLoop _ =>
      steady (set_m_last_vstate
                (if bool_decide (getEntityState t = ESTA_NORMAL)
                    && Qle_bool c_vs_timeout (now - m_last_vstate t)
                 then now else m_last_vstate t) t) (handle now e t)
  | _ => steady t (handle now e t)
  end.
Proof.
  destruct e; unfold handle; try exact I.
  - apply steady_consume_PlanControl.
  - unfold consume_EstimatedState. by destruct (bool_decide _).
  - unfold consume_ManeuverControlState; expose.
    by destruct (mcs_state _).
  - apply steady_consume_VehicleCommand.
  - apply steady_consume_VehicleState.
  - apply steady_consume_EntityActivationState.
  - unfold consume_FuelLevel. by repeat split.
  - unfold consume_Memento.
    by destruct (processMemento _ _) as [[pmem|] mh].
  - apply steady_onMain_pass.
Qed.

(** ** The entity state *)

(** X10.  The entity state is written by two handlers only.  A [PlanDB]
    message makes it NORMAL when the database handled the message and ERROR
    when it did not; a [PowerOperation] addressed to this system makes it
    ERROR when a power-down is in progress and, when the power-down is
    aborted, NORMAL or ERROR as the database could be reopened or not.  No
    other message, no request and no pass of the main loop changes it. *)
Theorem entity_state_set_by_database_events now e t :
  m_entity (handle now e t)
  = match e with
    | EvPlanDB pdb =>
        if fst (onPlanDB pdb (m_db t)) then (ESTA_NORMAL, CODE_ACTIVE)
        else (ESTA_ERROR, CODE_DB_ERROR)
    | EvPowerOperation po =>
        if bool_decide (po_dst po = system_id t) then
          match po_op po with
          | POP_PWR_DOWN_IP => (ESTA_ERROR, CODE_POWER_DOWN)
          | POP_PWR_DOWN_ABORTED =>
              if fst (db_open (m_db t)) then (ESTA_NORMAL, CODE_ACTIVE)
              else (ESTA_ERROR, CODE_DB_ERROR)
          | POP_OTHER => m_entity t
          end
        else m_entity t
    | _ => m_entity t
    end.
Proof.
  pose proof (handle_steady now e t) as H.
  destruct e; try (by destruct H as (-> & _)).
  - unfold handle, consume_PlanDB.
    by destruct (onPlanDB _ _) as [[] d].
  - unfold handle, consume_PowerOperation.
    destruct (decide (po_dst po = system_id t)) as [Heq|Hne].
    + rewrite (bool_decide_eq_true_2 (po_dst po = system_id t)) by done.
      rewrite (bool_decide_eq_false_2 (po_dst po <> system_id t))
        by (intros Hn; by apply Hn).
      destruct (po_op po); try done.
      by destruct (db_open _) as [[] d].
    + rewrite (bool_decide_eq_false_2 (po_dst po = system_id t)) by done.
      by rewrite (bool_decide_eq_true_2 (po_dst po <> system_id t)) by done.
  - done.
  - destruct H as (-> & _). by destruct (bool_decide _).
  - unfold handle, consume_EntityInfo. by destruct (_ !! _).
Qed.

(** X11.  The two registries only grow: whatever the engine handles, every
    supported maneuver stays supported and every registered entity keeps
    its entry.  [RegisterManeuver] adds its maneuver id, [EntityInfo] may
    add an entry, and nothing else changes either registry. *)
Theorem registries_only_grow now e t :
  m_supported_maneuvers t ⊆ m_supported_maneuvers (handle now e t)
  /\ m_cinfo t ⊆ m_cinfo (handle now e t)
  /\ match e with
     | EvRegisterManeuver msg =>
         m_supported_maneuvers (handle now e t)
         = {[ mid msg ]} ∪ m_supported_maneuvers t
         /\ m_cinfo (handle now e t) = m_cinfo t
     | EvEntityInfo msg =>
         m_supported_maneuvers (handle now e t) = m_supported_maneuvers t
     | _ =>
         m_supported_maneuvers (handle now e t) = m_supported_maneuvers t
         /\ m_cinfo (handle now e t) = m_cinfo t
     end.
Proof.
  assert (Hsame : m_supported_maneuvers (handle now e t) = m_supported_maneuvers t
                  /\ m_cinfo (handle now e t) = m_cinfo t ->
                  m_supported_maneuvers t ⊆ m_supported_maneuvers (handle now e t)
                  /\ m_cinfo t ⊆ m_cinfo (handle now e t)).
  { intros [H1 H2]. by rewrite H1, H2. }
  pose proof (handle_steady now e t) as H.
  destruct e;
    try (assert (Hs : m_supported_maneuvers (handle now _ t)
                      = m_supported_maneuvers t
                      /\ m_cinfo (handle now _ t) = m_cinfo t);
         [| pose proof (Hsame Hs) as [Ha Hb];
            split; [exact Ha | split; [exact Hb | exact Hs]]]).
  - by destruct H as (_ & _ & _ & _ & _ & -> & -> & _).
  - unfold handle, consume_PlanDB.
    by destruct (onPlanDB _ _) as [[] d].
  - by destruct H as (_ & _ & _ & _ & _ & -> & -> & _).
  - by destruct H as (_ & _ & _ & _ & _ & -> & -> & _).
  - unfold handle, consume_PowerOperation.
    destruct (bool_decide _); [done |].
    destruct (po_op po); try done.
    by destruct (db_open _) as [[] d].
  - unfold handle, consume_RegisterManeuver. cbn.
    split; [apply union_subseteq_r | done].
  - by destruct H as (_ & _ & _ & _ & _ & -> & -> & _).
  - destruct H as (_ & _ & _ & _ & _ & -> & -> & _).
    by destruct (bool_decide _).
  - unfold handle, consume_EntityInfo.
    destruct (m_cinfo t !! ei_label msg) eqn:E; cbn; [done |].
    split; [done | split; [| done]].
    by apply insert_subseteq.
  - by destruct H as (_ & _ & _ & _ & _ & -> & -> & _).
  - by destruct H as (_ & _ & _ & _ & _ & -> & -> & _).
  - by destruct H as (_ & _ & _ & _ & _ & -> & -> & _).
  - by destruct H as (_ & _ & _ & _ & _ & -> & -> & _).
Qed.

(** X12.  The addresses by which the engine recognises what is meant for
    it -- its system id and its entity id -- and the id of the IMU entity
    are the same after every handler call, as is the configuration. *)
Theorem addresses_constant now e t :
  system_id (handle now e t) = system_id t
  /\ entity_id (handle now e t) = entity_id t
  /\ m_eid_imu (handle now e t) = m_eid_imu t
  /\ m_args (handle now e t) = m_args t.
Proof.
  pose proof (handle_steady now e t) as H.
  destruct e;
    try (by destruct H as (_ & -> & -> & -> & -> & _);
            try destruct (bool_decide _)).
  - unfold handle, consume_PlanDB.
    by destruct (onPlanDB _ _) as [[] d].
  - unfold handle, consume_PowerOperation.
    destruct (bool_decide _); [done |].
    destruct (po_op po); try done.
    by destruct (db_open _) as [[] d].
  - done.
  - unfold handle, consume_EntityInfo. by destruct (_ !! _).
Qed.

(** ** The time of the last vehicle state *)

(** X13.  The time of the last vehicle state is written in two places: by
    a [VehicleState] message, unless the entity state is BOOT, and by the
    main loop when it reports the vehicle state timeout, which starts the
    2.5 s anew.  Nothing else touches it. *)
Theorem vehicle_state_clock now e t :
  m_last_vstate (handle now e t)
  = match e with
    | EvVehicleState _ =>
        if bool_decide (getEntityState t = ESTA_BOOT) then m_last_vstate t
        else now
    | EvMainLoop _ =>
        if bool_decide (getEntityState t = ESTA_NORMAL)
           && Qle_bool c_vs_timeout (now - m_last_vstate t)
        then now else m_last_vstate t
    | _ => m_last_vstate t
    end.
Proof.
  pose proof (handle_steady now e t) as H.
  destruct e;
    try (by destruct H as (_ & _ & _ & _ & _ & _ & _ & -> & _)).
  - unfold handle, consume_PlanDB.
    by destruct (onPlanDB _ _) as [[] d].
  - unfold handle, consume_PowerOperation.
    destruct (bool_decide _); [done |].
    destruct (po_op po); try done.
    by destruct (db_open _) as [[] d].
  - done.
  - destruct H as (_ & _ & _ & _ & _ & _ & _ & -> & _).
    by destruct (bool_decide _).
  - unfold handle, consume_EntityInfo. by destruct (_ !! _).
Qed.

(** X14.  A [VehicleState] received at [now] (entity state NORMAL) keeps
    the main loop from reporting the vehicle state timeout at every later
    time before [now] + 2.5 s. *)
Theorem vehicle_state_defers_timeout vs now now' t :
  getEntityState t = ESTA_NORMAL ->
  (now' - now < c_vs_timeout)%Q ->
  onMain_vstate now' (consume_VehicleState vs now t)
  = consume_VehicleState vs now t.
Proof.
  intros He Hlt.
  pose proof (steady_consume_VehicleState vs now t) as H.
  rewrite bool_decide_eq_false_2 in H by (rewrite He; discriminate).
  destruct H as (_ & _ & _ & _ & _ & _ & _ & Hc & _).
  rewrite onMain_vstate_cases, Hc. cbn.
  destruct (Qle_bool c_vs_timeout (now' - now)) eqn:E.
  - apply Qle_bool_iff in E. lra.
  - by rewrite andb_false_r.
Qed.

(** ** The IMU flag *)

(** X15.  The IMU flag that plan parsing reads follows the activation state
    of the IMU entity and nothing else: an [EntityActivationState] from
    that entity sets it when the state is ACTIVE and clears it for every
    other state; messages from other entities and all other handlers leave
    it alone. *)
Theorem imu_flag_follows_activation now e t :
  m_imu_enabled (handle now e t)
  = match e with
    | EvEntityActivationState msg => imu_flag msg t
    | _ => m_imu_enabled t
    end.
Proof.
  pose proof (handle_steady now e t) as H.
  destruct e;
    try (by destruct H as (_ & _ & _ & _ & _ & _ & _ & _ & -> & _);
            try destruct (bool_decide _)).
  - unfold handle, consume_PlanDB.
    by destruct (onPlanDB _ _) as [[] d].
  - unfold handle, consume_PowerOperation.
    destruct (bool_decide _); [done |].
    destruct (po_op po); try done.
    by destruct (db_open _) as [[] d].
  - done.
  - unfold handle, consume_EntityInfo. by destruct (_ !! _).
Qed.

(** ** Maneuvers *)

(** X16.  Starting a maneuver sends exactly one vehicle command, an
    EXEC_MANEUVER request that carries the maneuver with the current plan
    reference written into it, then publishes EXECUTING with the id and
    the type of the maneuver (no id and type 0xFFFF when the plan maneuver
    holds no maneuver), and tells the plan that the maneuver started.  The
    copy of the maneuver in the stored command is cleared afterwards. *)
Theorem startManeuver_sends_and_publishes pm now t :
  bus (startManeuver (Some pm) now t)
  = bus t
    ++ [OutVehicleCommand
          (match data pm with
           | Some m =>
               set_vc_maneuver (Some (set_man_plan_ref (m_plan_ref t) m))
                 (bare_request VC_EXEC_MANEUVER t)
           | None => bare_request VC_EXEC_MANEUVER t
           end);
        OutPlanControlState (m_pcs (startManeuver (Some pm) now t))]
  /\ state (m_pcs (startManeuver (Some pm) now t)) = PCS_EXECUTING
  /\ man_id (m_pcs (startManeuver (Some pm) now t))
     = match data pm with Some _ => maneuver_id pm | None => "" end
  /\ man_type (m_pcs (startManeuver (Some pm) now t))
     = from_option man_mid 65535 (data pm)
  /\ m_last_event (startManeuver (Some pm) now t)
     = maneuver_id pm +:+ ": executing maneuver"
  /\ m_vc_reply_deadline (startManeuver (Some pm) now t)
     = (now + c_vc_reply_timeout)%Q
  /\ m_plan (startManeuver (Some pm) now t)
     = maneuverStarted (penv now t) (maneuver_id pm) (m_plan t)
  /\ vc_maneuver (m_vc (startManeuver (Some pm) now t))
     = match data pm with Some _ => None | None => vc_maneuver (m_vc t) end.
Proof.
  destruct t as [? pcs ? ? ? ? ? vc ? ? ? ? ? ? ? ? ? ? ? ? ? ? ? ? ? ? ?].
  destruct pcs as [st ? ? ? ? ? ? ?]. destruct vc as [? ? ? ? ? ? ?].
  destruct pm as [id [m|]];
    (split; [destruct st; cbv -[app Z.add Z.modulo]; by rewrite <- ?app_assoc |]);
    destruct st; vm_compute; done.
Qed.

(** X17.  When the vehicle reports its maneuver done and the plan has no
    maneuver left, the engine tells the vehicle to stop, answers the last
    request it processed with the success "plan completed", stops logging
    and publishes READY with [last_outcome] SUCCESS.  The reply goes out
    with the plan id the reply record held; the record takes the id of the
    stored specification only afterwards. *)
Theorem plan_completed vs now t :
  op_mode vs = VS_MANEUVER ->
  Z.land (vs_flags vs) VFLG_MANEUVER_DONE <> 0 ->
  getEntityState t <> ESTA_BOOT ->
  state (m_pcs t) = PCS_EXECUTING ->
  pendingReply t = false ->
  isDone (penv now t) (m_plan t) = true ->
  state (m_pcs (consume_VehicleState vs now t)) = PCS_READY
  /\ last_outcome (m_pcs (consume_VehicleState vs now t)) = LPO_SUCCESS
  /\ bus (consume_VehicleState vs now t)
     = bus t
       ++ [OutVehicleCommand (bare_request VC_STOP_MANEUVER t);
           OutPlanControl
             (set_pc_info "plan completed" (set_pc_type PC_SUCCESS (m_reply t)));
           OutLoggingControl (mkLoggingControl COP_REQUEST_START "");
           OutPlanControlState (m_pcs (consume_VehicleState vs now t))]
  /\ pc_plan_id (m_reply (consume_VehicleState vs now t))
     = spec_plan_id (m_spec t)
  /\ m_vc_reply_deadline (consume_VehicleState vs now t)
     = (now + c_vc_reply_timeout)%Q
  /\ m_plan (consume_VehicleState vs now t)
     = planStopped (penv now t) (m_plan t).
Proof.
  intros Hop Hfl He Hst Hp Hdone.
  apply Z.eqb_neq in Hfl.
  eassert (Heq : consume_VehicleState vs now t = _).
  { unfold consume_VehicleState.
    rewrite bool_decide_eq_false_2 by done.
    expose. rewrite Hop. unfold onVehicleManeuver.
    assert (E1 : execMode (set_m_last_vstate now t) = true)
      by (unfold execMode; cbn; by rewrite Hst).
    assert (E2 : pendingReply (set_m_last_vstate now t) = false) by exact Hp.
    assert (E3 : isDone (penv now (set_m_last_vstate now t))
                   (m_plan (set_m_last_vstate now t)) = true) by exact Hdone.
    rewrite E1, E2, Hfl, E3. expose_bool.
    unfold initMode. rewrite !state_changeMode3.
    rewrite bool_decide_eq_false_2 by discriminate.
    reflexivity. }
  rewrite Heq. clear Heq Hop Hfl Hdone Hp He.
  destruct t as [? pcs rep ? ? dl ? vc ? ? ? ? ? ? ? ? ? ? ? ? ? ? ? ? ? ? ?].
  destruct pcs as [st ? ? ? ? ? ? ?].
  cbn in Hst. subst st.
  cbv -[app Z.add Z.modulo Qplus planStopped].
  rewrite <- ?app_assoc. done.
Qed.

(** ** Running a request on a given state

    The proofs below follow a request through the engine on a state whose
    fields are variables: [ev] evaluates a closed subterm, leaving alone
    the collaborators and the functions that consult them, which are
    unfolded one at a time where the hypotheses say what they return. *)
Ltac ev_goal :=
  lazy -[app String.append Z.add Z.modulo Z.land Z.eqb Qplus
         plan_parse plan_clear planStarted planStopped
         loadStartManeuver loadNextManeuver maneuverStarted
         sendToDB mh_add searchSpecInDB searchMementoInDB
         calibrationStarted getEstimatedCalibrationTime
         updateCalibration isCalibrationDone hasCalibrationFailed
         getCalibrationInfo isDone
         getCurrentId toWGS84 insertMemento
         startPlan loadPlan parseArg handleArgMemento parsePlan
         startCalibration FLG_CALIBRATE c_vc_reply_timeout].

Ltac ev X :=
  let H := fresh "Hev" in
  eassert (H : X = _) by (ev_goal; reflexivity);
  rewrite H; clear H.

(** [PC_START] with a specification, no calibration, from a state that is
    not in a plan. *)
Ltac run_start Hparse Hfl Hload :=
  let HS := fresh "HS" in
  let HL := fresh "HL" in
  unfold processRequest; expose;
  match goal with |- context [bool_decide ?p] => ev (bool_decide p) end;
  cbv beta iota delta [pc_op pc_arg pc_flags pc_plan_id];
  match goal with |- context [startPlan ?a ?b ?c ?d ?T] => ev T end;
  match goal with |- context [startPlan ?a ?b ?c ?d ?T] =>
    eassert (HS : startPlan a b c d T = _) end;
  [ unfold startPlan;
    match goal with |- context [stopPlan true ?n ?T] =>
      ev (stopPlan true n T) end;
    expose;
    match goal with |- context [loadPlan ?a ?b ?c ?d ?T] => ev T end;
    match goal with |- context [loadPlan ?a ?b ?c ?d ?T] =>
      eassert (HL : loadPlan a b c d T = _) end;
    [ unfold loadPlan;
      match goal with |- context [if ?c then (false, onFailure _ _) else _] =>
        ev c end;
      expose; unfold parseArg, handleArgSpecification; expose;
      unfold parsePlan;
      match goal with |- context [plan_parse ?a ?b ?c ?d ?e ?f] =>
        ev (plan_parse a b c d e f) end;
      rewrite Hparse; ev_goal; reflexivity
    | rewrite HL; clear HL; expose;
      match goal with |- context [set_m_mh ?v ?T] => ev (set_m_mh v T) end;
      rewrite Hfl; expose_bool;
      match goal with |- context [loadStartManeuver ?a ?b] =>
        ev (loadStartManeuver a b) end;
      rewrite Hload; expose;
      match goal with |- context [startManeuver ?a ?b ?T] =>
        ev (startManeuver a b T) end;
      ev_goal; reflexivity ]
  | rewrite HS; clear HS; expose; reflexivity ].

(** X18.  A PC_START that carries a plan specification, asks for no
    calibration and finds the engine READY or BLOCKED, with a plan that
    parses and whose start maneuver the plan hands out, takes the engine
    to EXECUTING.  On the way it publishes INITIALIZING, stores the
    specification (source entity set to the engine's) in the database,
    answers "plan loaded" with the plan statistics, names the log after
    the plan id of the request, dispatches the specification, registers it
    with the memento handler under the next plan reference, sends the
    start maneuver to the vehicle with that reference, publishes EXECUTING
    and answers a second time, with the text of the mode change. *)
Theorem start_executes s ps p1 pm p2 pc now t :
  pc_op pc = PC_START ->
  pc_arg pc = Some (MsgPlanSpecification s) ->
  Z.land (pc_flags pc) FLG_CALIBRATE = 0 ->
  getEntityState t = ESTA_NORMAL ->
  state (m_pcs t) = PCS_READY \/ state (m_pcs t) = PCS_BLOCKED ->
  plan_parse (mkPlanEnv (set_spec_src_ent (entity_id t) s) now)
    (m_supported_maneuvers t) (m_cinfo t) (m_imu_enabled t) (m_state t)
    (m_plan t) = (inl ps, p1) ->
  loadStartManeuver (mkPlanEnv (set_spec_src_ent (entity_id t) s) now)
    (planStarted (mkPlanEnv (set_spec_src_ent (entity_id t) s) now) p1)
  = (Some pm, p2) ->
  state (m_pcs (processRequest pc now t)) = PCS_EXECUTING
  /\ m_spec (processRequest pc now t) = set_spec_src_ent (entity_id t) s
  /\ m_plan_ref (processRequest pc now t) = (m_plan_ref t + 1) mod 4294967296
  /\ m_db (processRequest pc now t)
     = sendToDB DBDT_PLAN (spec_plan_id s)
         (MsgPlanSpecification (set_spec_src_ent (entity_id t) s)) (m_db t)
  /\ m_mh (processRequest pc now t)
     = mh_add ((m_plan_ref t + 1) mod 4294967296)
         (set_spec_src_ent (entity_id t) s) (m_mh t)
  /\ m_plan (processRequest pc now t)
     = maneuverStarted (mkPlanEnv (set_spec_src_ent (entity_id t) s) now)
         (maneuver_id pm) p2
  /\ m_vc_reply_deadline (processRequest pc now t)
     = (now + c_vc_reply_timeout)%Q
  /\ exists pcs1 r1 vc r2,
       bus (processRequest pc now t)
       = bus t
         ++ [OutPlanControlState pcs1;
             OutPlanControl r1;
             OutLoggingControl
               (mkLoggingControl COP_REQUEST_START (pc_plan_id pc));
             OutPlanSpecification (set_spec_src_ent (entity_id t) s);
             OutVehicleCommand vc;
             OutPlanControlState (m_pcs (processRequest pc now t));
             OutPlanControl r2]
       /\ state pcs1 = PCS_INITIALIZING
       /\ pc_type r1 = PC_SUCCESS
       /\ pc_info r1 = "plan loaded"
       /\ pc_arg r1 = Some (MsgPlanStatistics ps)
       /\ pc_request_id r1 = pc_request_id pc
       /\ vc_type vc = VC_REQUEST
       /\ vc_command vc = VC_EXEC_MANEUVER
       /\ vc_request_id vc = (m_vreq_ctr t + 1) mod 65536
       /\ vc_maneuver vc
          = match data pm with
            | Some m =>
                Some (set_man_plan_ref ((m_plan_ref t + 1) mod 4294967296) m)
            | None => vc_maneuver (m_vc t)
            end
       /\ pc_type r2 = PC_SUCCESS
       /\ pc_info r2 = maneuver_id pm +:+ ": executing maneuver"
       /\ pc_request_id r2 = pc_request_id pc
       /\ dst (pc_hdr r2) = src (pc_hdr pc)
       /\ dst_ent (pc_hdr r2) = src_ent (pc_hdr pc).
Proof.
  intros Hop Harg Hfl He Hst Hparse Hload.
  assert (Hfl' : (Z.land (pc_flags pc) FLG_CALIBRATE =? 0) = true)
    by (by rewrite Hfl).
  clear Hfl.
  destruct t as [p0 pcs rep ? ? dl ? vc sp ? ? ? ? ? ? ? ? ? ? ? ? ? ar ? ? [es code] ?].
  destruct pcs as [st ? ? ? ? ? ? ?]. destruct pc as [? ? op ? ? fl arg ?].
  destruct s as [? ? ? ? ? ?]. destruct pm as [mid [md|]].
  all: cbn in Hop, Harg, Hfl', He, Hst; subst op arg es.
  all: cbv -[plan_parse] in Hparse; cbv -[loadStartManeuver planStarted] in Hload.
  all: destruct Hst; subst st;
    (match goal with |- context [processRequest ?a ?n ?b] =>
       eassert (Heq : processRequest a n b = _) end;
     [run_start Hparse Hfl' Hload |];
     rewrite Heq; clear Heq Hparse Hload Hfl';
     repeat (split; [reflexivity |]);
     eexists _, _, _, _;
     split; [cbn [bus]; rewrite <- !app_assoc; reflexivity |];
     repeat split; reflexivity).
Qed.

(** X19.  A PC_START that names a plan the database knows neither as a
    plan nor as a memento fails, and leaves the engine READY whatever its
    mode was: it publishes INITIALIZING, answers with the database's text
    as failure, stops logging and publishes READY.  The stored
    specification is emptied, and when a plan was running the vehicle is
    told to stop its maneuver: the running plan is lost. *)
Theorem start_of_unknown_plan i1 i2 pc now t :
  pc_op pc = PC_START ->
  pc_arg pc = None ->
  getEntityState t = ESTA_NORMAL ->
  searchSpecInDB (pc_plan_id pc) (m_db t) = inr i1 ->
  searchMementoInDB (pc_plan_id pc) (m_db t) = inr i2 ->
  state (m_pcs (processRequest pc now t)) = PCS_READY
  /\ last_outcome (m_pcs (processRequest pc now t)) = LPO_FAILURE
  /\ m_last_event (processRequest pc now t) = "plan load failed: " +:+ i2
  /\ m_spec (processRequest pc now t) = clear_spec (m_spec t)
  /\ m_plan_ref (processRequest pc now t) = m_plan_ref t
  /\ exists pcs1 r pcs2,
       bus (processRequest pc now t)
       = bus t
         ++ [OutPlanControlState pcs1;
             OutPlanControl r;
             OutLoggingControl (mkLoggingControl COP_REQUEST_START "");
             OutPlanControlState pcs2]
         ++ (if in_plan (state (m_pcs t))
             then [OutVehicleCommand (bare_request VC_STOP_MANEUVER t)]
             else [])
       /\ state pcs1 = PCS_INITIALIZING
       /\ state pcs2 = PCS_READY
       /\ pc_type r = PC_FAILURE
       /\ pc_info r = i2
       /\ pc_request_id r = pc_request_id pc
       /\ dst (pc_hdr r) = src (pc_hdr pc)
       /\ dst_ent (pc_hdr r) = src_ent (pc_hdr pc).
Proof.
  intros Hop Harg He Hs1 Hs2.
  destruct t as [p0 pcs rep ? ? dl ? vc sp ? ? ? ? ? ? ? ? ? ? ? ? ? ar ? ? [es code] ?].
  destruct pcs as [st ? ? ? ? ? ? ?]. destruct pc as [? ? op ? ? fl arg ?].
  destruct sp as [? ? ? ? ? ?]. destruct vc as [? ? ? ? ? ? ?].
  cbn in Hop, Harg, He, Hs1, Hs2. subst op arg es.
  destruct st;
    (match goal with |- context [processRequest ?a ?n ?b] =>
       eassert (Heq : processRequest a n b = _) end;
     [ unfold processRequest; expose;
       match goal with |- context [bool_decide ?p] => ev (bool_decide p) end;
       cbv beta iota delta [pc_op pc_arg pc_flags pc_plan_id];
       match goal with |- context [startPlan ?a ?b ?c ?d ?T] => ev T end;
       match goal with |- context [startPlan ?a ?b ?c ?d ?T] =>
         eassert (HS : startPlan a b c d T = _) end;
       [ unfold startPlan;
         match goal with |- context [stopPlan true ?n ?T] =>
           ev (stopPlan true n T) end;
         expose;
         match goal with |- context [loadPlan ?a ?b ?c ?d ?T] => ev T end;
         match goal with |- context [loadPlan ?a ?b ?c ?d ?T] =>
           eassert (HL : loadPlan a b c d T = _) end;
         [ unfold loadPlan;
           match goal with |- context [if ?c then (false, onFailure _ _) else _] =>
             ev c end;
           expose; unfold parseArg; expose;
           match goal with |- context [searchSpecInDB ?a ?b] =>
             ev (searchSpecInDB a b) end;
           rewrite Hs1; expose;
           match goal with |- context [searchMementoInDB ?a ?b] =>
             ev (searchMementoInDB a b) end;
           rewrite Hs2; ev_goal; reflexivity
         | rewrite HL; clear HL; ev_goal; reflexivity ]
       | rewrite HS; clear HS; ev_goal; reflexivity ]
     |];
     rewrite Heq; clear Heq Hs1 Hs2;
     repeat (split; [reflexivity |]);
     eexists _, _, _;
     split; [cbn [bus]; rewrite <- !app_assoc; reflexivity |];
     repeat split; reflexivity).
Qed.

(** X20.  A PC_LOAD with a plan memento whose plan is in the database but
    whose maneuver cannot be resumed -- the plan has no maneuver of that
    id, or the maneuver holds no data -- gets no [PlanControl] reply at
    all.  The engine publishes READY (also when it was BLOCKED) with the
    reason as last event, and keeps the plan it found as the stored
    specification, start maneuver set to the one of the memento. *)
Theorem load_of_unresumable_memento_unanswered pmem found pc now t :
  pc_op pc = PC_LOAD ->
  pc_arg pc = Some (MsgPlanMemento pmem) ->
  getEntityState t = ESTA_NORMAL ->
  state (m_pcs t) = PCS_READY \/ state (m_pcs t) = PCS_BLOCKED ->
  searchSpecInDB (pm_plan_id pmem) (m_db t) = inl found ->
  (forall l, insertMemento pmem (maneuvers found) <> Resumed l) ->
  replies (processRequest pc now t) = replies t
  /\ bus (processRequest pc now t)
     = bus t ++ [OutPlanControlState (m_pcs (processRequest pc now t))]
  /\ state (m_pcs (processRequest pc now t)) = PCS_READY
  /\ last_outcome (m_pcs (processRequest pc now t)) = last_outcome (m_pcs t)
  /\ m_last_event (processRequest pc now t)
     = "plan load failed: "
       +:+ match insertMemento pmem (maneuvers found) with
           | NoData id => id +:+ "actual maneuver not specified"
           | _ => "could not find resume maneuver: " +:+ pm_maneuver_id pmem
           end
  /\ m_spec (processRequest pc now t)
     = set_start_man_id (pm_maneuver_id pmem)
         (set_spec_src_ent (entity_id t) found)
  /\ m_db (processRequest pc now t) = m_db t.
Proof.
  intros Hop Harg He Hst Hs Hins.
  destruct t as [p0 pcs rep ? ? dl ? vc sp ? ? ? ? ? ? ? ? ? ? ? ? ? ar ? ? [es code] ?].
  destruct pcs as [st ? ? ? ? ? ? ?]. destruct pc as [? ? op ? ? fl arg ?].
  destruct sp as [? ? ? ? ? ?]. destruct found as [? ? ? ? mans ?].
  destruct pmem as [? ? ? ?].
  cbn in Hop, Harg, He, Hst, Hs, Hins. subst op arg es.
  cbn [maneuvers].
  destruct (insertMemento _ mans) as [l|id|] eqn:Hi; [by destruct (Hins l) | |].
  all: clear Hins.
  all: destruct Hst; subst st;
    (match goal with |- context [processRequest ?a ?n ?b] =>
       eassert (Heq : processRequest a n b = _) end;
     [ unfold processRequest; expose;
       match goal with |- context [bool_decide ?p] => ev (bool_decide p) end;
       cbv beta iota delta [pc_op pc_arg pc_flags pc_plan_id];
       match goal with |- context [loadPlan ?a ?b ?c ?d ?T] => ev T end;
       unfold loadPlan;
       match goal with |- context [if ?c then (false, onFailure _ _) else _] =>
         ev c end;
       expose; unfold parseArg; expose; unfold handleArgMemento; expose;
       match goal with |- context [searchSpecInDB ?a ?b] =>
         ev (searchSpecInDB a b) end;
       rewrite Hs; expose;
       match goal with |- context [insertMemento ?a ?b] =>
         ev (insertMemento a b) end;
       rewrite Hi; ev_goal; reflexivity
     |];
     rewrite Heq; clear Heq Hs Hi;
     split; [unfold replies; cbn [bus]; rewrite omap_app; cbn;
             by rewrite app_nil_r |];
     repeat (split; [reflexivity |]); reflexivity).
Qed.

(** ** Resuming from a memento *)

(** X21.  The loop of [handleArgMemento] writes the memento into the first
    maneuver of the plan that carries the id named by the memento, and
    into no other: every maneuver before it has another id, and all
    maneuvers but that one are as they were.  It gives up on that first
    maneuver when it holds no data, and finds nothing exactly when no
    maneuver of the plan has the id. *)
Theorem insertMemento_first_match pmem l :
  match insertMemento pmem l with
  | Resumed l' =>
      exists l1 pm m l2,
        l = l1 ++ Some pm :: l2
        /\ (forall pm', Some pm' ∈ l1 ->
              maneuver_id pm' <> pm_maneuver_id pmem)
        /\ maneuver_id pm = pm_maneuver_id pmem
        /\ data pm = Some m
        /\ l' = l1 ++ Some (mkPlanManeuver (maneuver_id pm)
                              (Some (set_man_memento (pm_memento pmem) m)))
                      :: l2
  | NoData id =>
      exists l1 pm l2,
        l = l1 ++ Some pm :: l2
        /\ (forall pm', Some pm' ∈ l1 ->
              maneuver_id pm' <> pm_maneuver_id pmem)
        /\ maneuver_id pm = pm_maneuver_id pmem
        /\ data pm = None
        /\ id = maneuver_id pm
  | NoManeuver =>
      forall pm', Some pm' ∈ l -> maneuver_id pm' <> pm_maneuver_id pmem
  end.
Proof.
  induction l as [|[pm|] r IH]; cbn [insertMemento].
  - intros pm' Hin. by apply elem_of_nil in Hin.
  - destruct (String.eqb (maneuver_id pm) (pm_maneuver_id pmem)) eqn:E.
    + apply String.eqb_eq in E. destruct (data pm) as [m|] eqn:Ed.
      * exists [], pm, m, r. repeat split; try done.
        intros pm' Hin. by apply elem_of_nil in Hin.
      * exists [], pm, r. repeat split; try done.
        intros pm' Hin. by apply elem_of_nil in Hin.
    + apply String.eqb_neq in E.
      destruct (insertMemento pmem r) as [l'|id|].
      * destruct IH as (l1 & pm0 & m & l2 & -> & Hu & Hid & Hd & ->).
        exists (Some pm :: l1), pm0, m, l2. repeat split; try done.
        intros pm' [Heq|Hin]%elem_of_cons; [by inversion Heq; subst | by apply Hu].
      * destruct IH as (l1 & pm0 & l2 & -> & Hu & Hid & Hd & ->).
        exists (Some pm :: l1), pm0, l2. repeat split; try done.
        intros pm' [Heq|Hin]%elem_of_cons; [by inversion Heq; subst | by apply Hu].
      * intros pm' [Heq|Hin]%elem_of_cons; [by inversion Heq; subst | by apply IH].
  - destruct (insertMemento pmem r) as [l'|id|].
    + destruct IH as (l1 & pm0 & m & l2 & -> & Hu & Hid & Hd & ->).
      exists (None :: l1), pm0, m, l2. repeat split; try done.
      intros pm' [Heq|Hin]%elem_of_cons; [discriminate Heq | by apply Hu].
    + destruct IH as (l1 & pm0 & l2 & -> & Hu & Hid & Hd & ->).
      exists (None :: l1), pm0, l2. repeat split; try done.
      intros pm' [Heq|Hin]%elem_of_cons; [discriminate Heq | by apply Hu].
    + intros pm' [Heq|Hin]%elem_of_cons; [discriminate Heq | by apply IH].
Qed.

(** ** Power operations *)

(** X22.  Once a power-down in progress has been announced to this system,
    the database is closed and every PlanControl request is refused with
    "engine not ready: entity state not normal"; a [PowerOperation]
    addressed to another system changes nothing. *)
Theorem power_down_refuses_requests po pc now t :
  po_op po = POP_PWR_DOWN_IP ->
  (po_dst po = system_id t ->
     m_db (consume_PowerOperation po t) = db_close (m_db t)
     /\ getEntityState (consume_PowerOperation po t) = ESTA_ERROR
     /\ processRequest pc now (consume_PowerOperation po t)
        = refused pc "engine not ready: entity state not normal"
            (consume_PowerOperation po t))
  /\ (po_dst po <> system_id t -> consume_PowerOperation po t = t).
Proof.
  intros Hop. unfold consume_PowerOperation. rewrite Hop. split; intros Hd.
  - rewrite bool_decide_eq_false_2 by (intros Hn; by apply Hn).
    split; [done | split; [done |]].
    apply not_normal_refused. cbn. discriminate.
  - by rewrite bool_decide_eq_true_2 by done.
Qed.

(** ** The periodic report *)

(** X23.  When the report timer has run out, the main loop dispatches the
    published state once.  The progress and the estimated time of arrival
    in it are brought up to date from the plan first, but only when
    progress reporting is configured and a plan is initializing or
    executing; in every other case the state goes out as it stands.  When
    the timer has not run out nothing is dispatched. *)
Theorem periodic_report now t :
  bus (onMain_report true now t)
  = bus t ++ [OutPlanControlState (m_pcs (onMain_report true now t))]
  /\ m_pcs (onMain_report true now t)
     = (if progress (m_args t) && in_plan (state (m_pcs t))
        then set_plan_eta
               (getETA (penv now t)
                  (snd (updateProgress (penv now t) (m_mcs t) (m_plan t))))
               (set_plan_progress
                  (fst (updateProgress (penv now t) (m_mcs t) (m_plan t)))
                  (m_pcs t))
        else m_pcs t)
  /\ onMain_report false now t = t.
Proof.
  destruct t as [p0 pcs ? ? ? ? ? ? ? ? ? ? ? ? ? ? ? ? ? ? ? ? ar ? ? ? ?].
  destruct pcs as [st ? ? ? ? ? ? ?]. destruct ar as [pr ? ? ? ? ? ? ? ? ?].
  unfold onMain_report, reportProgress.
  destruct pr, st; lazy -[updateProgress getETA app];
    try destruct (updateProgress _ _ _) as [x p]; done.
Qed.


(** ** Vehicle states *)

(** X24.  A [VehicleState] in SERVICE mode releases a BLOCKED engine: it
    publishes READY with the event "vehicle ready".  Nothing is sent to
    the operator or to the vehicle, and the last outcome stays. *)
Theorem vehicle_ready_unblocks vs now t :
  op_mode vs = VS_SERVICE ->
  getEntityState t <> ESTA_BOOT ->
  state (m_pcs t) = PCS_BLOCKED ->
  state (m_pcs (consume_VehicleState vs now t)) = PCS_READY
  /\ m_last_event (consume_VehicleState vs now t) = "vehicle ready"
  /\ m_last_vstate (consume_VehicleState vs now t) = now
  /\ bus (consume_VehicleState vs now t)
     = bus t ++ [OutPlanControlState (m_pcs (consume_VehicleState vs now t))]
  /\ last_outcome (m_pcs (consume_VehicleState vs now t))
     = last_outcome (m_pcs t)
  /\ m_vc_reply_deadline (consume_VehicleState vs now t)
     = m_vc_reply_deadline t.
Proof.
  intros Hop He Hst.
  unfold consume_VehicleState. rewrite bool_decide_eq_false_2 by done.
  expose. rewrite Hop.
  destruct t as [p0 pcs rep ? ? dl ? vc sp ? ? ? ? ? ? ? ? ? ? ? ? ? ar ? ? ? ?].
  destruct pcs as [st ? ? ? ? ? ? ?]. cbn in Hst. subst st.
  repeat split; reflexivity.
Qed.

(** X25.  A [VehicleState] in SERVICE mode that finds the engine EXECUTING
    with no reply pending means the vehicle has left the maneuver: the
    engine answers the last request it processed with the vehicle's last
    error as failure, stops logging and publishes READY with [last_outcome]
    FAILURE.  No command goes to the vehicle. *)
Theorem service_while_executing_fails_plan vs now t :
  op_mode vs = VS_SERVICE ->
  getEntityState t <> ESTA_BOOT ->
  state (m_pcs t) = PCS_EXECUTING ->
  pendingReply t = false ->
  state (m_pcs (consume_VehicleState vs now t)) = PCS_READY
  /\ last_outcome (m_pcs (consume_VehicleState vs now t)) = LPO_FAILURE
  /\ m_last_event (consume_VehicleState vs now t) = last_error vs
  /\ bus (consume_VehicleState vs now t)
     = bus t
       ++ [OutPlanControl
             (set_pc_info (last_error vs) (set_pc_type PC_FAILURE (m_reply t)));
           OutLoggingControl (mkLoggingControl COP_REQUEST_START "");
           OutPlanControlState (m_pcs (consume_VehicleState vs now t))]
  /\ pc_plan_id (m_reply (consume_VehicleState vs now t))
     = spec_plan_id (m_spec t)
  /\ m_plan (consume_VehicleState vs now t)
     = planStopped (penv now t) (m_plan t)
  /\ m_vc_reply_deadline (consume_VehicleState vs now t)
     = m_vc_reply_deadline t.
Proof.
  intros Hop He Hst Hp.
  unfold consume_VehicleState. rewrite bool_decide_eq_false_2 by done.
  expose. rewrite Hop.
  destruct t as [p0 pcs rep ? ? dl ? vc sp ? ? ? ? ? ? ? ? ? ? ? ? ? ar ? ? ? ?].
  destruct pcs as [st ? ? ? ? ? ? ?]. destruct vs as [? ? ? ? ? ?].
  cbn in Hst. subst st.
  unfold pendingReply in Hp. cbn in Hp.
  destruct dl as [[|n|n] d]; try (vm_compute in Hp; discriminate Hp).
  ev_goal. rewrite <- ?app_assoc. repeat split; reflexivity.
Qed.

(** X26.  A [VehicleState] in ERROR or BOOT mode blocks an engine that is
    READY or BLOCKED with no reply pending, when the error text is not the
    one of the last event: it publishes BLOCKED with that text.  When the
    text is the last event's, or a reply is pending, the message only
    counts as a sign of life. *)
Theorem vehicle_error_blocks vs now t :
  op_mode vs = VS_ERROR \/ op_mode vs = VS_BOOT ->
  getEntityState t <> ESTA_BOOT ->
  state (m_pcs t) = PCS_READY \/ state (m_pcs t) = PCS_BLOCKED ->
  (pendingReply t = false -> error_text vs <> m_last_event t ->
     state (m_pcs (consume_VehicleState vs now t)) = PCS_BLOCKED
     /\ m_last_event (consume_VehicleState vs now t) = error_text vs
     /\ m_last_vstate (consume_VehicleState vs now t) = now
     /\ bus (consume_VehicleState vs now t)
        = bus t
          ++ [OutPlanControlState (m_pcs (consume_VehicleState vs now t))]
     /\ last_outcome (m_pcs (consume_VehicleState vs now t))
        = last_outcome (m_pcs t))
  /\ (pendingReply t = true \/ error_text vs = m_last_event t ->
      consume_VehicleState vs now t = set_m_last_vstate now t).
Proof.
  intros Hop He Hst.
  assert (Heq : consume_VehicleState vs now t
                = onVehicleError vs now (set_m_last_vstate now t)).
  { unfold consume_VehicleState. rewrite bool_decide_eq_false_2 by done.
    expose.
    assert (Hi : forall t1, state (m_pcs t1) = PCS_READY
                            \/ state (m_pcs t1) = PCS_BLOCKED ->
                 initMode (onVehicleError vs now t1) = false).
    { intros t1 Hs1. unfold onVehicleError; expose.
      assert (E1 : execMode t1 = false)
        by (unfold execMode; by destruct Hs1 as [-> | ->]).
      assert (E2 : initMode t1 = false)
        by (unfold initMode; by destruct Hs1 as [-> | ->]).
      rewrite E1, E2.
      destruct (_ && _); unfold initMode;
        [by rewrite state_changeMode3 | by destruct Hs1 as [-> | ->]]. }
    destruct Hop as [-> | ->]; by rewrite Hi. }
  rewrite Heq. clear Heq.
  unfold onVehicleError, error_text; expose.
  assert (E1 : execMode (set_m_last_vstate now t) = false)
    by (unfold execMode; cbn; by destruct Hst as [-> | ->]).
  assert (E2 : initMode (set_m_last_vstate now t) = false)
    by (unfold initMode; cbn; by destruct Hst as [-> | ->]).
  rewrite E1, E2. clear E1 E2.
  match goal with |- context [String.eqb ?d _] => set (edesc := d) end.
  clearbody edesc.
  change (m_last_event (set_m_last_vstate now t)) with (m_last_event t).
  change (pendingReply (set_m_last_vstate now t)) with (pendingReply t).
  split.
  - intros Hp Hne. apply String.eqb_neq in Hne. rewrite Hne, Hp. expose_bool.
    clear Hne Hp Hop He.
    destruct t as [p0 pcs rep ? ? dl ? vc sp ? ? ? ? ? ? ? ? ? ? ? ? ? ar ? ? ? ?].
    destruct pcs as [st ? ? ? ? ? ? ?]. cbn in Hst.
    destruct Hst; subst st; repeat split; reflexivity.
  - intros [Hp | Hsame].
    + rewrite Hp. by rewrite andb_false_r.
    + apply String.eqb_eq in Hsame. by rewrite Hsame.
Qed.

(** X27.  A [VehicleState] in ERROR or BOOT mode that finds the engine
    EXECUTING always answers the last request processed with the error
    text as failure.  With no reply pending and a text that is not the
    last event's, it also ends the plan: logging stops and BLOCKED is
    published; the vehicle is sent nothing. *)
Theorem vehicle_error_while_executing vs now t :
  op_mode vs = VS_ERROR \/ op_mode vs = VS_BOOT ->
  getEntityState t <> ESTA_BOOT ->
  state (m_pcs t) = PCS_EXECUTING ->
  pendingReply t = false ->
  error_text vs <> m_last_event t ->
  state (m_pcs (consume_VehicleState vs now t)) = PCS_BLOCKED
  /\ last_outcome (m_pcs (consume_VehicleState vs now t)) = LPO_FAILURE
  /\ m_last_event (consume_VehicleState vs now t) = error_text vs
  /\ bus (consume_VehicleState vs now t)
     = bus t
       ++ [OutPlanControl
             (set_pc_info (error_text vs) (set_pc_type PC_FAILURE (m_reply t)));
           OutLoggingControl (mkLoggingControl COP_REQUEST_START "");
           OutPlanControlState (m_pcs (consume_VehicleState vs now t))]
  /\ m_plan (consume_VehicleState vs now t)
     = planStopped (penv now t) (m_plan t)
  /\ m_vc_reply_deadline (consume_VehicleState vs now t)
     = m_vc_reply_deadline t.
Proof.
  intros Hop He Hst Hp Hne. apply String.eqb_neq in Hne.
  eassert (Heq : consume_VehicleState vs now t = _).
  { unfold consume_VehicleState. rewrite bool_decide_eq_false_2 by done.
    expose.
    assert (Hv : onVehicleError vs now (set_m_last_vstate now t)
            = changeMode3 PCS_BLOCKED (error_text vs) now
                (set_m_reply
                   (set_pc_plan_id (spec_plan_id (m_spec t))
                      (m_reply (onFailure (error_text vs)
                                  (set_m_last_vstate now t))))
                   (onFailure (error_text vs) (set_m_last_vstate now t)))).
    { unfold onVehicleError; expose. fold (error_text vs).
      assert (E1 : execMode (set_m_last_vstate now t) = true)
        by (unfold execMode; cbn; by rewrite Hst).
      rewrite E1.
      match goal with |- context [String.eqb _ (m_last_event ?x)] =>
        change (m_last_event x) with (m_last_event t) end.
      match goal with |- context [pendingReply ?x] =>
        change (pendingReply x) with (pendingReply t) end.
      rewrite Hne, Hp. expose_bool.
      match goal with |- context [if initMode ?x then _ else _] =>
        assert (E2 : initMode x = false)
          by (unfold initMode;
              change (state (m_pcs x)) with (state (m_pcs t));
              by rewrite Hst);
        rewrite E2 end.
      reflexivity. }
    assert (Hi : initMode (onVehicleError vs now (set_m_last_vstate now t))
                 = false).
    { rewrite Hv. unfold initMode. by rewrite state_changeMode3. }
    destruct Hop as [-> | ->]; rewrite Hi, Hv; reflexivity. }
  rewrite Heq. clear Heq Hop He Hne.
  generalize (error_text vs). intros edesc.
  destruct t as [p0 pcs rep ? ? dl ? vc sp ? ? ? ? ? ? ? ? ? ? ? ? ? ar ? ? ? ?].
  destruct pcs as [st ? ? ? ? ? ? ?].
  cbn in Hst. subst st. clear Hp.
  ev_goal. rewrite <- ?app_assoc. repeat split; reflexivity.
Qed.


(** X28.  A PC_START that asks for calibration, of a plan that parses,
    with calibration configured and the engine READY or BLOCKED, takes the
    engine to INITIALIZING: after the steps of every accepted start it
    sends the vehicle the maneuver that fills the calibration time -- an
    idle maneuver, or station keeping at the stored position -- and
    leaves it at that.  The operator gets the one reply "plan loaded";
    the check for the BLOCKED mode in [startCalibration] cannot fail,
    INITIALIZING having been published before. *)
Theorem start_with_calibration s ps p1 pc now t :
  pc_op pc = PC_START ->
  pc_arg pc = Some (MsgPlanSpecification s) ->
  Z.land (pc_flags pc) FLG_CALIBRATE <> 0 ->
  do_calib (m_args t) = true ->
  getEntityState t = ESTA_NORMAL ->
  state (m_pcs t) = PCS_READY \/ state (m_pcs t) = PCS_BLOCKED ->
  plan_parse (mkPlanEnv (set_spec_src_ent (entity_id t) s) now)
    (m_supported_maneuvers t) (m_cinfo t) (m_imu_enabled t) (m_state t)
    (m_plan t) = (inl ps, p1) ->
  state (m_pcs (processRequest pc now t)) = PCS_INITIALIZING
  /\ m_spec (processRequest pc now t) = set_spec_src_ent (entity_id t) s
  /\ m_plan_ref (processRequest pc now t) = (m_plan_ref t + 1) mod 4294967296
  /\ m_plan (processRequest pc now t)
     = planStarted (mkPlanEnv (set_spec_src_ent (entity_id t) s) now) p1
  /\ m_vc_reply_deadline (processRequest pc now t)
     = (now + c_vc_reply_timeout)%Q
  /\ exists pcs1 r1 vc,
       bus (processRequest pc now t)
       = bus t
         ++ [OutPlanControlState pcs1;
             OutPlanControl r1;
             OutLoggingControl
               (mkLoggingControl COP_REQUEST_START (pc_plan_id pc));
             OutPlanSpecification (set_spec_src_ent (entity_id t) s);
             OutVehicleCommand vc]
       /\ state pcs1 = PCS_INITIALIZING
       /\ pc_type r1 = PC_SUCCESS
       /\ pc_info r1 = "plan loaded"
       /\ pc_request_id r1 = pc_request_id pc
       /\ vc_type vc = VC_REQUEST
       /\ vc_command vc = VC_EXEC_MANEUVER
       /\ vc_request_id vc = (m_vreq_ctr t + 1) mod 65536
       /\ vc_calib_time vc = 0
       /\ vc_maneuver vc
          = Some (if sk_calib (m_args t)
                  then mkManeuver DUNE_IMC_STATIONKEEPING "StationKeeping" "" 0
                         (FStationKeeping (fst (toWGS84 (m_state t)))
                            (snd (toWGS84 (m_state t))) 0%Q Z_DEPTH
                            (sk_radius (m_args t)) (sk_rpm (m_args t))
                            SUNITS_RPM)
                  else mkManeuver DUNE_IMC_IDLEMANEUVER "IdleManeuver" "" 0
                         (FIdleManeuver 0)).
Proof.
  intros Hop Harg Hfl Hdc He Hst Hparse.
  apply Z.eqb_neq in Hfl.
  destruct t as [p0 pcs rep ? ? dl ? vc sp ? ? ? ms ? ? ? ? ? ? ? ? ? ar ? ? [es code] ?].
  destruct pcs as [st ? ? ? ? ? ? ?]. destruct pc as [? ? op ? ? fl arg ?].
  destruct s as [? ? ? ? ? ?]. destruct ar as [? ? ? ? dc ? sk ? ? ?].
  cbn in Hop, Harg, Hfl, Hdc, He, Hst. subst op arg es dc.
  cbv -[plan_parse] in Hparse.
  cbn [m_state m_args sk_calib sk_radius sk_rpm].
  destruct (toWGS84 ms) as [lat lon] eqn:Hw.
  destruct sk; destruct Hst; subst st;
    (match goal with |- context [processRequest ?a ?n ?b] =>
       eassert (Heq : processRequest a n b = _) end;
     [ unfold processRequest; expose;
       match goal with |- context [bool_decide ?p] => ev (bool_decide p) end;
       cbv beta iota delta [pc_op pc_arg pc_flags pc_plan_id];
       match goal with |- context [startPlan ?a ?b ?c ?d ?T] => ev T end;
       match goal with |- context [startPlan ?a ?b ?c ?d ?T] =>
         eassert (HS : startPlan a b c d T = _) end;
       [ unfold startPlan;
         match goal with |- context [stopPlan true ?n ?T] =>
           ev (stopPlan true n T) end;
         expose;
         match goal with |- context [loadPlan ?a ?b ?c ?d ?T] => ev T end;
         match goal with |- context [loadPlan ?a ?b ?c ?d ?T] =>
           eassert (HL : loadPlan a b c d T = _) end;
         [ unfold loadPlan;
           match goal with |- context [if ?c then (false, onFailure _ _) else _] =>
             ev c end;
           expose; unfold parseArg, handleArgSpecification; expose;
           unfold parsePlan;
           match goal with |- context [plan_parse ?a ?b ?c ?d ?e ?f] =>
             ev (plan_parse a b c d e f) end;
           rewrite Hparse; ev_goal; reflexivity
         | rewrite HL; clear HL; expose;
           match goal with |- context [set_m_mh ?v ?T] => ev (set_m_mh v T) end;
           rewrite Hfl; expose_bool;
           match goal with |- context [do_calib ?a] => ev (do_calib a) end;
           expose;
           unfold startCalibration;
           match goal with |- context [blockedMode ?T] => ev (blockedMode T) end;
           expose;
           try (match goal with |- context [toWGS84 ?a] => ev (toWGS84 a) end;
                rewrite Hw);
           ev_goal; reflexivity ]
       | rewrite HS; clear HS; ev_goal; reflexivity ]
     |];
     rewrite Heq; clear Heq Hparse Hfl;
     repeat (split; [reflexivity |]);
     eexists _, _, _;
     split; [cbn [bus]; rewrite <- !app_assoc; reflexivity |];
     repeat split; reflexivity).
Qed.

(** ** What the engine puts on the bus *)

Lemma emits_refl t : emits t t.
Proof. exists []. split; [by rewrite app_nil_r | constructor]. Qed.

Lemma emits_trans t1 t2 t3 : emits t1 t2 -> emits t2 t3 -> emits t1 t3.
Proof.
  intros (o1 & H1 & F1) (o2 & H2 & F2). exists (o1 ++ o2). split.
  - by rewrite H2, H1, app_assoc.
  - by apply Forall_app.
Qed.

Lemma emits_silent t t' : bus t' = bus t -> emits t t'.
Proof. intros H. exists []. split; [by rewrite app_nil_r | constructor]. Qed.

Lemma emits_dispatch m t : wire_ok m -> emits t (dispatch m t).
Proof. intros H. exists [m]. split; [done | by repeat constructor]. Qed.

Lemma emits_changeLog name t : emits t (changeLog name t).
Proof.
  unfold changeLog; expose.
  match goal with |- emits ?t (dispatch ?m ?x) =>
    apply (emits_trans t x); [by apply emits_silent | by apply emits_dispatch]
  end.
Qed.

Lemma emits_onFailure msg t : emits t (onFailure msg t).
Proof.
  unfold onFailure, answer; expose.
  match goal with |- emits ?t (dispatch ?m ?x) =>
    apply (emits_trans t x);
    [by apply emits_silent | apply emits_dispatch; by right]
  end.
Qed.

Lemma emits_onSuccess msg t : emits t (onSuccess msg t).
Proof.
  unfold onSuccess, answer; expose.
  match goal with |- emits ?t (dispatch ?m ?x) =>
    apply (emits_trans t x);
    [by apply emits_silent | apply emits_dispatch; by left]
  end.
Qed.

Lemma emits_changeMode s desc nid man now t :
  emits t (changeMode s desc nid man now t).
Proof.
  unfold changeMode; expose.
  apply (emits_trans t (set_m_last_event desc t)); [by apply emits_silent |].
  generalize (set_m_last_event desc t). clear t. intros t.
  match goal with |- emits _ (dispatch _ ?x) =>
    apply (emits_trans t x); [| by apply emits_dispatch] end.
  match goal with |- emits _ (match man with Some _ => _ | None => _ end) =>
    destruct man end.
  all: match goal with |- emits _ (set_m_pcs _ (set_m_pcs _ ?x)) =>
         apply (emits_trans t x);
         [| generalize x; intros; by apply emits_silent] end.
  all: destruct (bool_decide _); [| apply emits_refl].
  all: destruct (_ && _);
    [| generalize t; intros; by apply emits_silent].
  all: match goal with |- emits _ (changeLog _ ?x) =>
         apply (emits_trans t x);
         [generalize t; intros; by apply emits_silent
         | apply emits_changeLog] end.
Qed.

Lemma emits_vehicleRequest cmd arg now t :
  cmd <> VC_START_CALIBRATION -> emits t (vehicleRequest cmd arg now t).
Proof.
  intros Hc. unfold vehicleRequest; expose.
  rewrite bool_decide_eq_false_2 by done.
  match goal with |- emits _ (set_m_vc_reply_deadline _ ?x) =>
    apply (emits_trans t x); [| generalize x; intros; by apply emits_silent]
  end.
  destruct arg as [m|].
  - match goal with |- emits _ (set_m_vc _ (dispatch ?m ?x)) =>
      apply (emits_trans t (dispatch m x));
      [| generalize (dispatch m x); intros; by apply emits_silent];
      apply (emits_trans t x);
      [by apply emits_silent | apply emits_dispatch; by repeat split]
    end.
  - match goal with |- emits _ (dispatch ?m ?x) =>
      apply (emits_trans t x);
      [by apply emits_silent | apply emits_dispatch; by repeat split]
    end.
Qed.

Ltac emits_peel :=
  lazymatch goal with
  | |- emits ?t ?t => apply emits_refl
  | |- emits ?t (changeMode _ _ _ _ _ ?x) =>
      apply (emits_trans t x); [| apply emits_changeMode]
  | |- emits ?t (changeMode3 _ _ _ ?x) =>
      apply (emits_trans t x); [| apply emits_changeMode]
  | |- emits ?t (vehicleRequest _ _ _ ?x) =>
      apply (emits_trans t x); [| apply emits_vehicleRequest; discriminate]
  | |- emits ?t (onFailure _ ?x) =>
      apply (emits_trans t x); [| apply emits_onFailure]
  | |- emits ?t (onSuccess _ ?x) =>
      apply (emits_trans t x); [| apply emits_onSuccess]
  | |- emits ?t (changeLog _ ?x) =>
      apply (emits_trans t x); [| apply emits_changeLog]
  | |- emits ?t (dispatch _ ?x) =>
      apply (emits_trans t x); [| apply emits_dispatch; exact I]
  | |- emits ?t (?f ?v ?x) =>
      apply (emits_trans t x);
      [| generalize x; intros; by apply emits_silent]
  end.

Ltac emits_auto :=
  repeat emits_peel;
  try match goal with H : emits ?a ?b |- emits ?a ?b => exact H end.
Ltac emits_solve := solve [emits_auto].

Lemma emits_startManeuver pman now t : emits t (startManeuver pman now t).
Proof. unfold startManeuver. destruct pman as [pm|]; expose; emits_auto. Qed.

Lemma emits_startCalibration now t : emits t (snd (startCalibration now t)).
Proof.
  unfold startCalibration. destruct (blockedMode t); expose; emits_auto.
Qed.

Lemma emits_handleArgMemento pmem info t :
  emits t (snd (handleArgMemento pmem info t)).
Proof.
  unfold handleArgMemento; expose.
  destruct (searchSpecInDB _ _) as [found|info']; expose; [| emits_auto].
  destruct (insertMemento _ _); expose; emits_auto.
Qed.

Lemma emits_parseArg id arg info t : emits t (snd (parseArg id arg info t)).
Proof.
  unfold parseArg.
  destruct arg as [[s|pmem|m|ps|m]|];
    try apply emits_handleArgMemento;
    try (unfold handleArgSpecification; expose; emits_solve);
    try (unfold handleQuickPlan; expose; emits_solve).
  expose.
  destruct (searchSpecInDB _ _) as [found|info1]; expose; [emits_auto |].
  destruct (searchMementoInDB _ _) as [pmem|info2]; expose; [| emits_auto].
  eapply emits_trans; [| apply emits_handleArgMemento]. emits_auto.
Qed.

Lemma emits_parsePlan startup now t : emits t (snd (parsePlan startup now t)).
Proof.
  unfold parsePlan.
  destruct (plan_parse _ _ _ _ _ _) as [[ps|what] p]; expose.
  - destruct startup; expose; emits_auto.
  - emits_auto.
Qed.

Lemma emits_loadPlan id arg startup now t :
  emits t (snd (loadPlan id arg startup now t)).
Proof.
  unfold loadPlan.
  destruct (_ || _); expose; [emits_auto |].
  pose proof (emits_parseArg id arg "" t) as Ha.
  destruct (parseArg id arg "" t) as [[[] info] t1]; expose; expose_in Ha.
  - pose proof (emits_parsePlan startup now t1) as Hp.
    destruct (parsePlan startup now t1) as [[ps|] t2]; expose; expose_in Hp.
    + emits_auto. by eapply emits_trans.
    + emits_auto. by eapply emits_trans.
  - emits_auto.
Qed.

Lemma emits_getPlan t : emits t (getPlan t).
Proof. unfold getPlan. destruct (_ && _); emits_auto. Qed.

Lemma emits_stopPlan startup now t : emits t (snd (stopPlan startup now t)).
Proof.
  unfold stopPlan; expose.
  destruct (initMode t || execMode t), startup; expose; emits_auto.
Qed.

Lemma emits_startPlan id arg flags now t :
  emits t (snd (startPlan id arg flags now t)).
Proof.
  unfold startPlan.
  pose proof (emits_stopPlan true now t) as Hq.
  destruct (stopPlan true now t) as [stopped t1]; expose_in Hq; expose.
  assert (Hq2 : emits t (changeMode3 PCS_INITIALIZING
                            ("plan initializing: " +:+ id) now t1))
    by emits_auto.
  revert Hq2. generalize (changeMode3 PCS_INITIALIZING
                            ("plan initializing: " +:+ id) now t1).
  clear t1 Hq. intros t2 Hq.
  pose proof (emits_loadPlan id arg true now t2) as Hl.
  destruct (loadPlan id arg true now t2) as [[] t3]; expose_in Hl; expose;
    [| by eapply emits_trans].
  assert (Hq3 : emits t t3) by (by eapply emits_trans).
  clear t2 Hq Hl.
  set (t4 := changeLog id t3).
  assert (Hq4 : emits t t4) by (subst t4; emits_auto).
  clearbody t4. clear t3 Hq3.
  match goal with |- context [set_m_plan_ref _ ?x] => set (t5 := x) end.
  assert (Hq5 : emits t t5).
  { subst t5. destruct (initMode t4 || execMode t4); [| emits_auto].
    destruct stopped; expose; emits_auto. }
  clearbody t5. clear t4 Hq4.
  match goal with |- context [do_calib (m_args ?x)] => set (t6 := x) end.
  assert (Hq6 : emits t t6) by (subst t6; emits_auto).
  clearbody t6. clear t5 Hq5.
  destruct (_ && do_calib _).
  - pose proof (emits_startCalibration now t6) as Hc.
    destruct (startCalibration now t6) as [[] t7]; expose_in Hc; expose;
      by eapply emits_trans.
  - destruct (loadStartManeuver _ _) as [pman p].
    assert (Hq7 : emits t (set_m_plan p t6)) by emits_auto.
    revert Hq7. generalize (set_m_plan p t6). clear t6 Hq6. intros t7 Hq.
    pose proof (emits_startManeuver pman now t7) as Hs.
    revert Hs. generalize (startManeuver pman now t7). intros t8 Hs.
    assert (Hq8 : emits t t8) by (by eapply emits_trans).
    destruct (execMode t8); expose; emits_auto.
Qed.

Lemma emits_processRequest pc now t : emits t (processRequest pc now t).
Proof.
  unfold processRequest.
  match goal with |- context [getEntityState ?x] => set (t1 := x) end.
  assert (Hq : emits t t1) by (subst t1; emits_auto).
  clearbody t1.
  destruct (bool_decide _); [emits_auto |].
  destruct (pc_op pc).
  - pose proof (emits_startPlan (pc_plan_id pc) (pc_arg pc) (pc_flags pc) now t1)
      as Hs.
    destruct (startPlan _ _ _ _ _) as [[] t2]; expose_in Hs.
    + by eapply emits_trans.
    + emits_auto. by eapply emits_trans.
  - eapply emits_trans; [done | apply emits_stopPlan].
  - eapply emits_trans; [done | apply emits_loadPlan].
  - eapply emits_trans; [done | apply emits_getPlan].
  - emits_auto.
Qed.

Lemma emits_onVehicleService vs now t : emits t (onVehicleService vs now t).
Proof.
  unfold onVehicleService.
  destruct (state (m_pcs t)); try emits_solve.
  - destruct (pendingReply t); expose; [emits_auto |].
    destruct (loadStartManeuver _ _) as [pman p].
    eapply emits_trans; [| apply emits_startManeuver]. emits_auto.
  - destruct (pendingReply t); expose; emits_auto.
Qed.

Lemma emits_onVehicleManeuver vs now t : emits t (onVehicleManeuver vs now t).
Proof.
  unfold onVehicleManeuver.
  destruct (_ || _); [emits_solve |].
  destruct (negb _); [| emits_solve].
  destruct (isDone _ _); [emits_solve |].
  destruct (loadNextManeuver _ _) as [pman p].
  eapply emits_trans; [| apply emits_startManeuver]. emits_auto.
Qed.

Lemma emits_onVehicleError vs now t : emits t (onVehicleError vs now t).
Proof.
  unfold onVehicleError; expose.
  match goal with |- context [String.eqb ?d _] => set (edesc := d) end.
  match goal with |- context [m_last_event ?x] => set (t1 := x) end.
  assert (Hq : emits t t1).
  { subst t1. destruct (execMode t); emits_auto. }
  clearbody t1 edesc.
  destruct (_ && _); [| done].
  destruct (initMode t1); emits_auto.
Qed.

Lemma emits_consume_VehicleState vs now t :
  emits t (consume_VehicleState vs now t).
Proof.
  unfold consume_VehicleState.
  destruct (bool_decide _); [apply emits_refl |]. expose.
  assert (H0 : emits t (set_m_last_vstate now t)) by emits_auto.
  revert H0. generalize (set_m_last_vstate now t). intros t0 H0.
  match goal with |- context [initMode ?x] => set (t1 := x) end.
  assert (Hq : emits t t1).
  { apply (emits_trans t t0); [exact H0 |].
    subst t1. destruct (op_mode vs);
      auto using emits_onVehicleService, emits_onVehicleError,
                 emits_onVehicleManeuver, emits_refl. }
  clearbody t1. clear t0 H0.
  destruct (initMode t1); [| done].
  match goal with |- context [isCalibrationDone _ (m_plan ?x)] =>
    set (t2 := x) end.
  assert (Hq2 : emits t t2) by (subst t2; emits_auto).
  clearbody t2. clear t1 Hq.
  destruct (isCalibrationDone _ _).
  - destruct (_ && _); [| done].
    destruct (loadStartManeuver _ _) as [pman p].
    eapply emits_trans; [| apply emits_startManeuver]. emits_auto.
  - destruct (hasCalibrationFailed _ _); emits_auto.
Qed.

Lemma emits_consume_PlanControl pc now t :
  emits t (consume_PlanControl pc now t).
Proof.
  unfold consume_PlanControl.
  destruct (bool_decide _); [apply emits_refl |].
  destruct (pendingReply t); [emits_auto |].
  destruct (m_requests t) as [|front rest]; expose;
    [apply emits_processRequest |].
  match goal with |- context [tail (m_requests ?x)] =>
    generalize (tail (m_requests x)) end.
  intros q2.
  match goal with |- context [processRequest front now ?x] =>
    assert (Hq : emits t x) by emits_auto;
    pose proof (emits_processRequest front now x) as Hp;
    revert Hp; generalize (processRequest front now x); revert Hq; generalize x
  end.
  intros t1 Hq t2 Hp.
  assert (Hq2 : emits t t2) by (by eapply emits_trans).
  emits_auto.
Qed.

Lemma emits_consume_VehicleCommand vc now t :
  emits t (consume_VehicleCommand vc now t).
Proof.
  unfold consume_VehicleCommand; expose.
  destruct (bool_decide _); [apply emits_refl |].
  destruct (pendingReply t); [| apply emits_refl].
  destruct (_ || _); [apply emits_refl |].
  match goal with |- context [initMode ?x] => set (t1 := x) end.
  assert (Hn : emits t t1) by (subst t1; emits_auto). clearbody t1.
  destruct (_ || _); [| done].
  match goal with |- context [if ?c then changeMode3 _ _ _ _ else _] =>
    destruct c end; emits_auto.
Qed.

Lemma emits_consume_EntityActivationState msg now t :
  emits t (consume_EntityActivationState msg now t).
Proof.
  unfold consume_EntityActivationState; expose.
  match goal with |- context [m_plan ?x] => set (t1 := x) end.
  assert (Hq : emits t t1).
  { subst t1.
    destruct (bool_decide _); [destruct (eas_state msg) |]; emits_auto. }
  clearbody t1.
  destruct (resolveEntity _); [| done].
  destruct (onEntityActivationState _ _ _ _) as [[] p]; expose;
    [emits_auto |].
  destruct (actfail_abort _); [| emits_auto].
  match goal with |- context [initMode ?x] => set (t2 := x) end.
  assert (Hq2 : emits t t2) by (subst t2; emits_auto).
  clearbody t2.
  destruct (_ && _); emits_auto.
Qed.

Lemma emits_reportProgress now t : emits t (reportProgress now t).
Proof.
  unfold reportProgress.
  destruct (_ && _); [apply emits_refl |].
  destruct (updateProgress _ _ _) as [pr p]. emits_auto.
Qed.

Lemma emits_onMain_report due now t : emits t (onMain_report due now t).
Proof.
  unfold onMain_report. destruct due; [| apply emits_refl]. expose.
  destruct (progress _); [| emits_auto].
  apply (emits_trans t (reportProgress now t)); [apply emits_reportProgress |].
  generalize (reportProgress now t). intros t1. emits_auto.
Qed.

Lemma emits_onMain_requests now t : emits t (onMain_requests now t).
Proof.
  unfold onMain_requests.
  destruct (negb _); [| apply emits_refl].
  destruct (m_requests t) as [|front rest]; [apply emits_refl |]. expose.
  generalize (tail (m_requests (processRequest front now t))). intros q2.
  pose proof (emits_processRequest front now t) as Hp. revert Hp.
  generalize (processRequest front now t). intros t1 Hp. emits_auto.
Qed.

Lemma emits_onMain_reply_timeout now t :
  emits t (onMain_reply_timeout now t).
Proof.
  unfold onMain_reply_timeout; expose.
  destruct (Qlt_bool 0 _); [apply emits_refl |]. emits_auto.
Qed.

Lemma emits_onMain_pass due now t : emits t (onMain_pass due now t).
Proof.
  unfold onMain_pass; expose.
  apply (emits_trans t (onMain_report due now t));
    [apply emits_onMain_report |].
  generalize (onMain_report due now t). intros t1.
  apply (emits_trans t1 (onMain_vstate now t1)).
  { rewrite onMain_vstate_cases. destruct (_ && _); emits_auto. }
  generalize (onMain_vstate now t1). intros t2.
  apply (emits_trans t2 (onMain_requests now t2));
    [apply emits_onMain_requests | apply emits_onMain_reply_timeout].
Qed.

(** X29.  Whatever the engine handles, what it adds to the bus keeps to a
    fixed vocabulary.  Every [VehicleCommand] is a request to execute a
    maneuver, to stop the maneuver or to stop the calibration: the engine
    never sends START_CALIBRATION, and the calibration time it states is
    always 0.  Every [PlanControl] is a SUCCESS or FAILURE reply, never a
    request and never IN_PROGRESS.  Every [LoggingControl] asks for a new
    log. *)
Theorem bus_vocabulary now e t :
  exists out,
    bus (handle now e t) = bus t ++ out /\ Forall wire_ok out.
Proof.
  change (emits t (handle now e t)).
  destruct e; unfold handle.
  - apply emits_consume_PlanControl.
  - unfold consume_PlanDB.
    destruct (onPlanDB _ _) as [[] d]; by apply emits_silent.
  - unfold consume_EstimatedState.
    destruct (bool_decide _); by apply emits_silent.
  - unfold consume_ManeuverControlState; expose.
    destruct (mcs_state _); by apply emits_silent.
  - unfold consume_PowerOperation.
    destruct (bool_decide _); [apply emits_refl |].
    destruct (po_op po); try (by apply emits_silent).
    destruct (db_open _) as [[] d]; by apply emits_silent.
  - by apply emits_silent.
  - apply emits_consume_VehicleCommand.
  - apply emits_consume_VehicleState.
  - unfold consume_EntityInfo. destruct (_ !! _); by apply emits_silent.
  - apply emits_consume_EntityActivationState.
  - by apply emits_silent.
  - unfold consume_Memento.
    destruct (processMemento _ _) as [[pmem|] mh]; by apply emits_silent.
  - apply emits_onMain_pass.
Qed.


(** X30.  While the engine is INITIALIZING with no reply pending, a
    [VehicleState] in CALIBRATION mode that finds the calibration done
    starts the plan: the start maneuver goes to the vehicle and EXECUTING
    is published.  The operator is sent nothing at this point. *)
Theorem calibration_done_starts_plan pm p2 vs now t :
  op_mode vs = VS_CALIBRATION ->
  getEntityState t <> ESTA_BOOT ->
  state (m_pcs t) = PCS_INITIALIZING ->
  pendingReply t = false ->
  isCalibrationDone (penv now t)
    (updateCalibration (penv now t) vs (m_plan t)) = true ->
  loadStartManeuver (penv now t)
    (updateCalibration (penv now t) vs (m_plan t)) = (Some pm, p2) ->
  state (m_pcs (consume_VehicleState vs now t)) = PCS_EXECUTING
  /\ man_id (m_pcs (consume_VehicleState vs now t))
     = match data pm with Some _ => maneuver_id pm | None => "" end
  /\ m_last_vstate (consume_VehicleState vs now t) = now
  /\ m_vc_reply_deadline (consume_VehicleState vs now t)
     = (now + c_vc_reply_timeout)%Q
  /\ m_plan (consume_VehicleState vs now t)
     = maneuverStarted (penv now t) (maneuver_id pm) p2
  /\ replies (consume_VehicleState vs now t) = replies t
  /\ bus (consume_VehicleState vs now t)
     = bus t
       ++ [OutVehicleCommand
             (match data pm with
              | Some m =>
                  set_vc_maneuver (Some (set_man_plan_ref (m_plan_ref t) m))
                    (bare_request VC_EXEC_MANEUVER t)
              | None => bare_request VC_EXEC_MANEUVER t
              end);
           OutPlanControlState (m_pcs (consume_VehicleState vs now t))].
Proof.
  intros Hop He Hst Hp Hdone Hload.
  unfold consume_VehicleState. rewrite bool_decide_eq_false_2 by done.
  clear He.
  destruct t as [p0 pcs rep ? ? dl ? vc sp ? ? ? ? ? ? ? ? ? ? ? ? ? ar ? ? ? ?].
  destruct pcs as [st ? ? ? ? ? ? ?]. destruct vs as [om ? ? ? ? ?].
  destruct vc as [? ? ? ? ? ? ?]. destruct pm as [mid [md|]].
  all: cbn in Hop, Hst; subst om st.
  all: unfold pendingReply in Hp; cbn in Hp.
  all: destruct dl as [[|n|n] d]; try (vm_compute in Hp; discriminate Hp).
  all: clear Hp.
  all: cbv -[isCalibrationDone updateCalibration] in Hdone.
  all: cbv -[loadStartManeuver updateCalibration] in Hload.
  all: match goal with |- context [if initMode ?x then ?a else ?b] =>
         eassert (Heq : (if initMode x then a else b) = _) end;
    [ match goal with |- context [initMode ?x] => ev (initMode x) end;
      expose;
      match goal with |- context [isCalibrationDone ?a ?b] =>
        ev (isCalibrationDone a b) end;
      rewrite Hdone;
      match goal with |- context [if ?c && ?e then _ else _] =>
        ev (c && e) end;
      expose;
      match goal with |- context [loadStartManeuver ?a ?b] =>
        ev (loadStartManeuver a b) end;
      rewrite Hload; expose;
      match goal with |- context [startManeuver ?a ?b ?T] =>
        ev (startManeuver a b T) end;
      reflexivity
    |].
  all: rewrite Heq; clear Heq Hdone Hload.
  all: repeat (split; [reflexivity |]).
  all: split; [unfold replies; cbn [bus]; rewrite !omap_app; cbn;
               rewrite ?app_nil_r; reflexivity |].
  all: cbn [bus]; rewrite <- ?app_assoc; reflexivity.
Qed.

End EngineProperties.




(** * The engine at concrete inputs *)

Section Scenarios.

Import Ref.

(** C2, the claim as written fails: [load_p1] is accepted in READY, and
    the PC_GET right after it is answered with FAILURE "no plan is
    running"; the reply does not carry the plan. *)
Lemma load_then_get_refused :
  pc_op load_p1 = PC_LOAD
  /\ pc_type (m_reply (processRequest load_p1 1%Q ready)) = PC_SUCCESS
  /\ last (bus (processRequest get_plan 2%Q (processRequest load_p1 1%Q ready)))
     = Some (OutPlanControl
               (mkPlanControl (mkHeader 0 0 5 9) PC_FAILURE PC_GET 3 "" 0
                  (Some (MsgPlanStatistics (mkPlanStatistics "p1" 1 "" "" "")))
                  "no plan is running")).
Proof. vm_compute. by repeat split. Qed.

Lemma load_then_get_witness :
  pc_op load_p1 = PC_LOAD
  /\ pc_arg load_p1 = Some (MsgPlanSpecification plan_p1)
  /\ pc_type (m_reply (processRequest load_p1 1%Q ready)) = PC_SUCCESS
  /\ m_spec (processRequest load_p1 1%Q ready) = set_spec_src_ent 44 plan_p1.
Proof.
  assert (H1 : pc_op load_p1 = PC_LOAD) by reflexivity.
  assert (H2 : pc_arg load_p1 = Some (MsgPlanSpecification plan_p1))
    by reflexivity.
  assert (H3 : pc_type (m_reply (processRequest load_p1 1%Q ready)) = PC_SUCCESS)
    by (vm_compute; reflexivity).
  split; [exact H1 |]. split; [exact H2 |]. split; [exact H3 |].
  exact (proj1 (load_then_get plan_p1 load_p1 1%Q ready H1 H2 H3)).
Defined.

(** C3, the claim as written fails: the reply to EXEC_MANEUVER of
    [started] is due at 3.5; the pass of the main loop at time 4 publishes
    READY and moves the counter from 1 to 2, and dispatches no
    [PlanControl] reply at all. *)
Lemma reply_timeout_without_reply :
  pendingReply started = true
  /\ m_vc_reply_deadline started = 3.5%Q
  /\ state (m_pcs (handle 4%Q (EvMainLoop false) started)) = PCS_READY
  /\ m_vreq_ctr (handle 4%Q (EvMainLoop false) started) = 2
  /\ replies (handle 4%Q (EvMainLoop false) started) = replies started.
Proof. vm_compute. by repeat split. Qed.

Lemma reply_timeout_recovery_witness :
  pendingReply started = true
  /\ (m_vc_reply_deadline started <= 4)%Q
  /\ state (m_pcs (onMain_reply_timeout 4%Q started)) = PCS_READY.
Proof.
  assert (H1 : pendingReply started = true) by (vm_compute; reflexivity).
  assert (H2 : (m_vc_reply_deadline started <= 4)%Q)
    by (vm_compute; discriminate).
  split; [exact H1 |]. split; [exact H2 |].
  exact (proj1 (reply_timeout_recovery 4%Q started H1 H2)).
Defined.

Lemma unmatched_reply_ignored_witness :
  (vc_request_id (reply VC_SUCCESS 7) <> m_vreq_ctr started
   \/ dst (vc_hdr (reply VC_SUCCESS 7)) <> system_id started
   \/ dst_ent (vc_hdr (reply VC_SUCCESS 7)) <> entity_id started)
  /\ consume_VehicleCommand (reply VC_SUCCESS 7) 2%Q started = started.
Proof.
  assert (H : vc_request_id (reply VC_SUCCESS 7) <> m_vreq_ctr started
              \/ dst (vc_hdr (reply VC_SUCCESS 7)) <> system_id started
              \/ dst_ent (vc_hdr (reply VC_SUCCESS 7)) <> entity_id started)
    by (left; vm_compute; discriminate).
  split; [exact H |].
  exact (unmatched_reply_ignored (reply VC_SUCCESS 7) 2%Q started H).
Defined.





(** C7, the claim as written fails: the reply to EXEC_MANEUVER of
    [started] is pending with deadline 3.5; a matched IN_PROGRESS reply at
    time 2 leaves the deadline at -1: the request is no longer pending. *)
Lemma in_progress_clears_deadline :
  pendingReply started = true
  /\ m_vc_reply_deadline started = 3.5%Q
  /\ vc_request_id (reply VC_IN_PROGRESS 1) = m_vreq_ctr started
  /\ m_vc_reply_deadline
       (handle 2%Q (EvVehicleCommand (reply VC_IN_PROGRESS 1)) started)
     = (-1)%Q
  /\ pendingReply
       (handle 2%Q (EvVehicleCommand (reply VC_IN_PROGRESS 1)) started)
     = false.
Proof. vm_compute. by repeat split. Qed.

Lemma matched_reply_settles_witness :
  vc_type (reply VC_IN_PROGRESS 1) <> VC_REQUEST
  /\ pendingReply started = true
  /\ dst (vc_hdr (reply VC_IN_PROGRESS 1)) = system_id started
  /\ dst_ent (vc_hdr (reply VC_IN_PROGRESS 1)) = entity_id started
  /\ vc_request_id (reply VC_IN_PROGRESS 1) = m_vreq_ctr started
  /\ m_vc_reply_deadline
       (consume_VehicleCommand (reply VC_IN_PROGRESS 1) 2%Q started) = (-1)%Q.
Proof.
  assert (H1 : vc_type (reply VC_IN_PROGRESS 1) <> VC_REQUEST) by discriminate.
  assert (H2 : pendingReply started = true) by (vm_compute; reflexivity).
  assert (H3 : dst (vc_hdr (reply VC_IN_PROGRESS 1)) = system_id started)
    by reflexivity.
  assert (H4 : dst_ent (vc_hdr (reply VC_IN_PROGRESS 1)) = entity_id started)
    by reflexivity.
  assert (H5 : vc_request_id (reply VC_IN_PROGRESS 1) = m_vreq_ctr started)
    by (vm_compute; reflexivity).
  repeat (split; [assumption |]).
  exact (proj1 (matched_reply_settles (reply VC_IN_PROGRESS 1) 2%Q started
                  H1 H2 H3 H4 H5)).
Defined.

(** C8, the claim as written fails: in [ready] the published
    [last_outcome] is NONE; processing [stop_plan] there makes it FAILURE,
    so the published [PlanControlState] is not what it was. *)
Lemma stop_while_ready_changes_outcome :
  state (m_pcs ready) = PCS_READY
  /\ last_outcome (m_pcs ready) = LPO_NONE
  /\ last_outcome (m_pcs (processRequest stop_plan 1%Q ready)) = LPO_FAILURE
  /\ m_pcs (processRequest stop_plan 1%Q ready) <> m_pcs ready.
Proof. vm_compute. repeat split. discriminate. Qed.

Lemma stop_while_ready_witness :
  pc_op stop_plan = PC_STOP
  /\ getEntityState ready = ESTA_NORMAL
  /\ state (m_pcs ready) = PCS_READY
  /\ processRequest stop_plan 1%Q ready =
       set_m_reply (set_pc_plan_id "" (no_plan_reply stop_plan ready))
         (set_bus (bus ready ++ [OutPlanControl (no_plan_reply stop_plan ready)])
            (set_m_pcs
               (set_plan_eta 0
                  (set_plan_progress (-1)%Q
                     (set_last_outcome LPO_FAILURE (m_pcs ready)))) ready)).
Proof.
  assert (H1 : pc_op stop_plan = PC_STOP) by reflexivity.
  assert (H2 : getEntityState ready = ESTA_NORMAL) by reflexivity.
  assert (H3 : state (m_pcs ready) = PCS_READY) by reflexivity.
  repeat (split; [assumption |]).
  exact (stop_while_ready stop_plan 1%Q ready H1 H2 H3).
Defined.

(** C9, the code misses the claim: [started] runs plan "p1" under
    [plan_ref] 1, and the memento handler turns [memento_m1] into a
    [PlanMemento] for "p1"; what [consume] then hands to the database is
    the [Memento] it received, not that [PlanMemento], and a later lookup
    of memento "m1" finds nothing. *)
Lemma produced_memento_not_persisted :
  fst (processMemento memento_m1 (m_mh started))
  = Some (mkPlanMemento "m1" "p1" "A" "xyz")
  /\ m_db (handle 2%Q (EvMemento memento_m1) started)
     = (DBDT_MEMENTO, "m1", MsgMemento memento_m1) :: m_db started
  /\ ~ In (DBDT_MEMENTO, "m1", MsgPlanMemento (mkPlanMemento "m1" "p1" "A" "xyz"))
         (m_db (handle 2%Q (EvMemento memento_m1) started))
  /\ searchMementoInDB "m1" (m_db (handle 2%Q (EvMemento memento_m1) started))
     = inr "undefined memento".
Proof.
  vm_compute. repeat split.
  intros [H|[H|[]]]; discriminate H.
Qed.

(** ** The further properties at concrete inputs *)

Lemma refused_while_entity_not_normal_witness :
  getEntityState powered_down <> ESTA_NORMAL
  /\ processRequest load_p1 2%Q powered_down
     = refused load_p1 "engine not ready: entity state not normal" powered_down.
Proof.
  assert (H1 : getEntityState powered_down <> ESTA_NORMAL)
    by (vm_compute; discriminate).
  split; [exact H1 |].
  exact (refused_while_entity_not_normal load_p1 2%Q powered_down H1).
Defined.

Lemma load_refused_while_running_witness :
  pc_op load_p1 = PC_LOAD
  /\ getEntityState started = ESTA_NORMAL
  /\ state (m_pcs started) = PCS_EXECUTING
  /\ processRequest load_p1 2%Q started
     = refused load_p1 "cannot load plan now" started.
Proof.
  assert (H1 : pc_op load_p1 = PC_LOAD) by reflexivity.
  assert (H2 : getEntityState started = ESTA_NORMAL)
    by (vm_compute; reflexivity).
  assert (H3 : state (m_pcs started) = PCS_EXECUTING)
    by (vm_compute; reflexivity).
  split; [exact H1 |]. split; [exact H2 |]. split; [exact H3 |].
  exact (load_refused_while_running load_p1 2%Q started H1 H2 (or_intror H3)).
Defined.

Lemma unknown_operation_refused_witness :
  pc_op odd_request = PC_OP_OTHER 9
  /\ getEntityState ready = ESTA_NORMAL
  /\ processRequest odd_request 1%Q ready
     = refused odd_request "plan control operation not supported" ready.
Proof.
  assert (H1 : pc_op odd_request = PC_OP_OTHER 9) by reflexivity.
  assert (H2 : getEntityState ready = ESTA_NORMAL) by reflexivity.
  split; [exact H1 |]. split; [exact H2 |].
  exact (unknown_operation_refused odd_request 9 1%Q ready H1 H2).
Defined.

Lemma stop_while_running_witness :
  pc_op stop_plan = PC_STOP
  /\ getEntityState started = ESTA_NORMAL
  /\ state (m_pcs started) = PCS_EXECUTING
  /\ state (m_pcs (processRequest stop_plan 2%Q started)) = PCS_READY.
Proof.
  assert (H1 : pc_op stop_plan = PC_STOP) by reflexivity.
  assert (H2 : getEntityState started = ESTA_NORMAL)
    by (vm_compute; reflexivity).
  assert (H3 : state (m_pcs started) = PCS_EXECUTING)
    by (vm_compute; reflexivity).
  split; [exact H1 |]. split; [exact H2 |]. split; [exact H3 |].
  exact (proj1 (stop_while_running stop_plan 2%Q started H1 H2 (or_intror H3))).
Defined.

Lemma vehicle_failure_ends_plan_witness :
  vc_type (reply VC_FAILURE 1) = VC_FAILURE
  /\ vc_command (reply VC_FAILURE 1) <> VC_STOP_CALIBRATION
  /\ pendingReply started = true
  /\ dst (vc_hdr (reply VC_FAILURE 1)) = system_id started
  /\ dst_ent (vc_hdr (reply VC_FAILURE 1)) = entity_id started
  /\ vc_request_id (reply VC_FAILURE 1) = m_vreq_ctr started
  /\ state (m_pcs started) = PCS_EXECUTING
  /\ state (m_pcs (consume_VehicleCommand (reply VC_FAILURE 1) 2%Q started))
     = PCS_READY.
Proof.
  assert (H1 : vc_type (reply VC_FAILURE 1) = VC_FAILURE) by reflexivity.
  assert (H2 : vc_command (reply VC_FAILURE 1) <> VC_STOP_CALIBRATION)
    by (vm_compute; discriminate).
  assert (H3 : pendingReply started = true) by (vm_compute; reflexivity).
  assert (H4 : dst (vc_hdr (reply VC_FAILURE 1)) = system_id started)
    by (vm_compute; reflexivity).
  assert (H5 : dst_ent (vc_hdr (reply VC_FAILURE 1)) = entity_id started)
    by (vm_compute; reflexivity).
  assert (H6 : vc_request_id (reply VC_FAILURE 1) = m_vreq_ctr started)
    by (vm_compute; reflexivity).
  assert (H7 : state (m_pcs started) = PCS_EXECUTING)
    by (vm_compute; reflexivity).
  split; [exact H1 |]. split; [exact H2 |]. split; [exact H3 |].
  split; [exact H4 |]. split; [exact H5 |]. split; [exact H6 |].
  split; [exact H7 |].
  exact (proj1 (vehicle_failure_ends_plan (reply VC_FAILURE 1) 2%Q started
                  H1 H2 H3 H4 H5 H6 (or_intror H7))).
Defined.

Lemma matched_reply_only_settles_witness :
  vc_type (reply VC_SUCCESS 1) <> VC_REQUEST
  /\ pendingReply started = true
  /\ dst (vc_hdr (reply VC_SUCCESS 1)) = system_id started
  /\ dst_ent (vc_hdr (reply VC_SUCCESS 1)) = entity_id started
  /\ vc_request_id (reply VC_SUCCESS 1) = m_vreq_ctr started
  /\ vc_type (reply VC_SUCCESS 1) <> VC_FAILURE
  /\ consume_VehicleCommand (reply VC_SUCCESS 1) 2%Q started
     = set_m_vc_reply_deadline (-1)%Q started.
Proof.
  assert (H1 : vc_type (reply VC_SUCCESS 1) <> VC_REQUEST)
    by (vm_compute; discriminate).
  assert (H2 : pendingReply started = true) by (vm_compute; reflexivity).
  assert (H3 : dst (vc_hdr (reply VC_SUCCESS 1)) = system_id started)
    by (vm_compute; reflexivity).
  assert (H4 : dst_ent (vc_hdr (reply VC_SUCCESS 1)) = entity_id started)
    by (vm_compute; reflexivity).
  assert (H5 : vc_request_id (reply VC_SUCCESS 1) = m_vreq_ctr started)
    by (vm_compute; reflexivity).
  assert (H6 : vc_type (reply VC_SUCCESS 1) <> VC_FAILURE)
    by (vm_compute; discriminate).
  split; [exact H1 |]. split; [exact H2 |]. split; [exact H3 |].
  split; [exact H4 |]. split; [exact H5 |]. split; [exact H6 |].
  exact (matched_reply_only_settles (reply VC_SUCCESS 1) 2%Q started
           H1 H2 H3 H4 H5 (or_introl H6)).
Defined.

Lemma entity_info_first_registration_wins_witness :
  ei_label imu_info' = ei_label imu_info
  /\ consume_EntityInfo imu_info' (consume_EntityInfo imu_info ready)
     = consume_EntityInfo imu_info ready.
Proof.
  assert (H1 : ei_label imu_info' = ei_label imu_info) by reflexivity.
  split; [exact H1 |].
  exact (proj1 (entity_info_first_registration_wins imu_info imu_info' ready H1)).
Defined.

Lemma vehicle_state_defers_timeout_witness :
  getEntityState ready = ESTA_NORMAL
  /\ (3 - 1 < c_vs_timeout)%Q
  /\ onMain_vstate 3%Q (consume_VehicleState in_service 1%Q ready)
     = consume_VehicleState in_service 1%Q ready.
Proof.
  assert (H1 : getEntityState ready = ESTA_NORMAL) by reflexivity.
  assert (H2 : (3 - 1 < c_vs_timeout)%Q) by (vm_compute; reflexivity).
  split; [exact H1 |]. split; [exact H2 |].
  exact (vehicle_state_defers_timeout in_service 1%Q 3%Q ready H1 H2).
Defined.

Lemma plan_completed_witness :
  op_mode maneuver_done = VS_MANEUVER
  /\ Z.land (vs_flags maneuver_done) VFLG_MANEUVER_DONE <> 0
  /\ getEntityState executing <> ESTA_BOOT
  /\ state (m_pcs executing) = PCS_EXECUTING
  /\ pendingReply executing = false
  /\ isDone (penv 3%Q executing) (m_plan executing) = true
  /\ state (m_pcs (consume_VehicleState maneuver_done 3%Q executing))
     = PCS_READY.
Proof.
  assert (H1 : op_mode maneuver_done = VS_MANEUVER) by reflexivity.
  assert (H2 : Z.land (vs_flags maneuver_done) VFLG_MANEUVER_DONE <> 0)
    by (vm_compute; discriminate).
  assert (H3 : getEntityState executing <> ESTA_BOOT)
    by (vm_compute; discriminate).
  assert (H4 : state (m_pcs executing) = PCS_EXECUTING)
    by (vm_compute; reflexivity).
  assert (H5 : pendingReply executing = false) by (vm_compute; reflexivity).
  assert (H6 : isDone (penv 3%Q executing) (m_plan executing) = true)
    by (vm_compute; reflexivity).
  split; [exact H1 |]. split; [exact H2 |]. split; [exact H3 |].
  split; [exact H4 |]. split; [exact H5 |]. split; [exact H6 |].
  exact (proj1 (plan_completed maneuver_done 3%Q executing H1 H2 H3 H4 H5 H6)).
Defined.

Lemma start_executes_witness :
  pc_op (request PC_START 1 "p1" (Some (MsgPlanSpecification plan_p1)))
  = PC_START
  /\ getEntityState ready = ESTA_NORMAL
  /\ state (m_pcs ready) = PCS_READY
  /\ plan_parse (mkPlanEnv (set_spec_src_ent (entity_id ready) plan_p1) 1%Q)
       (m_supported_maneuvers ready) (m_cinfo ready) (m_imu_enabled ready)
       (m_state ready) (m_plan ready) = (inl stats_p1, parsed_p1)
  /\ loadStartManeuver
       (mkPlanEnv (set_spec_src_ent (entity_id ready) plan_p1) 1%Q)
       (planStarted
          (mkPlanEnv (set_spec_src_ent (entity_id ready) plan_p1) 1%Q)
          parsed_p1)
     = (Some maneuver_A, parsed_p1)
  /\ state (m_pcs (processRequest
                     (request PC_START 1 "p1"
                        (Some (MsgPlanSpecification plan_p1))) 1%Q ready))
     = PCS_EXECUTING.
Proof.
  set (pc := request PC_START 1 "p1" (Some (MsgPlanSpecification plan_p1))).
  assert (H1 : pc_op pc = PC_START) by reflexivity.
  assert (H2 : pc_arg pc = Some (MsgPlanSpecification plan_p1)) by reflexivity.
  assert (H3 : Z.land (pc_flags pc) FLG_CALIBRATE = 0) by reflexivity.
  assert (H4 : getEntityState ready = ESTA_NORMAL) by reflexivity.
  assert (H5 : state (m_pcs ready) = PCS_READY) by reflexivity.
  assert (H6 : plan_parse
                 (mkPlanEnv (set_spec_src_ent (entity_id ready) plan_p1) 1%Q)
                 (m_supported_maneuvers ready) (m_cinfo ready)
                 (m_imu_enabled ready) (m_state ready) (m_plan ready)
               = (inl stats_p1, parsed_p1))
    by (vm_compute; reflexivity).
  assert (H7 : loadStartManeuver
                 (mkPlanEnv (set_spec_src_ent (entity_id ready) plan_p1) 1%Q)
                 (planStarted
                    (mkPlanEnv (set_spec_src_ent (entity_id ready) plan_p1) 1%Q)
                    parsed_p1)
               = (Some maneuver_A, parsed_p1))
    by (vm_compute; reflexivity).
  split; [exact H1 |]. split; [exact H4 |]. split; [exact H5 |].
  split; [exact H6 |]. split; [exact H7 |].
  exact (proj1 (start_executes plan_p1 stats_p1 parsed_p1 maneuver_A parsed_p1
                  pc 1%Q ready H1 H2 H3 H4 (or_introl H5) H6 H7)).
Defined.

Lemma start_of_unknown_plan_witness :
  pc_op start_unknown = PC_START
  /\ pc_arg start_unknown = None
  /\ getEntityState ready = ESTA_NORMAL
  /\ searchSpecInDB (pc_plan_id start_unknown) (m_db ready)
     = inr "undefined plan"
  /\ searchMementoInDB (pc_plan_id start_unknown) (m_db ready)
     = inr "undefined memento"
  /\ state (m_pcs (processRequest start_unknown 1%Q ready)) = PCS_READY.
Proof.
  assert (H1 : pc_op start_unknown = PC_START) by reflexivity.
  assert (H2 : pc_arg start_unknown = None) by reflexivity.
  assert (H3 : getEntityState ready = ESTA_NORMAL) by reflexivity.
  assert (H4 : searchSpecInDB (pc_plan_id start_unknown) (m_db ready)
               = inr "undefined plan") by reflexivity.
  assert (H5 : searchMementoInDB (pc_plan_id start_unknown) (m_db ready)
               = inr "undefined memento") by reflexivity.
  split; [exact H1 |]. split; [exact H2 |]. split; [exact H3 |].
  split; [exact H4 |]. split; [exact H5 |].
  exact (proj1 (start_of_unknown_plan "undefined plan" "undefined memento"
                  start_unknown 1%Q ready H1 H2 H3 H4 H5)).
Defined.

Lemma load_of_unresumable_memento_unanswered_witness :
  pc_op (request PC_LOAD 7 "m2" (Some (MsgPlanMemento memento_B))) = PC_LOAD
  /\ getEntityState loaded = ESTA_NORMAL
  /\ state (m_pcs loaded) = PCS_READY
  /\ searchSpecInDB (pm_plan_id memento_B) (m_db loaded)
     = inl (set_spec_src_ent 44 plan_p1)
  /\ insertMemento memento_B (maneuvers (set_spec_src_ent 44 plan_p1))
     = NoManeuver
  /\ replies (processRequest
                (request PC_LOAD 7 "m2" (Some (MsgPlanMemento memento_B)))
                2%Q loaded)
     = replies loaded.
Proof.
  set (pc := request PC_LOAD 7 "m2" (Some (MsgPlanMemento memento_B))).
  assert (H1 : pc_op pc = PC_LOAD) by reflexivity.
  assert (H2 : pc_arg pc = Some (MsgPlanMemento memento_B)) by reflexivity.
  assert (H3 : getEntityState loaded = ESTA_NORMAL) by (vm_compute; reflexivity).
  assert (H4 : state (m_pcs loaded) = PCS_READY) by (vm_compute; reflexivity).
  assert (H5 : searchSpecInDB (pm_plan_id memento_B) (m_db loaded)
               = inl (set_spec_src_ent 44 plan_p1))
    by (vm_compute; reflexivity).
  assert (H6 : insertMemento memento_B (maneuvers (set_spec_src_ent 44 plan_p1))
               = NoManeuver) by (vm_compute; reflexivity).
  assert (H7 : forall l,
             insertMemento memento_B (maneuvers (set_spec_src_ent 44 plan_p1))
             <> Resumed l)
    by (intros l; rewrite H6; discriminate).
  split; [exact H1 |]. split; [exact H3 |]. split; [exact H4 |].
  split; [exact H5 |]. split; [exact H6 |].
  exact (proj1 (load_of_unresumable_memento_unanswered memento_B
                  (set_spec_src_ent 44 plan_p1) pc 2%Q loaded
                  H1 H2 H3 (or_introl H4) H5 H7)).
Defined.

Lemma power_down_refuses_requests_witness :
  po_op power_down = POP_PWR_DOWN_IP
  /\ po_dst power_down = system_id ready
  /\ getEntityState (consume_PowerOperation power_down ready) = ESTA_ERROR.
Proof.
  assert (H1 : po_op power_down = POP_PWR_DOWN_IP) by reflexivity.
  assert (H2 : po_dst power_down = system_id ready) by reflexivity.
  split; [exact H1 |]. split; [exact H2 |].
  exact (proj1 (proj2 (proj1 (power_down_refuses_requests power_down load_p1
                                1%Q ready H1) H2))).
Defined.

Lemma vehicle_ready_unblocks_witness :
  op_mode in_service = VS_SERVICE
  /\ getEntityState blocked <> ESTA_BOOT
  /\ state (m_pcs blocked) = PCS_BLOCKED
  /\ state (m_pcs (consume_VehicleState in_service 3%Q blocked)) = PCS_READY.
Proof.
  assert (H1 : op_mode in_service = VS_SERVICE) by reflexivity.
  assert (H2 : getEntityState blocked <> ESTA_BOOT)
    by (vm_compute; discriminate).
  assert (H3 : state (m_pcs blocked) = PCS_BLOCKED)
    by (vm_compute; reflexivity).
  split; [exact H1 |]. split; [exact H2 |]. split; [exact H3 |].
  exact (proj1 (vehicle_ready_unblocks in_service 3%Q blocked H1 H2 H3)).
Defined.

Lemma service_while_executing_fails_plan_witness :
  op_mode in_service = VS_SERVICE
  /\ getEntityState executing <> ESTA_BOOT
  /\ state (m_pcs executing) = PCS_EXECUTING
  /\ pendingReply executing = false
  /\ state (m_pcs (consume_VehicleState in_service 3%Q executing))
     = PCS_READY.
Proof.
  assert (H1 : op_mode in_service = VS_SERVICE) by reflexivity.
  assert (H2 : getEntityState executing <> ESTA_BOOT)
    by (vm_compute; discriminate).
  assert (H3 : state (m_pcs executing) = PCS_EXECUTING)
    by (vm_compute; reflexivity).
  assert (H4 : pendingReply executing = false) by (vm_compute; reflexivity).
  split; [exact H1 |]. split; [exact H2 |]. split; [exact H3 |].
  split; [exact H4 |].
  exact (proj1 (service_while_executing_fails_plan in_service 3%Q executing
                  H1 H2 H3 H4)).
Defined.

Lemma vehicle_error_blocks_witness :
  op_mode in_error = VS_ERROR
  /\ getEntityState ready <> ESTA_BOOT
  /\ state (m_pcs ready) = PCS_READY
  /\ pendingReply ready = false
  /\ error_text in_error <> m_last_event ready
  /\ state (m_pcs (consume_VehicleState in_error 1%Q ready)) = PCS_BLOCKED.
Proof.
  assert (H1 : op_mode in_error = VS_ERROR) by reflexivity.
  assert (H2 : getEntityState ready <> ESTA_BOOT)
    by (vm_compute; discriminate).
  assert (H3 : state (m_pcs ready) = PCS_READY) by reflexivity.
  assert (H4 : pendingReply ready = false) by (vm_compute; reflexivity).
  assert (H5 : error_text in_error <> m_last_event ready)
    by (vm_compute; discriminate).
  split; [exact H1 |]. split; [exact H2 |]. split; [exact H3 |].
  split; [exact H4 |]. split; [exact H5 |].
  exact (proj1 (proj1 (vehicle_error_blocks in_error 1%Q ready
                         (or_introl H1) H2 (or_introl H3)) H4 H5)).
Defined.

Lemma vehicle_error_while_executing_witness :
  op_mode in_error = VS_ERROR
  /\ getEntityState executing <> ESTA_BOOT
  /\ state (m_pcs executing) = PCS_EXECUTING
  /\ pendingReply executing = false
  /\ error_text in_error <> m_last_event executing
  /\ state (m_pcs (consume_VehicleState in_error 3%Q executing))
     = PCS_BLOCKED.
Proof.
  assert (H1 : op_mode in_error = VS_ERROR) by reflexivity.
  assert (H2 : getEntityState executing <> ESTA_BOOT)
    by (vm_compute; discriminate).
  assert (H3 : state (m_pcs executing) = PCS_EXECUTING)
    by (vm_compute; reflexivity).
  assert (H4 : pendingReply executing = false) by (vm_compute; reflexivity).
  assert (H5 : error_text in_error <> m_last_event executing)
    by (vm_compute; discriminate).
  split; [exact H1 |]. split; [exact H2 |]. split; [exact H3 |].
  split; [exact H4 |]. split; [exact H5 |].
  exact (proj1 (vehicle_error_while_executing in_error 3%Q executing
                  (or_introl H1) H2 H3 H4 H5)).
Defined.

Lemma start_with_calibration_witness :
  pc_op start_calibrated = PC_START
  /\ Z.land (pc_flags start_calibrated) FLG_CALIBRATE <> 0
  /\ do_calib (m_args ready) = true
  /\ getEntityState ready = ESTA_NORMAL
  /\ state (m_pcs ready) = PCS_READY
  /\ plan_parse (mkPlanEnv (set_spec_src_ent (entity_id ready) plan_p1) 1%Q)
       (m_supported_maneuvers ready) (m_cinfo ready) (m_imu_enabled ready)
       (m_state ready) (m_plan ready) = (inl stats_p1, parsed_p1)
  /\ state (m_pcs (processRequest start_calibrated 1%Q ready))
     = PCS_INITIALIZING.
Proof.
  assert (H1 : pc_op start_calibrated = PC_START) by reflexivity.
  assert (H2 : pc_arg start_calibrated = Some (MsgPlanSpecification plan_p1))
    by reflexivity.
  assert (H3 : Z.land (pc_flags start_calibrated) FLG_CALIBRATE <> 0)
    by (vm_compute; discriminate).
  assert (H4 : do_calib (m_args ready) = true) by reflexivity.
  assert (H5 : getEntityState ready = ESTA_NORMAL) by reflexivity.
  assert (H6 : state (m_pcs ready) = PCS_READY) by reflexivity.
  assert (H7 : plan_parse
                 (mkPlanEnv (set_spec_src_ent (entity_id ready) plan_p1) 1%Q)
                 (m_supported_maneuvers ready) (m_cinfo ready)
                 (m_imu_enabled ready) (m_state ready) (m_plan ready)
               = (inl stats_p1, parsed_p1))
    by (vm_compute; reflexivity).
  split; [exact H1 |]. split; [exact H3 |]. split; [exact H4 |].
  split; [exact H5 |]. split; [exact H6 |]. split; [exact H7 |].
  exact (proj1 (start_with_calibration plan_p1 stats_p1 parsed_p1
                  start_calibrated 1%Q ready H1 H2 H3 H4 H5 (or_introl H6) H7)).
Defined.

Lemma calibration_done_starts_plan_witness :
  op_mode calibrating = VS_CALIBRATION
  /\ getEntityState calibrated <> ESTA_BOOT
  /\ state (m_pcs calibrated) = PCS_INITIALIZING
  /\ pendingReply calibrated = false
  /\ isCalibrationDone (penv 12%Q calibrated)
       (updateCalibration (penv 12%Q calibrated) calibrating
          (m_plan calibrated)) = true
  /\ state (m_pcs (consume_VehicleState calibrating 12%Q calibrated))
     = PCS_EXECUTING.
Proof.
  assert (H1 : op_mode calibrating = VS_CALIBRATION) by reflexivity.
  assert (H2 : getEntityState calibrated <> ESTA_BOOT)
    by (vm_compute; discriminate).
  assert (H3 : state (m_pcs calibrated) = PCS_INITIALIZING)
    by (vm_compute; reflexivity).
  assert (H4 : pendingReply calibrated = false) by (vm_compute; reflexivity).
  assert (H5 : isCalibrationDone (penv 12%Q calibrated)
                 (updateCalibration (penv 12%Q calibrated) calibrating
                    (m_plan calibrated)) = true)
    by (vm_compute; reflexivity).
  assert (H6 : loadStartManeuver (penv 12%Q calibrated)
                 (updateCalibration (penv 12%Q calibrated) calibrating
                    (m_plan calibrated))
               = (Some maneuver_A,
                  updateCalibration (penv 12%Q calibrated) calibrating
                    (m_plan calibrated)))
    by (vm_compute; reflexivity).
  split; [exact H1 |]. split; [exact H2 |]. split; [exact H3 |].
  split; [exact H4 |]. split; [exact H5 |].
  exact (proj1 (calibration_done_starts_plan maneuver_A _ calibrating 12%Q
                  calibrated H1 H2 H3 H4 H5 H6)).
Defined.

End Scenarios.
